(** * Hierarchical freeze/thaw controller: cgroup v2 freezer core and the
      legacy freezer subsystem.

    The development embeds the freezer sources of the kernel tree - the
    cgroup v2 freezer core and the legacy freezer with its fork-time
    extension - as executable Rocq functions over an explicit kernel state,
    and settles the properties the design document states about them. *)

From Stdlib Require Import ZArith List Bool Lia.
Import ListNotations.
Open Scope Z_scope.

(** ** Machine integers *)

(** [int] is a 32-bit two's complement integer; arithmetic on it wraps. *)
Definition INT_MAX : Z := 2147483647.
Definition INT_MIN : Z := -2147483648.

Definition wrap_int (z : Z) : Z :=
  (z + 2147483648) mod 4294967296 - 2147483648.

(** ** Kernel memory as total stores indexed by object identity *)

Definition upd {A : Type} (f : nat -> A) (k : nat) (v : A) : nat -> A :=
  fun k' => if Nat.eqb k' k then v else f k'.


Definition b2z (b : bool) : Z := if b then 1 else 0.
(** * The cgroup v2 freezer core *)

Module Cgroup.

(** Objects are identified by natural numbers. *)
Abbreviation gid := nat (only parsing).
Abbreviation tid := nat (only parsing).

(** [struct cgroup_freezer_state]: the [freezer] member of [struct cgroup]. *)
Record cgroup_freezer_state : Type := mkFreezerState {
  freeze : bool;                (* administrative request on this cgroup *)
  e_freeze : Z;                 (* int: effective (nested) freeze depth *)
  nr_frozen_descendants : Z;    (* int *)
  nr_frozen_tasks : Z           (* int *)
}.

(** The members of [struct cgroup] the freezer reads and writes.  The two
    bits of [cgrp->flags] are only accessed with test_bit/set_bit/clear_bit
    and are kept as booleans; [is_dead] is what cgroup_is_dead() returns. *)
Record cgroup : Type := mkCgroup {
  CGRP_FREEZE : bool;
  CGRP_FROZEN : bool;
  is_dead : bool;
  nr_descendants : Z;
  freezer : cgroup_freezer_state
}.

(** The members of [struct task_struct] the freezer reads and writes.
    [PF_KTHREAD] is that bit of [task->flags], [JOBCTL_TRAP_FREEZE] that bit
    of [task->jobctl]; [sighand] tells whether lock_task_sighand() succeeds
    (it fails for a task that is about to die); [dfl_cgroup] is
    task_dfl_cgroup(). *)
Record task_struct : Type := mkTask {
  PF_KTHREAD : bool;
  frozen : bool;
  JOBCTL_TRAP_FREEZE : bool;
  sighand : bool;
  dfl_cgroup : gid
}.

(** Calls into collaborators (status notification, scheduler, signal code)
    and fired WARN_ON_ONCE conditions are recorded in a trace. *)
Inductive warning : Type :=
| WarnFrozenCntNegative (g : gid)
| WarnEFreezeNegative (g : gid)
| WarnNotFrozen (t : tid).

Inductive event : Type :=
| EvFileNotify (g : gid)
| EvSignalWakeUp (t : tid)
| EvWakeUpProcess (t : tid)
| EvRecalcSigpending (t : tid)
| EvWarn (w : warning).

(** The kernel state: cgroup and task objects, the list of live tasks, and
    the trace, most recent event first. *)
Record state : Type := mkState {
  cgrp : gid -> cgroup;
  task : tid -> task_struct;
  tasklist : list tid;
  trace : list event
}.

(** The cgroup tree is owned by a collaborator; the freezer consumes parent
    links, the depth of each cgroup and the pre-order sequence of a subtree
    (the subtree root first). *)
Record hierarchy : Type := mkHierarchy {
  cgroup_parent : gid -> option gid;
  cgroup_level : gid -> nat;
  css_descendants_pre : gid -> list gid
}.

(** *** Field updates *)

Definition set_freeze (b : bool) (f : cgroup_freezer_state) :=
  mkFreezerState b (e_freeze f) (nr_frozen_descendants f) (nr_frozen_tasks f).
Definition set_e_freeze (z : Z) (f : cgroup_freezer_state) :=
  mkFreezerState (freeze f) z (nr_frozen_descendants f) (nr_frozen_tasks f).
Definition set_nr_frozen_descendants (z : Z) (f : cgroup_freezer_state) :=
  mkFreezerState (freeze f) (e_freeze f) z (nr_frozen_tasks f).
Definition set_nr_frozen_tasks (z : Z) (f : cgroup_freezer_state) :=
  mkFreezerState (freeze f) (e_freeze f) (nr_frozen_descendants f) z.

Definition set_CGRP_FREEZE (b : bool) (c : cgroup) :=
  mkCgroup b (CGRP_FROZEN c) (is_dead c) (nr_descendants c) (freezer c).
Definition set_CGRP_FROZEN (b : bool) (c : cgroup) :=
  mkCgroup (CGRP_FREEZE c) b (is_dead c) (nr_descendants c) (freezer c).
Definition map_freezer (h : cgroup_freezer_state -> cgroup_freezer_state)
    (c : cgroup) :=
  mkCgroup (CGRP_FREEZE c) (CGRP_FROZEN c) (is_dead c) (nr_descendants c)
           (h (freezer c)).

Definition set_frozen (b : bool) (t : task_struct) :=
  mkTask (PF_KTHREAD t) b (JOBCTL_TRAP_FREEZE t) (sighand t) (dfl_cgroup t).
Definition set_JOBCTL_TRAP_FREEZE (b : bool) (t : task_struct) :=
  mkTask (PF_KTHREAD t) (frozen t) b (sighand t) (dfl_cgroup t).
Definition set_dfl_cgroup (g : gid) (t : task_struct) :=
  mkTask (PF_KTHREAD t) (frozen t) (JOBCTL_TRAP_FREEZE t) (sighand t) g.

Definition map_cgrp (g : gid) (h : cgroup -> cgroup) (st : state) : state :=
  mkState (upd (cgrp st) g (h (cgrp st g))) (task st) (tasklist st) (trace st).
Definition map_task (t : tid) (h : task_struct -> task_struct) (st : state)
    : state :=
  mkState (cgrp st) (upd (task st) t (h (task st t))) (tasklist st) (trace st).
Definition emit (e : event) (st : state) : state :=
  mkState (cgrp st) (task st) (tasklist st) (e :: trace st).

Definition cgroup_file_notify (g : gid) (st : state) : state :=
  emit (EvFileNotify g) st.

(** WARN_ON_ONCE(cond): the condition is evaluated every time; a true
    condition is reported and execution continues. *)
Definition WARN_ON_ONCE (cond : bool) (w : warning) (st : state) : state :=
  if cond then emit (EvWarn w) st else st.

(** Modelled from the spec: __cgroup_task_count() is defined outside the
    freezer sources.  The design document describes the denominator as the
    number of live processes directly owned by the group, exempt processes
    not being counted. *)
Definition __cgroup_task_count (st : state) (g : gid) : Z :=
  Z.of_nat (length (filter
    (fun t => negb (PF_KTHREAD (task st t)) &&
              Nat.eqb (dfl_cgroup (task st t)) g)
    (tasklist st))).

(** css_task_iter over a cgroup: the live tasks whose cgroup it is. *)
Definition css_tasks (st : state) (g : gid) : list tid :=
  filter (fun t => Nat.eqb (dfl_cgroup (task st t)) g) (tasklist st).

Section WithHierarchy.

Variable H : hierarchy.

(** *** cgroup_propagate_frozen *)

(** One iteration of the ancestor loop, at ancestor [p], with the current
    value of the local [desc]. *)
Definition propagate_step (frozen_ : bool) (p : gid) (desc : Z) (st : state)
    : state * Z :=
  if frozen_ then
    let st1 := map_cgrp p (map_freezer (fun f =>
        set_nr_frozen_descendants
          (wrap_int (nr_frozen_descendants f + desc)) f)) st in
    let c := cgrp st1 p in
    if negb (CGRP_FROZEN c) && CGRP_FREEZE c &&
       (nr_frozen_descendants (freezer c) =? nr_descendants c)
    then (cgroup_file_notify p (map_cgrp p (set_CGRP_FROZEN true) st1),
          wrap_int (desc + 1))
    else (st1, desc)
  else
    let st1 := map_cgrp p (map_freezer (fun f =>
        set_nr_frozen_descendants
          (wrap_int (nr_frozen_descendants f - desc)) f)) st in
    if CGRP_FROZEN (cgrp st1 p)
    then (cgroup_file_notify p (map_cgrp p (set_CGRP_FROZEN false) st1),
          wrap_int (desc + 1))
    else (st1, desc).

(** [while ((cgrp = cgroup_parent(cgrp)))]: the loop follows parent links
    until the root; [fuel] bounds the number of iterations. *)
Fixpoint propagate_loop (fuel : nat) (g : gid) (frozen_ : bool) (desc : Z)
    (st : state) : state :=
  match fuel with
  | O => st
  | S fuel' =>
      match cgroup_parent H g with
      | None => st
      | Some p =>
          let '(st1, desc1) := propagate_step frozen_ p desc st in
          propagate_loop fuel' p frozen_ desc1 st1
      end
  end.

(** A cgroup at depth [cgroup_level] has exactly that many ancestors. *)
Definition cgroup_propagate_frozen (g : gid) (frozen_ : bool) (st : state)
    : state :=
  propagate_loop (cgroup_level H g) g frozen_ 1 st.

(** *** cgroup_update_frozen *)

Definition cgroup_update_frozen (g : gid) (st : state) : state :=
  let c := cgrp st g in
  let frozen_ := CGRP_FREEZE c &&
                 (nr_frozen_tasks (freezer c) =? __cgroup_task_count st g) in
  if frozen_ then
    if CGRP_FROZEN c then st
    else cgroup_propagate_frozen g frozen_
           (cgroup_file_notify g (map_cgrp g (set_CGRP_FROZEN true) st))
  else
    if negb (CGRP_FROZEN c) then st
    else cgroup_propagate_frozen g frozen_
           (cgroup_file_notify g (map_cgrp g (set_CGRP_FROZEN false) st)).

(** *** Frozen-task counter *)

Definition cgroup_inc_frozen_cnt (g : gid) (st : state) : state :=
  map_cgrp g (map_freezer (fun f =>
    set_nr_frozen_tasks (wrap_int (nr_frozen_tasks f + 1)) f)) st.

Definition cgroup_dec_frozen_cnt (g : gid) (st : state) : state :=
  let st1 := map_cgrp g (map_freezer (fun f =>
    set_nr_frozen_tasks (wrap_int (nr_frozen_tasks f - 1)) f)) st in
  WARN_ON_ONCE (nr_frozen_tasks (freezer (cgrp st1 g)) <? 0)
               (WarnFrozenCntNegative g) st1.

(** *** Tasks entering and leaving the frozen state; [cur] is [current] *)

Definition cgroup_enter_frozen (cur : tid) (st : state) : state :=
  if frozen (task st cur) then st
  else
    let st1 := map_task cur (set_frozen true) st in
    let g := dfl_cgroup (task st1 cur) in
    cgroup_update_frozen g (cgroup_inc_frozen_cnt g st1).

Definition cgroup_leave_frozen (cur : tid) (always_leave : bool) (st : state)
    : state :=
  let g := dfl_cgroup (task st cur) in
  let st1 :=
    if always_leave || negb (CGRP_FREEZE (cgrp st g)) then
      let st2 := cgroup_update_frozen g (cgroup_dec_frozen_cnt g st) in
      let st3 := WARN_ON_ONCE (negb (frozen (task st2 cur)))
                              (WarnNotFrozen cur) st2 in
      map_task cur (set_frozen false) st3
    else st in
  if frozen (task st1 cur) then emit (EvRecalcSigpending cur) st1 else st1.

(** *** cgroup_freeze_task *)

Definition cgroup_freeze_task (t : tid) (freeze_ : bool) (st : state)
    : state :=
  if negb (sighand (task st t)) then st
  else if freeze_ then
    emit (EvSignalWakeUp t) (map_task t (set_JOBCTL_TRAP_FREEZE true) st)
  else
    emit (EvWakeUpProcess t) (map_task t (set_JOBCTL_TRAP_FREEZE false) st).

(** *** cgroup_do_freeze *)

(** The body of the task loop. *)
Definition do_freeze_task (freeze_ : bool) (st : state) (t : tid) : state :=
  if PF_KTHREAD (task st t) then st else cgroup_freeze_task t freeze_ st.

Definition cgroup_do_freeze (g : gid) (freeze_ : bool) (st : state) : state :=
  let st1 := map_cgrp g (set_CGRP_FREEZE freeze_) st in
  let st2 := fold_left (do_freeze_task freeze_) (css_tasks st1 g) st1 in
  if nr_descendants (cgrp st2 g) =?
     nr_frozen_descendants (freezer (cgrp st2 g))
  then cgroup_update_frozen g st2
  else st2.

(** *** cgroup_freezer_migrate_task *)

Definition cgroup_freezer_migrate_task (t : tid) (src dst : gid) (st : state)
    : state :=
  if PF_KTHREAD (task st t) then st
  else
    let st1 :=
      if frozen (task st t)
      then cgroup_dec_frozen_cnt src (cgroup_inc_frozen_cnt dst st)
      else st in
    let st2 := cgroup_update_frozen src (cgroup_update_frozen dst st1) in
    cgroup_freeze_task t (CGRP_FREEZE (cgrp st2 dst)) st2.

(** *** cgroup_freezer_frozen_exit *)

Definition cgroup_freezer_frozen_exit (t : tid) (st : state) : state :=
  let g := dfl_cgroup (task st t) in
  cgroup_update_frozen g (cgroup_dec_frozen_cnt g st).

(** *** cgroup_freeze *)

(** The body of the pre-order loop at descendant [dsct]; the boolean is the
    local [applied]. *)
Definition cgroup_freeze_visit (freeze_ : bool) (acc : state * bool)
    (dsct : gid) : state * bool :=
  let '(st, applied) := acc in
  if is_dead (cgrp st dsct) then (st, applied)
  else if freeze_ then
    let st1 := map_cgrp dsct (map_freezer (fun f =>
        set_e_freeze (wrap_int (e_freeze f + 1)) f)) st in
    if e_freeze (freezer (cgrp st1 dsct)) >? 1 then (st1, applied)
    else (cgroup_do_freeze dsct freeze_ st1, true)
  else
    let st1 := map_cgrp dsct (map_freezer (fun f =>
        set_e_freeze (wrap_int (e_freeze f - 1)) f)) st in
    if e_freeze (freezer (cgrp st1 dsct)) >? 0 then (st1, applied)
    else
      let st2 := WARN_ON_ONCE (e_freeze (freezer (cgrp st1 dsct)) <? 0)
                              (WarnEFreezeNegative dsct) st1 in
      (cgroup_do_freeze dsct freeze_ st2, true).

Definition cgroup_freeze_walk (g : gid) (freeze_ : bool) (st : state)
    : state * bool :=
  fold_left (cgroup_freeze_visit freeze_) (css_descendants_pre H g)
            (st, false).

Definition cgroup_freeze (g : gid) (freeze_ : bool) (st : state) : state :=
  if Bool.eqb (freeze (freezer (cgrp st g))) freeze_ then st
  else
    let st1 := map_cgrp g (map_freezer (set_freeze freeze_)) st in
    let '(st2, applied) := cgroup_freeze_walk g freeze_ st1 in
    if negb applied then cgroup_file_notify g st2 else st2.

(** *** The operations of the core as one transition system *)

(** Modelled from the spec: on migration the group-tree collaborator changes
    the task's owning group; the freezer hook then runs with the old and the
    new group. *)
Definition css_set_move_task (t : tid) (dst : gid) (st : state) : state :=
  map_task t (set_dfl_cgroup dst) st.

(** Modelled from the spec: an exiting task is taken off the list of live
    tasks of its group; the exit hook then runs. *)
Definition css_set_remove_task (t : tid) (st : state) : state :=
  mkState (cgrp st) (task st) (remove Nat.eq_dec t (tasklist st)) (trace st).

Inductive op : Type :=
| OpFreeze (g : gid) (freeze_ : bool)
| OpEnterFrozen (t : tid)
| OpLeaveFrozen (t : tid) (always_leave : bool)
| OpMigrate (t : tid) (dst : gid)
| OpExit (t : tid).

Definition step (o : op) (st : state) : state :=
  match o with
  | OpFreeze g b => cgroup_freeze g b st
  | OpEnterFrozen t => cgroup_enter_frozen t st
  | OpLeaveFrozen t b => cgroup_leave_frozen t b st
  | OpMigrate t dst =>
      cgroup_freezer_migrate_task t (dfl_cgroup (task st t)) dst
        (css_set_move_task t dst st)
  | OpExit t => cgroup_freezer_frozen_exit t (css_set_remove_task t st)
  end.

Definition run (ops : list op) (st : state) : state :=
  fold_left (fun s o => step o s) ops st.

End WithHierarchy.

(** An operation is matched when it respects the calling discipline of the
    collaborators: administrative requests address known groups; only live
    tasks act; a kernel thread never reaches the signal path that enters the
    frozen state; only a frozen task leaves the frozen state or takes the
    frozen-exit hook. *)
Definition matched (groups : list gid) (st : state) (o : op) : Prop :=
  match o with
  | OpFreeze g _ => In g groups
  | OpEnterFrozen t => In t (tasklist st) /\ PF_KTHREAD (task st t) = false
  | OpLeaveFrozen t _ => In t (tasklist st) /\ frozen (task st t) = true
  | OpMigrate t _ => In t (tasklist st)
  | OpExit t => In t (tasklist st) /\ frozen (task st t) = true
  end.

Fixpoint matched_run (H : hierarchy) (groups : list gid) (st : state)
    (ops : list op) : Prop :=
  match ops with
  | [] => True
  | o :: rest =>
      matched groups st o /\ matched_run H groups (step H o st) rest
  end.

(** A freshly created system: no request, nothing frozen, depth zero. *)
Definition initial (st : state) : Prop :=
  (forall g, CGRP_FREEZE (cgrp st g) = false /\
             CGRP_FROZEN (cgrp st g) = false /\
             freezer (cgrp st g) = mkFreezerState false 0 0 0) /\
  (forall t, frozen (task st t) = false /\
             JOBCTL_TRAP_FREEZE (task st t) = false) /\
  NoDup (tasklist st) /\
  trace st = [].

(** The events an execution from [st] to [st'] added to the trace. *)
Definition emitted (st st' : state) : list event :=
  firstn (length (trace st') - length (trace st)) (trace st').

(** In a well-formed tree the depth of a cgroup is one more than the depth
    of its parent. *)
Definition well_formed (H : hierarchy) : Prop :=
  forall g p, cgroup_parent H g = Some p ->
              cgroup_level H g = S (cgroup_level H p).

(** *** Footprints of the operations *)

Definition is_notify (e : event) : Prop :=
  match e with EvFileNotify _ => True | _ => False end.

(** Two versions of a cgroup that differ at most in the aggregate status
    ([CGRP_FROZEN]) and in [nr_frozen_descendants]. *)
Definition same_core (c c' : cgroup) : Prop :=
  CGRP_FREEZE c' = CGRP_FREEZE c /\
  is_dead c' = is_dead c /\
  nr_descendants c' = nr_descendants c /\
  freeze (freezer c') = freeze (freezer c) /\
  e_freeze (freezer c') = e_freeze (freezer c) /\
  nr_frozen_tasks (freezer c') = nr_frozen_tasks (freezer c).

(** The footprint of the upward recomputation: aggregate status only, and
    nothing but status notifications. *)
Definition upward (st st' : state) : Prop :=
  (forall g, same_core (cgrp st g) (cgrp st' g)) /\
  task st' = task st /\
  tasklist st' = tasklist st /\
  exists evs, trace st' = evs ++ trace st /\ Forall is_notify evs.

(** Two versions of a cgroup that agree on what the administrative walk
    leaves alone. *)
Definition same_admin (c c' : cgroup) : Prop :=
  is_dead c' = is_dead c /\
  nr_descendants c' = nr_descendants c /\
  freeze (freezer c') = freeze (freezer c) /\
  nr_frozen_tasks (freezer c') = nr_frozen_tasks (freezer c).

(** Two versions of a task that differ at most in the freeze trap bit, and
    not even there for a kernel thread. *)
Definition same_task_core (u u' : task_struct) : Prop :=
  PF_KTHREAD u' = PF_KTHREAD u /\
  frozen u' = frozen u /\
  sighand u' = sighand u /\
  dfl_cgroup u' = dfl_cgroup u /\
  (PF_KTHREAD u = true -> JOBCTL_TRAP_FREEZE u' = JOBCTL_TRAP_FREEZE u).

Definition is_walk_event (st : state) (e : event) : Prop :=
  match e with
  | EvFileNotify _ => True
  | EvSignalWakeUp u | EvWakeUpProcess u => PF_KTHREAD (task st u) = false
  | EvWarn (WarnEFreezeNegative _) => True
  | _ => False
  end.

(** The footprint of the administrative walk. *)
Definition walk_footprint (st st' : state) : Prop :=
  (forall g, same_admin (cgrp st g) (cgrp st' g)) /\
  (forall u, same_task_core (task st u) (task st' u)) /\
  tasklist st' = tasklist st /\
  exists evs, trace st' = evs ++ trace st /\ Forall (is_walk_event st) evs.

(** The freeze or thaw request issued to a task. *)
Definition freeze_action (freeze_ : bool) (t : tid) : event :=
  if freeze_ then EvSignalWakeUp t else EvWakeUpProcess t.

(** What the visit of another group leaves alone at group [d]: its freeze
    flag and depth, its tasks, and no request goes to any of its tasks. *)
Definition untouched_group (d : gid) (st st' : state) : Prop :=
  CGRP_FREEZE (cgrp st' d) = CGRP_FREEZE (cgrp st d) /\
  e_freeze (freezer (cgrp st' d)) = e_freeze (freezer (cgrp st d)) /\
  (forall u, dfl_cgroup (task st u) = d -> task st' u = task st u) /\
  exists evs, trace st' = evs ++ trace st /\
    forall u, dfl_cgroup (task st u) = d ->
              ~ In (EvSignalWakeUp u) evs /\ ~ In (EvWakeUpProcess u) evs.

(** The state after the depth of [d] has been adjusted. *)
Definition with_depth (d : gid) (z : Z) (st : state) : state :=
  map_cgrp d (map_freezer (set_e_freeze z)) st.

(** Invariant I1 of the design document at group [g], the flag CGRP_FREEZE
    being the request the recomputation reads. *)
Definition I1 (st : state) (g : gid) : Prop :=
  CGRP_FROZEN (cgrp st g) = true <->
  (CGRP_FREEZE (cgrp st g) = true /\
   nr_frozen_tasks (freezer (cgrp st g)) = __cgroup_task_count st g /\
   nr_frozen_descendants (freezer (cgrp st g)) = nr_descendants (cgrp st g)).

(** *** Balanced executions *)

(** The number of frozen live tasks of a group. *)
Definition frozen_in (st : state) (g : gid) : Z :=
  Z.of_nat (length (filter
    (fun t => frozen (task st t) && Nat.eqb (dfl_cgroup (task st t)) g)
    (tasklist st))).

(** The number of groups among [groups] with an active request that covers
    [d]: the requests of [d] itself and of its ancestors. *)
Definition requests_on (H : hierarchy) (groups : list gid) (st : state)
    (d : gid) : Z :=
  Z.of_nat (length (filter
    (fun a => freeze (freezer (cgrp st a)) &&
              existsb (Nat.eqb d) (css_descendants_pre H a))
    groups)).

Definition no_warning (evs : list event) : Prop :=
  forall w, ~ In (EvWarn w) evs.

(** The frozen-task counters agree with the tasks. *)
Definition tasks_balanced (st : state) : Prop :=
  NoDup (tasklist st) /\
  Z.of_nat (length (tasklist st)) < INT_MAX /\
  (forall g, nr_frozen_tasks (freezer (cgrp st g)) = frozen_in st g) /\
  (forall t, In t (tasklist st) -> frozen (task st t) = true ->
             PF_KTHREAD (task st t) = false).

(** The depth of a live group is the number of requests that cover it. *)
Definition depth_balanced (H : hierarchy) (groups : list gid) (st : state)
    : Prop :=
  forall d, e_freeze (freezer (cgrp st d)) =
            if is_dead (cgrp st d) then 0 else requests_on H groups st d.

Definition balanced (H : hierarchy) (groups : list gid) (st : state) : Prop :=
  tasks_balanced st /\ depth_balanced H groups st /\ no_warning (trace st).

Definition same_depth_view (st st' : state) : Prop :=
  forall g, is_dead (cgrp st' g) = is_dead (cgrp st g) /\
            freeze (freezer (cgrp st' g)) = freeze (freezer (cgrp st g)) /\
            e_freeze (freezer (cgrp st' g)) = e_freeze (freezer (cgrp st g)).

Definition same_task_view (st st' : state) : Prop :=
  (forall g, nr_frozen_tasks (freezer (cgrp st' g)) =
             nr_frozen_tasks (freezer (cgrp st g))) /\
  (forall u, PF_KTHREAD (task st' u) = PF_KTHREAD (task st u) /\
             frozen (task st' u) = frozen (task st u) /\
             dfl_cgroup (task st' u) = dfl_cgroup (task st u)) /\
  tasklist st' = tasklist st.

(** What the core may do to an exempt task [t]: nothing that freezes it. *)
Definition exempt_untouched (t : tid) (st st' : state) : Prop :=
  PF_KTHREAD (task st' t) = PF_KTHREAD (task st t) /\
  JOBCTL_TRAP_FREEZE (task st' t) = JOBCTL_TRAP_FREEZE (task st t) /\
  (frozen (task st t) = false -> frozen (task st' t) = false) /\
  exists evs, trace st' = evs ++ trace st /\
              ~ In (EvSignalWakeUp t) evs /\ ~ In (EvWakeUpProcess t) evs.

(** Modelled from the spec: the transition of a task to frozen is reported
    by the task itself once it reaches the quiesced state after a freeze
    request.  Along an execution, task [t] calls cgroup_enter_frozen() only
    while its freeze trap bit is set; the other tasks are unconstrained. *)
Fixpoint enters_on_request (H : hierarchy) (t : tid) (st : state)
    (ops : list op) : Prop :=
  match ops with
  | [] => True
  | o :: rest =>
      (o = OpEnterFrozen t -> JOBCTL_TRAP_FREEZE (task st t) = true) /\
      enters_on_request H t (step H o st) rest
  end.

(** The list of live tasks with one more task on it. *)
Definition with_live_task (t : tid) (st : state) : state :=
  mkState (cgrp st) (task st) (t :: tasklist st) (trace st).

(** The reading of "migration preserves the frozen status" under test: a
    frozen, non-exempt task whose frozen state already matches the request
    of the destination receives neither a freeze nor a thaw request. *)
Definition migration_is_silent (H : hierarchy) (t : tid) (src dst : gid)
    (st : state) : Prop :=
  PF_KTHREAD (task st t) = false ->
  frozen (task st t) = true ->
  CGRP_FREEZE (cgrp st dst) = frozen (task st t) ->
  freeze (freezer (cgrp st dst)) = frozen (task st t) ->
  let st' := cgroup_freezer_migrate_task H t src dst st in
  ~ In (EvSignalWakeUp t) (emitted st st') /\
  ~ In (EvWakeUpProcess t) (emitted st st').

(** *** The counter of frozen descendants *)

(** The number of groups strictly below [a] that report frozen. *)
Definition frozen_below (H : hierarchy) (st : state) (a : gid) : Z :=
  Z.of_nat (length (filter (fun d => CGRP_FROZEN (cgrp st d))
                           (tl (css_descendants_pre H a)))).

(** Every counter of frozen descendants agrees with the statuses of the
    groups below. *)
Definition descendants_counted (H : hierarchy) (st : state) : Prop :=
  forall a, nr_frozen_descendants (freezer (cgrp st a)) = frozen_below H st a.

(** The three views of the tree the freezer consumes describe the same
    tree: depths follow the parent links, the pre-order sequence of a
    subtree lists each group below the subtree root once, these are exactly
    the groups reached from the root by parent links, and a subtree has at
    most INT_MAX groups. *)
Definition tree_consistent (H : hierarchy) : Prop :=
  well_formed H /\
  (forall a, NoDup (tl (css_descendants_pre H a))) /\
  (forall a d, In d (tl (css_descendants_pre H a)) <->
     exists p, cgroup_parent H d = Some p /\
               (p = a \/ In p (tl (css_descendants_pre H a)))) /\
  (forall a, Z.of_nat (length (css_descendants_pre H a)) <= INT_MAX).

(** Two states with the same aggregate statuses and descendant counters. *)
Definition same_aggregate (st st' : state) : Prop :=
  forall g, CGRP_FROZEN (cgrp st' g) = CGRP_FROZEN (cgrp st g) /\
            nr_frozen_descendants (freezer (cgrp st' g)) =
            nr_frozen_descendants (freezer (cgrp st g)).

(** *** Requests, trap bits and depths *)

(** The trap bit of every live task that is neither exempt nor about to die
    mirrors the freeze flag of the group that owns it. *)
Definition traps_mirror (st : state) : Prop :=
  forall t, In t (tasklist st) ->
    PF_KTHREAD (task st t) = false -> sighand (task st t) = true ->
    JOBCTL_TRAP_FREEZE (task st t) =
    CGRP_FREEZE (cgrp st (dfl_cgroup (task st t))).

(** The freeze flag of every group is set exactly when its nested depth is
    positive. *)
Definition flag_follows_depth (st : state) : Prop :=
  forall d, CGRP_FREEZE (cgrp st d) = (0 <? e_freeze (freezer (cgrp st d))).

(** Two states with the same freeze flags and depths. *)
Definition same_request_view (st st' : state) : Prop :=
  forall g, CGRP_FREEZE (cgrp st' g) = CGRP_FREEZE (cgrp st g) /\
            e_freeze (freezer (cgrp st' g)) = e_freeze (freezer (cgrp st g)).

End Cgroup.
(** * The legacy freezer subsystem *)

Module Legacy.

(** Objects are identified by natural numbers. *)
Abbreviation fid := nat (only parsing).
Abbreviation tid := nat (only parsing).

(** [enum freezer_state_flags] *)
Definition CGROUP_FREEZER_ONLINE : Z := Z.shiftl 1 0.
Definition CGROUP_FREEZING_SELF : Z := Z.shiftl 1 1.
Definition CGROUP_FREEZING_PARENT : Z := Z.shiftl 1 2.
Definition CGROUP_FROZEN : Z := Z.shiftl 1 3.
Definition CGROUP_FREEZING : Z :=
  Z.lor CGROUP_FREEZING_SELF CGROUP_FREEZING_PARENT.

(** [~x] on a 32-bit unsigned operand. *)
Definition bitnot (x : Z) : Z := Z.lxor x (Z.ones 32).

(** [(uid_t)-1] *)
Definition UID_NONE : Z := 4294967295.

(** [struct freezer]: [css_parent] is [css.parent], [css_online] is what
    css_tryget_online() returns for [css]; [state] and [oem_freeze_flag] are
    unsigned int. *)
Record freezer : Type := mkFreezer {
  css_parent : option fid;
  css_online : bool;
  state : Z;
  oem_freeze_flag : Z
}.

(** The members of [struct task_struct] the legacy freezer reads:
    [real_cred] is [None] for a null pointer and otherwise carries
    [real_cred->uid.val]; [freezer_css] is task_css(task, freezer_cgrp_id). *)
Record task_struct : Type := mkTask {
  real_cred : option Z;
  freezer_css : fid
}.

(** Calls into the task freezer (freeze_cgroup_task, __thaw_task). *)
Inductive event : Type :=
| EvFreezeTask (t : tid)
| EvThawTask (t : tid).

(** The kernel state: freezer objects, tasks, the list of all threads of the
    system (what do_each_thread walks), the global counter
    [system_freezing_cnt] (atomic_t) and the trace, most recent event
    first. *)
Record kstate : Type := mkKstate {
  freezers : fid -> freezer;
  task : tid -> task_struct;
  tasklist : list tid;
  system_freezing_cnt : Z;
  trace : list event
}.

Definition set_state (z : Z) (f : freezer) :=
  mkFreezer (css_parent f) (css_online f) z (oem_freeze_flag f).
Definition set_oem_freeze_flag (z : Z) (f : freezer) :=
  mkFreezer (css_parent f) (css_online f) (state f) z.

Definition map_freezer (f : fid) (h : freezer -> freezer) (st : kstate) :=
  mkKstate (upd (freezers st) f (h (freezers st f))) (task st) (tasklist st)
           (system_freezing_cnt st) (trace st).
Definition emit (e : event) (st : kstate) :=
  mkKstate (freezers st) (task st) (tasklist st) (system_freezing_cnt st)
           (e :: trace st).
Definition atomic_inc (st : kstate) :=
  mkKstate (freezers st) (task st) (tasklist st)
           (wrap_int (system_freezing_cnt st + 1)) (trace st).
Definition atomic_dec (st : kstate) :=
  mkKstate (freezers st) (task st) (tasklist st)
           (wrap_int (system_freezing_cnt st - 1)) (trace st).

(** css_task_iter over a freezer: the threads whose freezer css it is. *)
Definition css_tasks (st : kstate) (f : fid) : list tid :=
  filter (fun t => Nat.eqb (freezer_css (task st t)) f) (tasklist st).

Definition task_freezer (st : kstate) (t : tid) : fid :=
  freezer_css (task st t).

(** The root css is the one without a parent. *)
Definition task_css_is_root (st : kstate) (t : tid) : bool :=
  match css_parent (freezers st (task_freezer st t)) with
  | None => true
  | Some _ => false
  end.

(** *** freeze_cgroup, unfreeze_cgroup *)

Definition freeze_cgroup (f : fid) (st : kstate) : kstate :=
  fold_left (fun s t => emit (EvFreezeTask t) s) (css_tasks st f) st.

(** The first loop of unfreeze_cgroup: the pair carries [tmp_uid_val]. *)
Definition unfreeze_own_step (acc : Z * kstate) (t : tid) : Z * kstate :=
  let '(tmp_uid_val, st) := acc in
  let tmp' := match real_cred (task st t) with
              | Some uid => uid
              | None => tmp_uid_val
              end in
  (tmp', emit (EvThawTask t) st).

(** The body of the do_each_thread loop. *)
Definition unfreeze_uid_step (tmp_uid_val : Z) (st : kstate) (p : tid)
    : kstate :=
  match real_cred (task st p) with
  | Some uid => if uid =? tmp_uid_val then emit (EvThawTask p) st else st
  | None => st
  end.

Definition unfreeze_cgroup (f : fid) (st : kstate) : kstate :=
  let '(tmp_uid_val, st1) :=
    fold_left unfreeze_own_step (css_tasks st f) (UID_NONE, st) in
  fold_left (unfreeze_uid_step tmp_uid_val) (tasklist st1) st1.

(** *** freezer_apply_state *)

Definition freezer_apply_state (f : fid) (freeze_ : bool) (flag : Z)
    (st : kstate) : kstate :=
  if Z.land (state (freezers st f)) CGROUP_FREEZER_ONLINE =? 0 then st
  else if freeze_ then
    let st1 :=
      if Z.land (state (freezers st f)) CGROUP_FREEZING =? 0
      then atomic_inc st else st in
    let st2 := map_freezer f (fun x => set_state (Z.lor (state x) flag) x)
                           st1 in
    freeze_cgroup f st2
  else
    let was_freezing :=
      negb (Z.land (state (freezers st f)) CGROUP_FREEZING =? 0) in
    let st1 := map_freezer f
        (fun x => set_state (Z.land (state x) (bitnot flag)) x) st in
    if Z.land (state (freezers st1 f)) CGROUP_FREEZING =? 0 then
      let st2 := if was_freezing then atomic_dec st1 else st1 in
      let st3 := map_freezer f
          (fun x => set_state (Z.land (state x) (bitnot CGROUP_FROZEN)) x)
          st2 in
      unfreeze_cgroup f st3
    else st1.

Section WithHierarchy.

(** The pre-order sequence of the css subtree below a freezer, the freezer
    itself first; owned by the tree collaborator. *)
Variable css_descendants_pre : fid -> list fid.

(** *** freezer_change_state *)

(** The body of the pre-order loop at [pos].  [None] stands for the
    dereference of a null [parent]. *)
Definition change_state_visit (root : fid) (freeze_ : bool)
    (acc : option kstate) (pos : fid) : option kstate :=
  match acc with
  | None => None
  | Some st =>
      if negb (css_online (freezers st pos)) then Some st
      else if Nat.eqb pos root then
        Some (freezer_apply_state pos freeze_ CGROUP_FREEZING_SELF st)
      else
        match css_parent (freezers st pos) with
        | None => None
        | Some parent =>
            Some (freezer_apply_state pos
                    (negb (Z.land (state (freezers st parent))
                                  CGROUP_FREEZING =? 0))
                    CGROUP_FREEZING_PARENT st)
        end
  end.

Definition freezer_change_state (f : fid) (freeze_ : bool) (st : kstate)
    : option kstate :=
  let st1 := map_freezer f
      (set_oem_freeze_flag (if freeze_ then 1 else 0)) st in
  fold_left (change_state_visit f freeze_) (css_descendants_pre f)
            (Some st1).

(** *** unfreezer_fork *)

Definition unfreezer_fork (t : tid) (st : kstate) : option kstate :=
  if task_css_is_root st t then Some st
  else
    let f := task_freezer st t in
    if negb (oem_freeze_flag (freezers st f) =? 1) then Some st
    else freezer_change_state f false st.

(** *** The requests of the legacy subsystem as one transition system *)

Inductive op : Type :=
| OpChangeState (f : fid) (freeze_ : bool)
| OpFork (t : tid).

Definition step (o : op) (st : kstate) : option kstate :=
  match o with
  | OpChangeState f b => freezer_change_state f b st
  | OpFork t => unfreezer_fork t st
  end.

Fixpoint run (ops : list op) (st : kstate) : option kstate :=
  match ops with
  | [] => Some st
  | o :: rest =>
      match step o st with
      | Some st1 => run rest st1
      | None => None
      end
  end.

End WithHierarchy.

(** *** Auxiliary notions used by the statements *)

Definition is_online (x : freezer) : bool :=
  negb (Z.land (state x) CGROUP_FREEZER_ONLINE =? 0).

(** The FREEZING union of a freezer is non-empty. *)
Definition is_freezing (x : freezer) : bool :=
  negb (Z.land (state x) CGROUP_FREEZING =? 0).

(** The number of online groups among [groups] with a FREEZING flag. *)
Definition nr_freezing (groups : list fid) (st : kstate) : Z :=
  Z.of_nat (length (filter
    (fun f => is_online (freezers st f) && is_freezing (freezers st f))
    groups)).

(** The events an execution from [st] to [st'] added to the trace. *)
Definition emitted (st st' : kstate) : list event :=
  firstn (length (trace st') - length (trace st)) (trace st').

(** The value of [tmp_uid_val] after the first loop of unfreeze_cgroup over
    the tasks [l]. *)
Definition last_uid (st : kstate) (l : list tid) (tmp : Z) : Z :=
  fold_left (fun acc t => match real_cred (task st t) with
                          | Some uid => uid
                          | None => acc
                          end) l tmp.

Definition has_uid (st : kstate) (uid : Z) (p : tid) : bool :=
  match real_cred (task st p) with
  | Some u => u =? uid
  | None => false
  end.

(** A state with the same objects and a longer trace. *)
Definition with_trace (evs : list event) (st : kstate) : kstate :=
  mkKstate (freezers st) (task st) (tasklist st) (system_freezing_cnt st)
           (evs ++ trace st).

(** [st'] is [st] with the state word of [f] set to [z], the global counter
    set to [c] and the events [evs] added. *)
Definition word_set (f : fid) (z c : Z) (evs : list event)
    (st st' : kstate) : Prop :=
  (forall x, freezers st' x =
             if Nat.eqb x f then set_state z (freezers st f)
             else freezers st x) /\
  task st' = task st /\
  tasklist st' = tasklist st /\
  system_freezing_cnt st' = c /\
  trace st' = evs ++ trace st.

(** The flags freezer_apply_state is called with. *)
Definition freezing_flag (flag : Z) : Prop :=
  flag = CGROUP_FREEZING_SELF \/ flag = CGROUP_FREEZING_PARENT.

(** The footprint of freezer_apply_state(f, freeze): the state word of [f]
    and the global counter may change, tasks of [f] are frozen when
    [freeze] holds, and tasks are thawed otherwise. *)
Definition only_freezer (f : fid) (freeze_ : bool) (st st' : kstate)
    : Prop :=
  (forall x, x <> f -> freezers st' x = freezers st x) /\
  css_parent (freezers st' f) = css_parent (freezers st f) /\
  css_online (freezers st' f) = css_online (freezers st f) /\
  oem_freeze_flag (freezers st' f) = oem_freeze_flag (freezers st f) /\
  task st' = task st /\
  tasklist st' = tasklist st /\
  exists evs, trace st' = evs ++ trace st /\
    forall t, In (EvFreezeTask t) evs ->
              freeze_ = true /\ freezer_css (task st t) = f.

(** Requests address known groups. *)
Definition matched (groups : list fid) (st : kstate) (o : op) : Prop :=
  match o with
  | OpChangeState f _ => In f groups
  | OpFork t => In (task_freezer st t) groups
  end.

(** The known groups are closed under descent, and every group met below
    the root of a walk has a parent. *)
Definition well_linked (desc : fid -> list fid) (groups : list fid)
    (st : kstate) : Prop :=
  forall f pos, In f groups -> In pos (desc f) ->
    In pos groups /\ (pos <> f -> css_parent (freezers st pos) <> None).

(** What the visits of other groups leave alone at freezer [f]. *)
Definition root_kept (f : fid) (st st' : kstate) : Prop :=
  freezers st' f = freezers st f /\
  task st' = task st /\
  tasklist st' = tasklist st /\
  exists evs, trace st' = evs ++ trace st /\
    forall t, freezer_css (task st t) = f -> ~ In (EvFreezeTask t) evs.

(** The reading of the fork-time enforcement under test: for a task forked
    into a non-root group whose extension flag is set, the hook issues a
    freeze to the task and does not thaw it. *)
Definition fork_enforces_freeze (desc : fid -> list fid) (t : tid)
    (st : kstate) : Prop :=
  task_css_is_root st t = false ->
  oem_freeze_flag (freezers st (task_freezer st t)) = 1 ->
  exists st', unfreezer_fork desc t st = Some st' /\
    In (EvFreezeTask t) (emitted st st') /\
    ~ In (EvThawTask t) (emitted st st').

(** The pre-order sequence of the subtree of [f] lists each group once and
    after its parent. *)
Definition parents_first (desc : fid -> list fid) (f : fid) (st : kstate)
    : Prop :=
  NoDup (desc f) /\
  forall l1 pos l2, desc f = l1 ++ pos :: l2 -> pos <> f ->
    exists p, css_parent (freezers st pos) = Some p /\ In p l1.

(** A group that can be pinned and carries the ONLINE flag. *)
Definition fully_online (st : kstate) (pos : fid) : Prop :=
  css_online (freezers st pos) = true /\ is_online (freezers st pos) = true.

End Legacy.
(** * Concrete systems used to evaluate the code *)

Module Examples.

Import Cgroup.

(** A chain of three groups: the root 0, its child 1, and 2 below 1. *)
Definition H3 : hierarchy :=
  mkHierarchy
    (fun g => match g with
              | 1%nat => Some 0%nat
              | 2%nat => Some 1%nat
              | _ => None
              end)
    (fun g => match g with 1%nat => 1%nat | 2%nat => 2%nat | _ => 0%nat end)
    (fun g => match g with
              | 0%nat => [0; 1; 2]%nat
              | 1%nat => [1; 2]%nat
              | _ => [g]
              end).

Definition fresh_cgroup (ndesc : Z) : cgroup :=
  mkCgroup false false false ndesc (mkFreezerState false 0 0 0).

(** Task 0 lives in group 1, task 1 in group 2; task 2 is a kernel thread
    in group 2 that is not on the list of live tasks of the example. *)
Definition st0 : state :=
  mkState
    (fun g => fresh_cgroup
                (match g with 0%nat => 2 | 1%nat => 1 | _ => 0 end))
    (fun t => match t with
              | 0%nat => mkTask false false false true 1%nat
              | 1%nat => mkTask false false false true 2%nat
              | _ => mkTask true false false true 2%nat
              end)
    [0; 1]%nat
    [].

(** Group 1 is asked to freeze and its own task 0 has stopped; task 1, in
    the child group 2, is still running. *)
Definition st_parent_task_stopped : state :=
  run H3 [OpFreeze 1%nat true; OpEnterFrozen 0%nat] st0.

(** Group 1 is asked to freeze and task 1 of the child group 2 has stopped;
    task 0, in group 1 itself, is still running. *)
Definition st_child_task_stopped : state :=
  run H3 [OpFreeze 1%nat true; OpEnterFrozen 1%nat] st0.

(** Groups 1 and 2 have both been asked to freeze, task 0 of group 1 has
    stopped, and the tree collaborator has just moved it to group 2. *)
Definition st_before_move : state :=
  run H3 [OpFreeze 1%nat true; OpFreeze 2%nat true; OpEnterFrozen 0%nat] st0.
Definition st_moved : state := css_set_move_task 0%nat 2%nat st_before_move.

(** A root 0 with two children 1 and 2; task 0 lives in group 1, group 2 is
    empty. *)
Definition H_siblings : hierarchy :=
  mkHierarchy
    (fun g => match g with
              | 1%nat | 2%nat => Some 0%nat
              | _ => None
              end)
    (fun g => match g with 0%nat => 0%nat | _ => 1%nat end)
    (fun g => match g with 0%nat => [0; 1; 2]%nat | _ => [g] end).

Definition st_siblings : state :=
  mkState
    (fun g => fresh_cgroup (match g with 0%nat => 2 | _ => 0 end))
    (fun _ => mkTask false false false true 1%nat)
    [0%nat]
    [].

(** The aggregate status of the three groups. *)
Definition frozen_flags (st : state) : list bool :=
  map (fun g => CGRP_FROZEN (cgrp st g)) [0; 1; 2]%nat.

(** The same system with the kernel thread 2 on the list of live tasks. *)
Definition st0_kthread : state := with_live_task 2%nat st0.

(** A balanced execution: freeze group 1, task 0 stops, moves to group 2,
    the request is withdrawn and the task resumes. *)
Definition balanced_ops : list op :=
  [OpFreeze 1%nat true; OpEnterFrozen 0%nat; OpMigrate 0%nat 2%nat;
   OpFreeze 1%nat false; OpLeaveFrozen 0%nat false].

End Examples.

Module LegacyExamples.

Import Legacy.

(** Freezer 0 is the root, freezer 1 its child, online, frozen on its own
    request and flagged by the extension.  Task 0 (uid 1000) is the forked
    child in freezer 1; tasks 1 (uid 1000) and 2 (uid 0) live in the root. *)
Definition lst0 : kstate :=
  mkKstate
    (fun f => match f with
              | 1%nat => mkFreezer (Some 0%nat) true
                           (Z.lor CGROUP_FREEZER_ONLINE
                              (Z.lor CGROUP_FREEZING_SELF CGROUP_FROZEN)) 1
              | _ => mkFreezer None true CGROUP_FREEZER_ONLINE 0
              end)
    (fun t => match t with
              | 0%nat => mkTask (Some 1000) 1%nat
              | 1%nat => mkTask (Some 1000) 0%nat
              | _ => mkTask (Some 0) 0%nat
              end)
    [0; 1; 2]%nat
    1
    [].

Definition ldesc : fid -> list fid :=
  fun f => match f with 0%nat => [0; 1]%nat | _ => [f] end.

End LegacyExamples.

(** * Facts about machine integers, stores and counting *)

Lemma wrap_int_id (z : Z) : INT_MIN <= z <= INT_MAX -> wrap_int z = z.
Proof.
  unfold INT_MIN, INT_MAX, wrap_int. intros Hz.
  rewrite Z.mod_small by lia. lia.
Qed.

Lemma upd_same {A : Type} (f : nat -> A) (k : nat) (v : A) : upd f k v k = v.
Proof. unfold upd. now rewrite Nat.eqb_refl. Qed.

Lemma upd_other {A : Type} (f : nat -> A) (k k' : nat) (v : A) :
  k' <> k -> upd f k v k' = f k'.
Proof.
  unfold upd. intros Hne.
  destruct (Nat.eqb_spec k' k) as [->|_]; [contradiction | reflexivity].
Qed.

Lemma filter_agree {A : Type} (p q : A -> bool) (l : list A) :
  (forall x, In x l -> p x = q x) -> filter p l = filter q l.
Proof.
  induction l as [|a l IH]; simpl; intros Hpq; [reflexivity|].
  rewrite (Hpq a) by now left.
  rewrite IH by (intros x Hx; apply Hpq; now right).
  reflexivity.
Qed.

(** Changing the predicate at one element of a duplicate-free list changes
    the count by the difference at that element. *)
Lemma count_change_one (p q : nat -> bool) (t : nat) (l : list nat) :
  NoDup l -> In t l -> (forall u, u <> t -> q u = p u) ->
  Z.of_nat (length (filter q l)) =
  Z.of_nat (length (filter p l)) + b2z (q t) - b2z (p t).
Proof.
  intros Hnd Hin Hpq. induction Hnd as [|a l Hnotin Hnd IH].
  - destruct Hin.
  - destruct (Nat.eq_dec a t) as [->|Hne].
    + assert (Hrest : filter q l = filter p l).
      { apply filter_agree. intros x Hx. apply Hpq. intros ->. contradiction. }
      simpl. rewrite Hrest.
      destruct (q t), (p t); simpl length; unfold b2z; lia.
    + assert (Hin' : In t l) by (destruct Hin; [contradiction | assumption]).
      specialize (IH Hin'). simpl. rewrite (Hpq a Hne).
      destruct (p a); simpl length; lia.
Qed.

Lemma count_remove (p : nat -> bool) (t : nat) (l : list nat) :
  NoDup l -> In t l ->
  Z.of_nat (length (filter p (remove Nat.eq_dec t l))) =
  Z.of_nat (length (filter p l)) - b2z (p t).
Proof.
  intros Hnd Hin. induction Hnd as [|a l Hnotin Hnd IH].
  - destruct Hin.
  - simpl. destruct (Nat.eq_dec t a) as [->|Hne].
    + rewrite notin_remove by assumption.
      destruct (p a); simpl length; unfold b2z; lia.
    + assert (Hin' : In t l) by (destruct Hin; [congruence | assumption]).
      specialize (IH Hin'). simpl.
      destruct (p a); simpl length; lia.
Qed.

Lemma count_le_length {A : Type} (p : A -> bool) (l : list A) :
  (0 <= Z.of_nat (length (filter p l)) <= Z.of_nat (length l))%Z.
Proof.
  split; [lia|]. apply inj_le. apply filter_length_le.
Qed.

Lemma firstn_app_exact {A : Type} (l1 l2 : list A) :
  firstn (length (l1 ++ l2) - length l2) (l1 ++ l2) = l1.
Proof.
  rewrite length_app.
  replace (length l1 + length l2 - length l2)%nat with (length l1) by lia.
  rewrite firstn_app, Nat.sub_diag, firstn_all. simpl. apply app_nil_r.
Qed.

Lemma filter_none {A : Type} (l : list A) : filter (fun _ => false) l = [].
Proof. induction l as [|a l IH]; [reflexivity | exact IH]. Qed.

Lemma NoDup_app_disjoint {A : Type} (l1 l2 : list A) (x : A) :
  NoDup (l1 ++ l2) -> In x l1 -> In x l2 -> False.
Proof.
  induction l1 as [|a l1 IH]; intros Hnd Hin1 Hin2; [destruct Hin1|].
  cbn [app] in Hnd. inversion Hnd as [|y l Hnot Hnd']; subst.
  destruct Hin1 as [->|Hin1].
  - apply Hnot. rewrite in_app_iff. now right.
  - now apply IH.
Qed.

(** * Facts about the cgroup v2 freezer core *)

Module CgroupFacts.

Import Cgroup.

Lemma cgrp_map_cgrp_same g h st :
  cgrp (map_cgrp g h st) g = h (cgrp st g).
Proof. unfold map_cgrp; simpl. apply upd_same. Qed.

Lemma cgrp_map_cgrp_other g g' h st :
  g' <> g -> cgrp (map_cgrp g h st) g' = cgrp st g'.
Proof. intros Hne. unfold map_cgrp; simpl. now apply upd_other. Qed.

Lemma task_map_task_same t h st :
  task (map_task t h st) t = h (task st t).
Proof. unfold map_task; simpl. apply upd_same. Qed.

Lemma task_map_task_other t t' h st :
  t' <> t -> task (map_task t h st) t' = task st t'.
Proof. intros Hne. unfold map_task; simpl. now apply upd_other. Qed.

Lemma emitted_app st st' evs :
  trace st' = evs ++ trace st -> emitted st st' = evs.
Proof. unfold emitted. intros ->. apply firstn_app_exact. Qed.

(** ** The upward recomputation touches aggregate status only *)

Lemma same_core_refl c : same_core c c.
Proof. unfold same_core. tauto. Qed.

Lemma same_core_trans c1 c2 c3 :
  same_core c1 c2 -> same_core c2 c3 -> same_core c1 c3.
Proof. unfold same_core. intuition congruence. Qed.

Lemma upward_refl st : upward st st.
Proof.
  repeat split; try apply same_core_refl.
  exists []. split; [reflexivity | constructor].
Qed.

Lemma upward_trans st1 st2 st3 :
  upward st1 st2 -> upward st2 st3 -> upward st1 st3.
Proof.
  intros (Hc1 & Ht1 & Hl1 & evs1 & He1 & Hn1)
         (Hc2 & Ht2 & Hl2 & evs2 & He2 & Hn2).
  split; [|split; [|split]].
  - intros g. eapply same_core_trans; [apply Hc1 | apply Hc2].
  - congruence.
  - congruence.
  - exists (evs2 ++ evs1). split.
    + rewrite He2, He1. apply app_assoc.
    + apply Forall_app. now split.
Qed.

Lemma upward_map_frozen_bit g b st :
  upward st (map_cgrp g (set_CGRP_FROZEN b) st).
Proof.
  split; [|split; [|split]]; try reflexivity.
  - intros g'. destruct (Nat.eq_dec g' g) as [->|Hne].
    + rewrite cgrp_map_cgrp_same. unfold same_core. simpl. tauto.
    + rewrite cgrp_map_cgrp_other by assumption. apply same_core_refl.
  - exists []. split; [reflexivity | constructor].
Qed.

Lemma upward_map_nfd g z st :
  upward st (map_cgrp g (map_freezer (fun f => set_nr_frozen_descendants (z f) f)) st).
Proof.
  split; [|split; [|split]]; try reflexivity.
  - intros g'. destruct (Nat.eq_dec g' g) as [->|Hne].
    + rewrite cgrp_map_cgrp_same. unfold same_core. simpl. tauto.
    + rewrite cgrp_map_cgrp_other by assumption. apply same_core_refl.
  - exists []. split; [reflexivity | constructor].
Qed.

Lemma upward_notify g st : upward st (cgroup_file_notify g st).
Proof.
  split; [|split; [|split]]; try reflexivity.
  - intros g'. apply same_core_refl.
  - exists [EvFileNotify g]. split; [reflexivity|].
    constructor; [exact I | constructor].
Qed.

(** ** The footprint of the administrative walk *)

Lemma same_admin_refl c : same_admin c c.
Proof. unfold same_admin. tauto. Qed.

Lemma same_task_core_refl u : same_task_core u u.
Proof. unfold same_task_core. tauto. Qed.

Lemma is_walk_event_mono st st' e :
  (forall u, same_task_core (task st u) (task st' u)) ->
  is_walk_event st' e -> is_walk_event st e.
Proof.
  intros Hs. destruct e as [g|u|u|u|w]; simpl; try tauto;
    destruct (Hs u) as (Hk & _); congruence.
Qed.

Lemma walk_footprint_refl st : walk_footprint st st.
Proof.
  split; [|split; [|split]].
  - intros g. apply same_admin_refl.
  - intros u. apply same_task_core_refl.
  - reflexivity.
  - exists []. split; [reflexivity | constructor].
Qed.

Lemma walk_footprint_trans st1 st2 st3 :
  walk_footprint st1 st2 -> walk_footprint st2 st3 -> walk_footprint st1 st3.
Proof.
  intros (Hc1 & Ht1 & Hl1 & evs1 & He1 & Hn1)
         (Hc2 & Ht2 & Hl2 & evs2 & He2 & Hn2).
  split; [|split; [|split]].
  - intros g. specialize (Hc1 g). specialize (Hc2 g).
    unfold same_admin in *. intuition congruence.
  - intros u. specialize (Ht1 u). specialize (Ht2 u).
    unfold same_task_core in *.
    destruct Ht1 as (A1 & A2 & A3 & A4 & A5).
    destruct Ht2 as (B1 & B2 & B3 & B4 & B5).
    repeat split; try congruence.
    intros Hk. rewrite B5 by congruence. now apply A5.
  - congruence.
  - exists (evs2 ++ evs1). split.
    + rewrite He2, He1. apply app_assoc.
    + apply Forall_app. split; [|assumption].
      eapply Forall_impl; [|exact Hn2].
      intros e. now apply is_walk_event_mono.
Qed.

Lemma upward_walk_footprint st st' : upward st st' -> walk_footprint st st'.
Proof.
  intros (Hc & Ht & Hl & evs & He & Hn).
  split; [|split; [|split]].
  - intros g. destruct (Hc g) as (_ & A & B & C & _ & D).
    unfold same_admin. tauto.
  - intros u. rewrite Ht. apply same_task_core_refl.
  - assumption.
  - exists evs. split; [assumption|].
    eapply Forall_impl; [|exact Hn].
    intros [g|u|u|u|w]; simpl; tauto.
Qed.

Lemma walk_footprint_map_cgrp g h st :
  (forall c, same_admin c (h c)) -> walk_footprint st (map_cgrp g h st).
Proof.
  intros Hh. split; [|split; [|split]]; try reflexivity.
  - intros g'. destruct (Nat.eq_dec g' g) as [->|Hne].
    + rewrite cgrp_map_cgrp_same. apply Hh.
    + rewrite cgrp_map_cgrp_other by assumption. apply same_admin_refl.
  - intros u. apply same_task_core_refl.
  - exists []. split; [reflexivity | constructor].
Qed.

Lemma walk_footprint_emit e st :
  is_walk_event st e -> walk_footprint st (emit e st).
Proof.
  intros He. split; [|split; [|split]]; try reflexivity.
  - intros g. apply same_admin_refl.
  - intros u. apply same_task_core_refl.
  - exists [e]. split; [reflexivity|]. constructor; [assumption | constructor].
Qed.

Lemma walk_footprint_trap t b st :
  PF_KTHREAD (task st t) = false ->
  walk_footprint st (map_task t (set_JOBCTL_TRAP_FREEZE b) st).
Proof.
  intros Hk. split; [|split; [|split]]; try reflexivity.
  - intros g. apply same_admin_refl.
  - intros u. destruct (Nat.eq_dec u t) as [->|Hne].
    + rewrite task_map_task_same. unfold same_task_core; simpl.
      repeat split. congruence.
    + rewrite task_map_task_other by assumption. apply same_task_core_refl.
  - exists []. split; [reflexivity | constructor].
Qed.

Lemma cgroup_freeze_task_footprint t b st :
  PF_KTHREAD (task st t) = false ->
  walk_footprint st (cgroup_freeze_task t b st).
Proof.
  intros Hk. unfold cgroup_freeze_task.
  destruct (sighand (task st t)); simpl; [|apply walk_footprint_refl].
  destruct b;
    (eapply walk_footprint_trans;
       [apply (walk_footprint_trap t); assumption|];
     apply walk_footprint_emit; cbn [is_walk_event];
     rewrite task_map_task_same; cbn [PF_KTHREAD set_JOBCTL_TRAP_FREEZE];
     assumption).
Qed.

Lemma do_freeze_task_footprint b st t :
  walk_footprint st (do_freeze_task b st t).
Proof.
  unfold do_freeze_task. destruct (PF_KTHREAD (task st t)) eqn:Hk.
  - apply walk_footprint_refl.
  - now apply cgroup_freeze_task_footprint.
Qed.

Lemma do_freeze_tasks_footprint b l : forall st,
  walk_footprint st (fold_left (do_freeze_task b) l st).
Proof.
  induction l as [|t l IH]; intros st; simpl.
  - apply walk_footprint_refl.
  - eapply walk_footprint_trans; [apply do_freeze_task_footprint | apply IH].
Qed.

Section WithHierarchy.

Variable H : hierarchy.

Lemma propagate_step_upward b p desc st :
  upward st (fst (propagate_step b p desc st)).
Proof.
  unfold propagate_step. destruct b.
  - match goal with |- context [if ?c then _ else _] => destruct c end; simpl.
    + eapply upward_trans; [apply upward_map_nfd|].
      eapply upward_trans; [apply upward_map_frozen_bit | apply upward_notify].
    + apply upward_map_nfd.
  - match goal with |- context [if ?c then _ else _] => destruct c end; simpl.
    + eapply upward_trans; [apply upward_map_nfd|].
      eapply upward_trans; [apply upward_map_frozen_bit | apply upward_notify].
    + apply upward_map_nfd.
Qed.

Lemma propagate_loop_upward fuel : forall g b desc st,
  upward st (propagate_loop H fuel g b desc st).
Proof.
  induction fuel as [|fuel IH]; intros g b desc st; simpl.
  - apply upward_refl.
  - destruct (cgroup_parent H g) as [p|]; [|apply upward_refl].
    pose proof (propagate_step_upward b p desc st) as Hs.
    destruct (propagate_step b p desc st) as [st1 desc1]. simpl in Hs.
    eapply upward_trans; [exact Hs | apply IH].
Qed.

(** In a well-formed tree the ancestor loop never stops for lack of fuel:
    it ends at the root, and more fuel changes nothing. *)
Lemma propagate_loop_enough_fuel :
  well_formed H ->
  forall fuel g b desc st,
    (cgroup_level H g <= fuel)%nat ->
    propagate_loop H fuel g b desc st =
    propagate_loop H (cgroup_level H g) g b desc st.
Proof.
  intros Hwf. induction fuel as [|fuel IH]; intros g b desc st Hle.
  - assert (Hz : cgroup_level H g = 0%nat) by lia. now rewrite Hz.
  - cbn [propagate_loop].
    destruct (cgroup_parent H g) as [p|] eqn:Hp.
    + rewrite (Hwf g p Hp). cbn [propagate_loop]. rewrite Hp.
      destruct (propagate_step b p desc st) as [st1 desc1].
      apply IH. rewrite (Hwf g p Hp) in Hle. lia.
    + destruct (cgroup_level H g); cbn [propagate_loop];
        [reflexivity | now rewrite Hp].
Qed.

Lemma cgroup_update_frozen_upward g st :
  upward st (cgroup_update_frozen H g st).
Proof.
  unfold cgroup_update_frozen, cgroup_propagate_frozen.
  repeat match goal with
         | |- context [if ?c then _ else _] => destruct c
         end; try apply upward_refl;
  (eapply upward_trans; [apply upward_map_frozen_bit|];
   eapply upward_trans; [apply upward_notify | apply propagate_loop_upward]).
Qed.

Lemma cgroup_do_freeze_footprint g b st :
  walk_footprint st (cgroup_do_freeze H g b st).
Proof.
  unfold cgroup_do_freeze.
  set (st1 := map_cgrp g (set_CGRP_FREEZE b) st).
  set (st2 := fold_left (do_freeze_task b) (css_tasks st1 g) st1).
  assert (H12 : walk_footprint st st2).
  { eapply walk_footprint_trans; [|apply do_freeze_tasks_footprint].
    apply walk_footprint_map_cgrp. intros c. unfold same_admin; simpl. tauto. }
  destruct (_ =? _); [|exact H12].
  eapply walk_footprint_trans; [exact H12|].
  apply upward_walk_footprint, cgroup_update_frozen_upward.
Qed.

Lemma walk_footprint_e_freeze g z st :
  walk_footprint st
    (map_cgrp g (map_freezer (fun f => set_e_freeze (z f) f)) st).
Proof.
  apply walk_footprint_map_cgrp. intros c. unfold same_admin; simpl. tauto.
Qed.

Lemma cgroup_freeze_visit_footprint b st a d :
  walk_footprint st (fst (cgroup_freeze_visit H b (st, a) d)).
Proof.
  unfold cgroup_freeze_visit.
  destruct (is_dead (cgrp st d)); [apply walk_footprint_refl|].
  destruct b.
  - destruct (_ >? 1); simpl.
    + apply walk_footprint_e_freeze.
    + eapply walk_footprint_trans; [apply walk_footprint_e_freeze|].
      apply cgroup_do_freeze_footprint.
  - destruct (_ >? 0); simpl.
    + apply walk_footprint_e_freeze.
    + eapply walk_footprint_trans; [apply walk_footprint_e_freeze|].
      eapply walk_footprint_trans; [|apply cgroup_do_freeze_footprint].
      unfold WARN_ON_ONCE. destruct (_ <? 0).
      * apply walk_footprint_emit. exact I.
      * apply walk_footprint_refl.
Qed.

Lemma cgroup_freeze_visits_footprint b l : forall st a,
  walk_footprint st (fst (fold_left (cgroup_freeze_visit H b) l (st, a))).
Proof.
  induction l as [|d l IH]; intros st a; cbn [fold_left].
  - apply walk_footprint_refl.
  - pose proof (cgroup_freeze_visit_footprint b st a d) as Hd.
    destruct (cgroup_freeze_visit H b (st, a) d) as [st1 a1]. simpl in Hd.
    eapply walk_footprint_trans; [exact Hd | apply IH].
Qed.

End WithHierarchy.


(** ** set_freeze is a no-op on an unchanged request, hence idempotent *)

(** C6: set_freeze(g, v) is a no-op when g's freeze_requested flag
    ([cgrp->freezer.freeze]) already equals v: the whole state, trace of
    actions included, is returned unchanged; consequently calling
    set_freeze(g, v) twice in a row yields the same state as calling it
    once. *)
Theorem C6_set_freeze_noop_and_idempotent (H : hierarchy) (g : gid)
    (v : bool) (st : state) :
  cgroup_freeze H g (freeze (freezer (cgrp st g))) st = st /\
  cgroup_freeze H g v (cgroup_freeze H g v st) = cgroup_freeze H g v st.
Proof.
  split.
  - unfold cgroup_freeze. now rewrite Bool.eqb_reflx.
  - destruct (Bool.eqb (freeze (freezer (cgrp st g))) v) eqn:Hguard.
    + unfold cgroup_freeze. rewrite Hguard. now rewrite Hguard.
    + assert (Hv : freeze (freezer (cgrp (cgroup_freeze H g v st) g)) = v).
      { unfold cgroup_freeze. rewrite Hguard.
        set (st1 := map_cgrp g (map_freezer (set_freeze v)) st).
        pose proof (cgroup_freeze_visits_footprint H v
                      (css_descendants_pre H g) st1 false) as Hw.
        fold (cgroup_freeze_walk H g v st1) in Hw.
        destruct (cgroup_freeze_walk H g v st1) as [st2 applied].
        simpl in Hw. destruct Hw as (Hc & _).
        destruct (Hc g) as (_ & _ & Hfr & _).
        assert (Hfr1 : freeze (freezer (cgrp st1 g)) = v).
        { unfold st1. rewrite cgrp_map_cgrp_same. reflexivity. }
        destruct (negb applied); simpl; congruence. }
      unfold cgroup_freeze at 1. rewrite Hv. now rewrite Bool.eqb_reflx.
Qed.

(** ** A task that wakes up while the freeze is still requested *)

(** C8: when a frozen task calls cgroup_leave_frozen(false) while its
    group's freeze flag (CGRP_FREEZE) is still set, the only effect is the
    call to recalc_sigpending() that sends the task back into the signal
    loop: the group's frozen-task count and the task's frozen flag are
    unchanged. *)
Theorem C8_leave_frozen_is_refused_while_freezing (H : hierarchy)
    (cur : tid) (st : state) :
  frozen (task st cur) = true ->
  CGRP_FREEZE (cgrp st (dfl_cgroup (task st cur))) = true ->
  let st' := cgroup_leave_frozen H cur false st in
  st' = emit (EvRecalcSigpending cur) st /\
  (forall g, cgrp st' g = cgrp st g) /\
  task st' cur = task st cur /\
  emitted st st' = [EvRecalcSigpending cur].
Proof.
  intros Hfrozen Hfreeze st'.
  assert (Hst' : st' = emit (EvRecalcSigpending cur) st).
  { unfold st', cgroup_leave_frozen. rewrite Hfreeze. simpl.
    now rewrite Hfrozen. }
  rewrite Hst'. repeat split.
  apply (emitted_app st _ [EvRecalcSigpending cur]). reflexivity.
Qed.

Lemma C8_leave_frozen_witness :
  frozen (task Examples.st_parent_task_stopped 0%nat) = true /\
  cgroup_leave_frozen Examples.H3 0%nat false Examples.st_parent_task_stopped
  = emit (EvRecalcSigpending 0%nat) Examples.st_parent_task_stopped.
Proof.
  split; [reflexivity|].
  apply (C8_leave_frozen_is_refused_while_freezing Examples.H3 0%nat
           Examples.st_parent_task_stopped); reflexivity.
Defined.

(** ** Migration of a frozen task *)

Lemma cgroup_inc_frozen_cnt_in_range g st :
  INT_MIN <= nr_frozen_tasks (freezer (cgrp st g)) < INT_MAX ->
  cgroup_inc_frozen_cnt g st =
  map_cgrp g (map_freezer
    (set_nr_frozen_tasks (nr_frozen_tasks (freezer (cgrp st g)) + 1))) st.
Proof.
  intros Hr. unfold cgroup_inc_frozen_cnt, map_cgrp, map_freezer. simpl.
  rewrite wrap_int_id by (unfold INT_MIN, INT_MAX in *; lia). reflexivity.
Qed.

Lemma cgroup_dec_frozen_cnt_in_range g st :
  0 < nr_frozen_tasks (freezer (cgrp st g)) <= INT_MAX ->
  cgroup_dec_frozen_cnt g st =
  map_cgrp g (map_freezer
    (set_nr_frozen_tasks (nr_frozen_tasks (freezer (cgrp st g)) - 1))) st.
Proof.
  intros Hr. unfold cgroup_dec_frozen_cnt.
  rewrite cgrp_map_cgrp_same. cbn [map_freezer freezer set_nr_frozen_tasks
                                    nr_frozen_tasks].
  rewrite wrap_int_id by (unfold INT_MIN, INT_MAX in *; lia).
  destruct (Z.ltb_spec (nr_frozen_tasks (freezer (cgrp st g)) - 1) 0);
    [lia|].
  unfold WARN_ON_ONCE, map_cgrp, map_freezer. simpl.
  rewrite wrap_int_id by (unfold INT_MIN, INT_MAX in *; lia). reflexivity.
Qed.

(** C2 (amended): migrating an already-frozen, non-exempt task from A to a
    different group B takes one off A's frozen-task count and adds one to
    B's, recomputes the aggregate status of B and then of A, leaves the
    task's frozen flag alone, and then always forces the task to the state B
    asks for: unless the task is about to die, its trap bit is set and a
    freeze request is issued when B's CGRP_FREEZE flag is set, and the bit
    is cleared and a wake-up is issued otherwise, whether or not the task
    was already in that state. *)
Theorem C2_migrate_frozen_task (H : hierarchy) (t : tid) (src dst : gid)
    (st : state) :
  PF_KTHREAD (task st t) = false ->
  frozen (task st t) = true ->
  src <> dst ->
  0 < nr_frozen_tasks (freezer (cgrp st src)) <= INT_MAX ->
  0 <= nr_frozen_tasks (freezer (cgrp st dst)) < INT_MAX ->
  let st' := cgroup_freezer_migrate_task H t src dst st in
  let want := CGRP_FREEZE (cgrp st dst) in
  nr_frozen_tasks (freezer (cgrp st' src)) =
    nr_frozen_tasks (freezer (cgrp st src)) - 1 /\
  nr_frozen_tasks (freezer (cgrp st' dst)) =
    nr_frozen_tasks (freezer (cgrp st dst)) + 1 /\
  st' = cgroup_freeze_task t want
          (cgroup_update_frozen H src (cgroup_update_frozen H dst
             (cgroup_dec_frozen_cnt src (cgroup_inc_frozen_cnt dst st)))) /\
  frozen (task st' t) = true /\
  (sighand (task st t) = true ->
     JOBCTL_TRAP_FREEZE (task st' t) = want /\
     exists notes, emitted st st' = freeze_action want t :: notes /\
                   Forall is_notify notes) /\
  (sighand (task st t) = false ->
     task st' t = task st t /\ Forall is_notify (emitted st st')).
Proof.
  intros Hk Hfrozen Hne Hsrc Hdst st' want.
  set (sti := cgroup_inc_frozen_cnt dst st).
  set (st1 := cgroup_dec_frozen_cnt src sti).
  set (st2 := cgroup_update_frozen H src (cgroup_update_frozen H dst st1)).
  assert (Hsti : sti = map_cgrp dst (map_freezer (set_nr_frozen_tasks
                   (nr_frozen_tasks (freezer (cgrp st dst)) + 1))) st).
  { apply cgroup_inc_frozen_cnt_in_range. unfold INT_MIN. lia. }
  assert (Hsrc_i : cgrp sti src = cgrp st src).
  { rewrite Hsti. now apply cgrp_map_cgrp_other. }
  assert (Hst1 : st1 = map_cgrp src (map_freezer (set_nr_frozen_tasks
                   (nr_frozen_tasks (freezer (cgrp st src)) - 1))) sti).
  { unfold st1. rewrite cgroup_dec_frozen_cnt_in_range; rewrite Hsrc_i;
      [reflexivity | assumption]. }
  assert (Hup : upward st1 st2).
  { eapply upward_trans; apply cgroup_update_frozen_upward. }
  destruct Hup as (Hcore & Htask & Hlist & notes & Htrace & Hnotes).
  assert (Htask1 : task st1 = task st) by (rewrite Hst1, Hsti; reflexivity).
  assert (Htrace1 : trace st1 = trace st) by (rewrite Hst1, Hsti; reflexivity).
  assert (Hwant : CGRP_FREEZE (cgrp st2 dst) = want).
  { destruct (Hcore dst) as (-> & _). rewrite Hst1.
    rewrite cgrp_map_cgrp_other by congruence.
    rewrite Hsti, cgrp_map_cgrp_same. reflexivity. }
  assert (Hst' : st' = cgroup_freeze_task t want st2).
  { unfold st', cgroup_freezer_migrate_task. rewrite Hk, Hfrozen.
    fold sti. fold st1. fold st2. now rewrite Hwant. }
  assert (Hcg : forall g, cgrp st' g = cgrp st2 g).
  { intros g. rewrite Hst'. unfold cgroup_freeze_task.
    destruct (negb _); [reflexivity|]. destruct want; reflexivity. }
  split; [|split; [|split; [|split; [|split]]]].
  - rewrite Hcg. destruct (Hcore src) as (_ & _ & _ & _ & _ & ->).
    rewrite Hst1, cgrp_map_cgrp_same. reflexivity.
  - rewrite Hcg. destruct (Hcore dst) as (_ & _ & _ & _ & _ & ->).
    rewrite Hst1, cgrp_map_cgrp_other by congruence.
    rewrite Hsti, cgrp_map_cgrp_same. reflexivity.
  - exact Hst'.
  - rewrite Hst'. unfold cgroup_freeze_task. rewrite Htask, Htask1.
    destruct (negb _); [|destruct want]; simpl;
      rewrite ?Htask, ?Htask1, ?upd_same; simpl; assumption.
  - intros Hsig. rewrite Hst'. unfold cgroup_freeze_task.
    rewrite Htask, Htask1, Hsig. simpl. split.
    + destruct want; simpl; now rewrite upd_same.
    + exists notes. split; [|assumption].
      apply emitted_app. rewrite <- Htrace1, <- app_comm_cons, <- Htrace.
      destruct want; reflexivity.
  - intros Hsig. rewrite Hst'. unfold cgroup_freeze_task.
    rewrite Htask, Htask1, Hsig. simpl. split.
    + now rewrite Htask, Htask1.
    + rewrite (emitted_app st st2 notes); [assumption|]. congruence.
Qed.

Lemma C2_migrate_frozen_task_witness :
  let st' := cgroup_freezer_migrate_task Examples.H3 0%nat 1%nat 2%nat
               Examples.st_moved in
  frozen (task Examples.st_moved 0%nat) = true /\
  nr_frozen_tasks (freezer (cgrp st' 1%nat)) = 0 /\
  nr_frozen_tasks (freezer (cgrp st' 2%nat)) = 1.
Proof.
  assert (Hk : PF_KTHREAD (task Examples.st_moved 0%nat) = false)
    by reflexivity.
  assert (Hf : frozen (task Examples.st_moved 0%nat) = true) by reflexivity.
  assert (Hne : 1%nat <> 2%nat) by discriminate.
  assert (Hsrc : 0 < nr_frozen_tasks (freezer (cgrp Examples.st_moved 1%nat))
                 <= INT_MAX) by (vm_compute; split; congruence).
  assert (Hdst : 0 <= nr_frozen_tasks (freezer (cgrp Examples.st_moved 2%nat))
                 < INT_MAX) by (vm_compute; split; congruence).
  pose proof (C2_migrate_frozen_task Examples.H3 0%nat 1%nat 2%nat
                Examples.st_moved Hk Hf Hne Hsrc Hdst) as (Ha & Hb & _).
  split; [exact Hf|]. split; [exact Ha | exact Hb].
Defined.

(** C2, as stated, fails: the frozen task 0 moves from group 1 to group 2,
    which asks for exactly the state the task is in, and the hook still
    issues a freeze request to it. *)
Lemma C2_migration_is_not_silent :
  ~ migration_is_silent Examples.H3 0%nat 1%nat 2%nat Examples.st_moved.
Proof.
  intros Hsilent.
  destruct Hsilent as (Hno & _); try reflexivity.
  apply Hno. vm_compute. left. reflexivity.
Qed.

(** ** Exempt tasks *)

Lemma exempt_untouched_refl t st : exempt_untouched t st st.
Proof.
  repeat split; try tauto.
  exists []. repeat split; simpl; tauto.
Qed.

Lemma exempt_untouched_trans t st1 st2 st3 :
  exempt_untouched t st1 st2 -> exempt_untouched t st2 st3 ->
  exempt_untouched t st1 st3.
Proof.
  intros (Hk1 & Hj1 & Hf1 & evs1 & He1 & Hs1 & Hw1)
         (Hk2 & Hj2 & Hf2 & evs2 & He2 & Hs2 & Hw2).
  split; [congruence|]. split; [congruence|]. split; [tauto|].
  exists (evs2 ++ evs1). split; [|split].
  - rewrite He2, He1. apply app_assoc.
  - rewrite in_app_iff. tauto.
  - rewrite in_app_iff. tauto.
Qed.

Lemma exempt_untouched_map_cgrp t g h st :
  exempt_untouched t st (map_cgrp g h st).
Proof.
  repeat split; try tauto.
  exists []. repeat split; simpl; tauto.
Qed.

Lemma exempt_untouched_map_task t t' h st :
  (t' = t ->
   PF_KTHREAD (h (task st t)) = PF_KTHREAD (task st t) /\
   JOBCTL_TRAP_FREEZE (h (task st t)) = JOBCTL_TRAP_FREEZE (task st t) /\
   (frozen (task st t) = false -> frozen (h (task st t)) = false)) ->
  exempt_untouched t st (map_task t' h st).
Proof.
  intros Hh. destruct (Nat.eq_dec t' t) as [->|Hne].
  - destruct (Hh eq_refl) as (A & B & C).
    unfold exempt_untouched. rewrite task_map_task_same.
    repeat split; try assumption.
    exists []. repeat split; simpl; tauto.
  - unfold exempt_untouched.
    rewrite task_map_task_other by congruence.
    repeat split; try tauto.
    exists []. repeat split; simpl; tauto.
Qed.

Lemma exempt_untouched_emit t e st :
  e <> EvSignalWakeUp t -> e <> EvWakeUpProcess t ->
  exempt_untouched t st (emit e st).
Proof.
  intros H1 H2. repeat split; try tauto.
  exists [e]. repeat split; simpl; intuition congruence.
Qed.

Lemma exempt_untouched_warn t c w st :
  exempt_untouched t st (WARN_ON_ONCE c w st).
Proof.
  unfold WARN_ON_ONCE. destruct c; [|apply exempt_untouched_refl].
  apply exempt_untouched_emit; discriminate.
Qed.

Lemma exempt_untouched_walk t st st' :
  PF_KTHREAD (task st t) = true ->
  walk_footprint st st' -> exempt_untouched t st st'.
Proof.
  intros Hk (_ & Ht & _ & evs & He & Hev).
  destruct (Ht t) as (A & B & _ & _ & C).
  split; [assumption|]. split; [now apply C|]. split; [congruence|].
  exists evs. split; [assumption|].
  rewrite Forall_forall in Hev.
  split; intros Hin; apply Hev in Hin; simpl in Hin; congruence.
Qed.

Lemma exempt_untouched_upward t st st' :
  upward st st' -> exempt_untouched t st st'.
Proof.
  intros (_ & Ht & _ & evs & He & Hev). unfold exempt_untouched.
  rewrite Ht. repeat split; try tauto.
  exists evs. split; [assumption|].
  rewrite Forall_forall in Hev.
  split; intros Hin; apply Hev in Hin; exact Hin.
Qed.

Lemma exempt_untouched_inc t g st :
  exempt_untouched t st (cgroup_inc_frozen_cnt g st).
Proof. apply exempt_untouched_map_cgrp. Qed.

Lemma exempt_untouched_dec t g st :
  exempt_untouched t st (cgroup_dec_frozen_cnt g st).
Proof.
  unfold cgroup_dec_frozen_cnt.
  eapply exempt_untouched_trans;
    [apply exempt_untouched_map_cgrp | apply exempt_untouched_warn].
Qed.

Section ExemptTasks.

Variable H : hierarchy.

Lemma step_exempt_untouched t o st :
  PF_KTHREAD (task st t) = true ->
  o <> OpEnterFrozen t ->
  exempt_untouched t st (step H o st).
Proof.
  intros Hk Ho. destruct o as [g b|t'|t' b|t' dst|t']; cbn [step].
  - (* cgroup_freeze *)
    unfold cgroup_freeze.
    destruct (Bool.eqb _ b); [apply exempt_untouched_refl|].
    set (st1 := map_cgrp g (map_freezer (set_freeze b)) st).
    pose proof (cgroup_freeze_visits_footprint H b
                  (css_descendants_pre H g) st1 false) as Hw.
    fold (cgroup_freeze_walk H g b st1) in Hw.
    destruct (cgroup_freeze_walk H g b st1) as [st2 applied]. simpl in Hw.
    eapply exempt_untouched_trans; [apply exempt_untouched_map_cgrp|].
    fold st1.
    eapply exempt_untouched_trans;
      [apply exempt_untouched_walk; [exact Hk | exact Hw]|].
    destruct (negb applied); [|apply exempt_untouched_refl].
    apply exempt_untouched_emit; discriminate.
  - (* cgroup_enter_frozen, by another task *)
    assert (Hne : t' <> t) by congruence.
    unfold cgroup_enter_frozen.
    destruct (frozen (task st t')); [apply exempt_untouched_refl|].
    eapply exempt_untouched_trans;
      [apply (exempt_untouched_map_task t t' (set_frozen true));
       intros; congruence|].
    eapply exempt_untouched_trans;
      [|apply exempt_untouched_upward, cgroup_update_frozen_upward].
    apply exempt_untouched_inc.
  - (* cgroup_leave_frozen *)
    unfold cgroup_leave_frozen.
    set (g := dfl_cgroup (task st t')).
    match goal with
    | |- exempt_untouched _ _ (if frozen (task ?s _) then _ else _) =>
        set (s1 := s)
    end.
    assert (Hs : exempt_untouched t st s1).
    { unfold s1. destruct (b || negb (CGRP_FREEZE (cgrp st g)));
        [|apply exempt_untouched_refl].
      eapply exempt_untouched_trans;
        [|apply exempt_untouched_map_task; intros _; simpl; tauto].
      eapply exempt_untouched_trans; [|apply exempt_untouched_warn].
      eapply exempt_untouched_trans;
        [|apply exempt_untouched_upward, cgroup_update_frozen_upward].
      apply exempt_untouched_dec. }
    destruct (frozen (task s1 t')); [|exact Hs].
    eapply exempt_untouched_trans; [exact Hs|].
    apply exempt_untouched_emit; discriminate.
  - (* migration *)
    unfold css_set_move_task.
    set (st1 := map_task t' (set_dfl_cgroup dst) st).
    assert (H1 : exempt_untouched t st st1).
    { apply exempt_untouched_map_task. intros _. simpl. tauto. }
    eapply exempt_untouched_trans; [exact H1|].
    unfold cgroup_freezer_migrate_task.
    destruct (PF_KTHREAD (task st1 t')) eqn:Hk';
      [apply exempt_untouched_refl|].
    assert (Hk1 : PF_KTHREAD (task st1 t) = true).
    { destruct H1 as (-> & _). exact Hk. }
    match goal with
    | |- exempt_untouched _ _ (cgroup_freeze_task _ _ ?s) =>
        assert (Hs : exempt_untouched t st1 s)
    end.
    { eapply exempt_untouched_trans;
        [|eapply exempt_untouched_trans;
            apply exempt_untouched_upward, cgroup_update_frozen_upward].
      destruct (frozen (task st1 t')); [|apply exempt_untouched_refl].
      eapply exempt_untouched_trans;
        [apply exempt_untouched_inc | apply exempt_untouched_dec]. }
    eapply exempt_untouched_trans; [exact Hs|].
    apply exempt_untouched_walk.
    + destruct Hs as (-> & _). exact Hk1.
    + apply cgroup_freeze_task_footprint.
      match goal with
      | |- PF_KTHREAD (task ?s t') = false =>
          assert (Ht : task s = task st1)
      end.
      { set (sa := if frozen (task st1 t')
                   then cgroup_dec_frozen_cnt (dfl_cgroup (task st t'))
                          (cgroup_inc_frozen_cnt dst st1)
                   else st1).
        assert (Hsa : task sa = task st1).
        { unfold sa. destruct (frozen (task st1 t')); [|reflexivity].
          unfold cgroup_dec_frozen_cnt, WARN_ON_ONCE.
          destruct (_ <? 0); reflexivity. }
        destruct (cgroup_update_frozen_upward H dst sa) as (_ & Ta & _).
        destruct (cgroup_update_frozen_upward H (dfl_cgroup (task st t'))
                    (cgroup_update_frozen H dst sa)) as (_ & Tb & _).
        congruence. }
      rewrite Ht. exact Hk'.
  - (* exit *)
    unfold cgroup_freezer_frozen_exit.
    set (st1 := css_set_remove_task t' st).
    assert (H1 : exempt_untouched t st st1).
    { repeat split; try tauto. exists []. repeat split; simpl; tauto. }
    eapply exempt_untouched_trans; [exact H1|].
    eapply exempt_untouched_trans;
      [|apply exempt_untouched_upward, cgroup_update_frozen_upward].
    apply exempt_untouched_dec.
Qed.

Lemma run_exempt_untouched t ops : forall st,
  PF_KTHREAD (task st t) = true ->
  JOBCTL_TRAP_FREEZE (task st t) = false ->
  enters_on_request H t st ops ->
  exempt_untouched t st (run H ops st).
Proof.
  induction ops as [|o ops IH]; intros st Hk Hj Hops; cbn [run fold_left].
  - apply exempt_untouched_refl.
  - destruct Hops as (Ho & Hrest).
    assert (Hne : o <> OpEnterFrozen t).
    { intros ->. specialize (Ho eq_refl). congruence. }
    pose proof (step_exempt_untouched t o st Hk Hne) as Hstep.
    eapply exempt_untouched_trans; [exact Hstep|].
    destruct Hstep as (Hk' & Hj' & _).
    apply IH; [congruence | congruence | exact Hrest].
Qed.

End ExemptTasks.

Lemma task_count_ignores_exempt t st g :
  PF_KTHREAD (task st t) = true ->
  __cgroup_task_count (with_live_task t st) g = __cgroup_task_count st g /\
  __cgroup_task_count (css_set_remove_task t st) g = __cgroup_task_count st g.
Proof.
  intros Hk. unfold __cgroup_task_count, with_live_task, css_set_remove_task.
  cbn [tasklist task]. split.
  - cbn [filter]. rewrite Hk. reflexivity.
  - f_equal. f_equal.
    induction (tasklist st) as [|a l IH]; [reflexivity|].
    cbn [remove]. destruct (Nat.eq_dec t a) as [<-|Hne].
    + cbn [filter]. rewrite Hk. exact IH.
    + cbn [filter]. destruct (_ && _); [now rewrite IH | exact IH].
Qed.

(** C4: an exempt task (a kernel thread) is never frozen by the core.
    Whatever the requested state of its group, along any execution of the
    core - subtree freeze walks, migrations of this or any other task,
    frozen exits, tasks entering and leaving the frozen state - in which
    the exempt task itself reports frozen only in response to a freeze
    request, the exempt task receives neither a freeze nor a thaw request,
    its trap bit is never set, and it never becomes frozen; and it does not
    count in the own-task denominator of any group: the count is the same
    with the exempt task on the list of live tasks and with it off. *)
Theorem C4_exempt_task_is_never_frozen (H : hierarchy) (t : tid)
    (st : state) (ops : list op) :
  PF_KTHREAD (task st t) = true ->
  JOBCTL_TRAP_FREEZE (task st t) = false ->
  frozen (task st t) = false ->
  enters_on_request H t st ops ->
  let st' := run H ops st in
  (~ In (EvSignalWakeUp t) (emitted st st') /\
   ~ In (EvWakeUpProcess t) (emitted st st')) /\
  JOBCTL_TRAP_FREEZE (task st' t) = false /\
  frozen (task st' t) = false /\
  PF_KTHREAD (task st' t) = true /\
  (forall g,
     __cgroup_task_count (with_live_task t st') g =
       __cgroup_task_count st' g /\
     __cgroup_task_count (css_set_remove_task t st') g =
       __cgroup_task_count st' g).
Proof.
  intros Hk Hj Hfz Hops st'.
  destruct (run_exempt_untouched H t ops st Hk Hj Hops)
    as (Hk' & Hj' & Hf & evs & He & Hs & Hw).
  fold st' in Hk', Hj', Hf, He.
  rewrite (emitted_app st st' evs He).
  assert (Hk'' : PF_KTHREAD (task st' t) = true) by congruence.
  split; [tauto|]. split; [congruence|]. split; [now apply Hf|].
  split; [exact Hk''|].
  intros g. now apply task_count_ignores_exempt.
Qed.

Lemma C4_exempt_task_witness :
  PF_KTHREAD (task Examples.st0_kthread 2%nat) = true /\
  frozen (task (run Examples.H3
                  [OpFreeze 2%nat true; OpMigrate 2%nat 1%nat;
                   OpFreeze 1%nat true; OpEnterFrozen 0%nat]
                  Examples.st0_kthread) 2%nat) = false.
Proof.
  assert (Hk : PF_KTHREAD (task Examples.st0_kthread 2%nat) = true)
    by reflexivity.
  assert (Hops : enters_on_request Examples.H3 2%nat Examples.st0_kthread
                   [OpFreeze 2%nat true; OpMigrate 2%nat 1%nat;
                    OpFreeze 1%nat true; OpEnterFrozen 0%nat])
    by (cbn [enters_on_request]; repeat split; discriminate).
  destruct (C4_exempt_task_is_never_frozen Examples.H3 2%nat
              Examples.st0_kthread _ Hk eq_refl eq_refl Hops)
    as (_ & _ & Hf & _).
  split; [exact Hk | exact Hf].
Defined.

(** ** What a visit of the subtree walk does, group by group *)

Lemma untouched_group_refl d st : untouched_group d st st.
Proof.
  repeat split.
  exists []. repeat split; simpl; tauto.
Qed.

Lemma untouched_group_trans d st1 st2 st3 :
  untouched_group d st1 st2 -> untouched_group d st2 st3 ->
  untouched_group d st1 st3.
Proof.
  intros (Hf1 & He1 & Ht1 & evs1 & Hr1 & Hn1)
         (Hf2 & He2 & Ht2 & evs2 & Hr2 & Hn2).
  split; [congruence|]. split; [congruence|]. split.
  - intros u Hu. rewrite Ht2; [now apply Ht1|]. now rewrite Ht1.
  - exists (evs2 ++ evs1). split.
    + rewrite Hr2, Hr1. apply app_assoc.
    + intros u Hu.
      assert (Hu2 : dfl_cgroup (task st2 u) = d) by now rewrite Ht1.
      destruct (Hn1 u Hu) as (A1 & B1). destruct (Hn2 u Hu2) as (A2 & B2).
      rewrite !in_app_iff. tauto.
Qed.

Lemma untouched_group_upward d st st' :
  upward st st' -> untouched_group d st st'.
Proof.
  intros (Hc & Ht & _ & evs & He & Hev).
  destruct (Hc d) as (A & _ & _ & _ & B & _).
  split; [assumption|]. split; [assumption|]. split.
  - intros u _. now rewrite Ht.
  - exists evs. split; [assumption|].
    rewrite Forall_forall in Hev.
    intros u _. split; intros Hin; exact (Hev _ Hin).
Qed.

Lemma untouched_group_map_cgrp d g h st :
  g <> d -> untouched_group d st (map_cgrp g h st).
Proof.
  intros Hne. unfold untouched_group.
  rewrite cgrp_map_cgrp_other by congruence.
  repeat split.
  exists []. repeat split; simpl; tauto.
Qed.

Lemma untouched_group_freeze_task d t b st :
  dfl_cgroup (task st t) <> d ->
  untouched_group d st (cgroup_freeze_task t b st).
Proof.
  intros Hne. unfold cgroup_freeze_task.
  destruct (negb _); [apply untouched_group_refl|].
  assert (Hgen : forall e, (e = EvSignalWakeUp t \/ e = EvWakeUpProcess t) ->
            untouched_group d st
              (emit e (map_task t (set_JOBCTL_TRAP_FREEZE b) st))).
  { intros e He. repeat split.
    - intros u Hu. cbn [emit task]. apply task_map_task_other. congruence.
    - exists [e]. split; [reflexivity|].
      intros u Hu. split; intros [Hin|[]]; destruct He; congruence. }
  destruct b; apply Hgen; tauto.
Qed.

Lemma untouched_group_freeze_tasks d b l : forall st,
  (forall t, In t l -> dfl_cgroup (task st t) <> d) ->
  untouched_group d st (fold_left (do_freeze_task b) l st).
Proof.
  induction l as [|t l IH]; intros st Hl; cbn [fold_left].
  - apply untouched_group_refl.
  - assert (Hstep : untouched_group d st (do_freeze_task b st t)).
    { unfold do_freeze_task. destruct (PF_KTHREAD _);
        [apply untouched_group_refl|].
      apply untouched_group_freeze_task. apply Hl. now left. }
    eapply untouched_group_trans; [exact Hstep|]. apply IH.
    intros u Hu.
    destruct (do_freeze_task_footprint b st t) as (_ & Hts & _).
    destruct (Hts u) as (_ & _ & _ & -> & _). apply Hl. now right.
Qed.

Lemma css_tasks_spec st g t :
  In t (css_tasks st g) <->
  In t (tasklist st) /\ dfl_cgroup (task st t) = g.
Proof.
  unfold css_tasks. rewrite filter_In, Nat.eqb_eq. tauto.
Qed.

Lemma css_tasks_stable st st' g :
  walk_footprint st st' -> css_tasks st' g = css_tasks st g.
Proof.
  intros (_ & Ht & Hl & _). unfold css_tasks. rewrite Hl.
  apply filter_agree. intros u _.
  destruct (Ht u) as (_ & _ & _ & -> & _). reflexivity.
Qed.

Section Visits.

Variable H : hierarchy.

Lemma untouched_group_do_freeze d g b st :
  g <> d -> untouched_group d st (cgroup_do_freeze H g b st).
Proof.
  intros Hne. unfold cgroup_do_freeze.
  set (st1 := map_cgrp g (set_CGRP_FREEZE b) st).
  set (st2 := fold_left (do_freeze_task b) (css_tasks st1 g) st1).
  assert (H12 : untouched_group d st st2).
  { eapply untouched_group_trans;
      [apply untouched_group_map_cgrp; exact Hne|].
    apply untouched_group_freeze_tasks.
    intros t Ht. apply css_tasks_spec in Ht. destruct Ht as (_ & ->).
    exact Hne. }
  destruct (_ =? _); [|exact H12].
  eapply untouched_group_trans; [exact H12|].
  apply untouched_group_upward, cgroup_update_frozen_upward.
Qed.

(** The visit of a dead group changes nothing. *)
Lemma cgroup_freeze_visit_dead b st a d :
  is_dead (cgrp st d) = true ->
  cgroup_freeze_visit H b (st, a) d = (st, a).
Proof. intros Hd. unfold cgroup_freeze_visit. now rewrite Hd. Qed.

(** The visit of a live group, written out. *)
Lemma cgroup_freeze_visit_live (b : bool) (st : state) (a : bool) (d : gid) :
  is_dead (cgrp st d) = false ->
  let depth' := wrap_int (e_freeze (freezer (cgrp st d)) +
                          (if b then 1 else -1)) in
  let st1 := with_depth d depth' st in
  cgroup_freeze_visit H b (st, a) d =
  if depth' >? (if b then 1 else 0) then (st1, a)
  else (cgroup_do_freeze H d b
          (WARN_ON_ONCE (negb b && (depth' <? 0))
                        (WarnEFreezeNegative d) st1), true).
Proof.
  intros Hd depth' st1. unfold cgroup_freeze_visit. rewrite Hd.
  destruct b; rewrite cgrp_map_cgrp_same;
    cbn [map_freezer freezer set_e_freeze e_freeze negb andb].
  - fold depth'. replace (map_cgrp d _ st) with st1 by reflexivity.
    destruct (depth' >? 1); reflexivity.
  - replace (e_freeze (freezer (cgrp st d)) - 1)
      with (e_freeze (freezer (cgrp st d)) + -1) by lia.
    fold depth'.
    replace (map_cgrp d _ st) with st1.
    + destruct (depth' >? 0); reflexivity.
    + unfold st1, with_depth, map_cgrp, map_freezer, depth'. cbn.
      replace (e_freeze (freezer (cgrp st d)) - 1)
        with (e_freeze (freezer (cgrp st d)) + -1) by lia.
      reflexivity.
Qed.

Lemma untouched_group_visit d d' b st a :
  d' <> d ->
  untouched_group d st (fst (cgroup_freeze_visit H b (st, a) d')).
Proof.
  intros Hne. destruct (is_dead (cgrp st d')) eqn:Hd.
  - rewrite cgroup_freeze_visit_dead by assumption.
    apply untouched_group_refl.
  - rewrite cgroup_freeze_visit_live by assumption.
    destruct (_ >? _); cbn [fst].
    + apply untouched_group_map_cgrp. exact Hne.
    + eapply untouched_group_trans;
        [|apply untouched_group_do_freeze; exact Hne].
      eapply untouched_group_trans;
        [apply (untouched_group_map_cgrp d d'); exact Hne|].
      unfold WARN_ON_ONCE. destruct (_ && _);
        [|apply untouched_group_refl].
      repeat split.
      exists [EvWarn (WarnEFreezeNegative d')]. split; [reflexivity|].
      intros u _. split; intros [Hin|[]]; discriminate.
Qed.

Lemma untouched_group_visits d b l : forall st a,
  ~ In d l ->
  untouched_group d st (fst (fold_left (cgroup_freeze_visit H b) l (st, a))).
Proof.
  induction l as [|d' l IH]; intros st a Hnotin; cbn [fold_left].
  - apply untouched_group_refl.
  - assert (Hne : d' <> d) by (intros ->; apply Hnotin; now left).
    pose proof (untouched_group_visit d d' b st a Hne) as Hd.
    destruct (cgroup_freeze_visit H b (st, a) d') as [st1 a1]. cbn [fst] in Hd.
    eapply untouched_group_trans; [exact Hd|]. apply IH.
    intros Hin. apply Hnotin. now right.
Qed.

(** cgroup_do_freeze does not change any freeze depth. *)
Lemma freeze_tasks_cgrp b l : forall st,
  cgrp (fold_left (do_freeze_task b) l st) = cgrp st.
Proof.
  induction l as [|t l IH]; intros st; cbn [fold_left]; [reflexivity|].
  rewrite IH. unfold do_freeze_task, cgroup_freeze_task.
  destruct (PF_KTHREAD _); [reflexivity|].
  destruct (negb _); [reflexivity|]. destruct b; reflexivity.
Qed.

Lemma cgroup_do_freeze_depth g b st d :
  e_freeze (freezer (cgrp (cgroup_do_freeze H g b st) d)) =
  e_freeze (freezer (cgrp st d)).
Proof.
  unfold cgroup_do_freeze.
  set (st1 := map_cgrp g (set_CGRP_FREEZE b) st).
  set (st2 := fold_left (do_freeze_task b) (css_tasks st1 g) st1).
  assert (H2 : e_freeze (freezer (cgrp st2 d)) =
               e_freeze (freezer (cgrp st d))).
  { unfold st2. rewrite freeze_tasks_cgrp. unfold st1.
    destruct (Nat.eq_dec d g) as [->|Hne].
    - now rewrite cgrp_map_cgrp_same.
    - now rewrite cgrp_map_cgrp_other. }
  destruct (_ =? _); [|exact H2].
  destruct (cgroup_update_frozen_upward H g st2) as (Hc & _).
  destruct (Hc d) as (_ & _ & _ & _ & -> & _). exact H2.
Qed.

(** The depth of a group after its own visit. *)
Lemma cgroup_freeze_visit_depth (b : bool) (st : state) (a : bool)
    (d : gid) :
  e_freeze (freezer (cgrp (fst (cgroup_freeze_visit H b (st, a) d)) d)) =
  if is_dead (cgrp st d) then e_freeze (freezer (cgrp st d))
  else wrap_int (e_freeze (freezer (cgrp st d)) + (if b then 1 else -1)).
Proof.
  destruct (is_dead (cgrp st d)) eqn:Hd.
  - now rewrite cgroup_freeze_visit_dead.
  - rewrite cgroup_freeze_visit_live by assumption.
    destruct (_ >? _); cbn [fst].
    + unfold with_depth. now rewrite cgrp_map_cgrp_same.
    + rewrite cgroup_do_freeze_depth. unfold WARN_ON_ONCE.
      destruct (_ && _); cbn [emit cgrp]; unfold with_depth;
        now rewrite cgrp_map_cgrp_same.
Qed.

(** The depth of every group after a walk over [l]. *)
Lemma cgroup_freeze_visits_depth (b : bool) (l : list gid) :
  forall (st : state) (a : bool) (d : gid),
  NoDup l ->
  e_freeze (freezer
    (cgrp (fst (fold_left (cgroup_freeze_visit H b) l (st, a))) d)) =
  if existsb (Nat.eqb d) l && negb (is_dead (cgrp st d))
  then wrap_int (e_freeze (freezer (cgrp st d)) + (if b then 1 else -1))
  else e_freeze (freezer (cgrp st d)).
Proof.
  induction l as [|d0 l IH]; intros st a d Hnd; cbn [fold_left existsb].
  - reflexivity.
  - inversion Hnd as [|x l' Hnotin Hnd']; subst.
    pose proof (cgroup_freeze_visit_depth b st a d0) as Hat.
    pose proof (cgroup_freeze_visit_footprint H b st a d0) as Hfp.
    pose proof (fun Hne => untouched_group_visit d d0 b st a Hne) as Hun.
    destruct (cgroup_freeze_visit H b (st, a) d0) as [st1 a1].
    cbn [fst] in Hat, Hfp, Hun.
    rewrite (IH st1 a1 d Hnd').
    destruct Hfp as (Hadm & _). destruct (Hadm d) as (Hdead & _).
    rewrite Hdead.
    destruct (Nat.eqb_spec d d0) as [->|Hne].
    + assert (Hex : existsb (Nat.eqb d0) l = false).
      { destruct (existsb (Nat.eqb d0) l) eqn:E; [|reflexivity].
        apply existsb_exists in E. destruct E as (x & Hx & Hxe).
        apply Nat.eqb_eq in Hxe. subst x. contradiction. }
      rewrite Hex. cbn [andb orb]. rewrite Hat.
      destruct (is_dead (cgrp st d0)); reflexivity.
    + cbn [orb]. assert (Hne' : d0 <> d) by congruence.
      destruct (Hun Hne') as (_ & -> & _). reflexivity.
Qed.

(** Once the trap bit of a task has the requested value, the task loop
    keeps it. *)
Lemma freeze_tasks_trap_stable b l : forall st u,
  JOBCTL_TRAP_FREEZE (task st u) = b ->
  JOBCTL_TRAP_FREEZE (task (fold_left (do_freeze_task b) l st) u) = b.
Proof.
  induction l as [|t l IH]; intros st u Hu; cbn [fold_left]; [exact Hu|].
  apply IH. unfold do_freeze_task, cgroup_freeze_task.
  destruct (PF_KTHREAD _); [exact Hu|].
  destruct (negb _); [exact Hu|].
  destruct (Nat.eq_dec u t) as [->|Hne].
  - destruct b; cbn [emit task]; rewrite task_map_task_same; reflexivity.
  - destruct b; cbn [emit task];
      rewrite task_map_task_other by assumption; exact Hu.
Qed.

(** The task loop of cgroup_do_freeze reaches every task of the list that
    is neither a kernel thread nor about to die. *)
Lemma freeze_tasks_effect b l : forall st,
  exists evs,
    trace (fold_left (do_freeze_task b) l st) = evs ++ trace st /\
    forall t, In t l ->
      PF_KTHREAD (task st t) = false -> sighand (task st t) = true ->
      JOBCTL_TRAP_FREEZE (task (fold_left (do_freeze_task b) l st) t) = b /\
      In (freeze_action b t) evs.
Proof.
  induction l as [|t0 l IH]; intros st; cbn [fold_left].
  - exists []. split; [reflexivity|]. intros t [].
  - destruct (IH (do_freeze_task b st t0)) as (evs & Htr & Hall).
    destruct (do_freeze_task_footprint b st t0)
      as (_ & Hts & _ & evs0 & Htr0 & _).
    exists (evs ++ evs0). split.
    { rewrite Htr, Htr0. apply app_assoc. }
    intros t Hin Hk Hs.
    destruct (In_dec Nat.eq_dec t l) as [Hl|Hnl].
    + destruct (Hts t) as (Hk' & _ & Hs' & _).
      destruct (Hall t Hl) as (A & B); [congruence | congruence|].
      split; [exact A|]. apply in_app_iff. now left.
    + assert (t0 = t) by (destruct Hin; [assumption | contradiction]).
      subst t0.
      assert (Hstep : JOBCTL_TRAP_FREEZE (task (do_freeze_task b st t) t) = b
                      /\ In (freeze_action b t) evs0).
      { revert Htr0. unfold do_freeze_task, cgroup_freeze_task.
        rewrite Hk, Hs. cbn [negb].
        destruct b; cbn [emit task trace]; rewrite task_map_task_same;
          intros Htr0; (split; [reflexivity|]);
          cbn [map_task trace] in Htr0;
          (destruct evs0 as [|e evs0];
             [exfalso; cbn in Htr0;
              apply (f_equal (@length event)) in Htr0; cbn in Htr0; lia|]);
          cbn in Htr0; injection Htr0 as He Hrest;
          assert (evs0 = []) by
            (destruct evs0; [reflexivity|
               apply (f_equal (@length event)) in Hrest;
               cbn in Hrest; rewrite length_app in Hrest; lia]);
          subst; now left. }
      destruct Hstep as (A & B). split.
      * now apply freeze_tasks_trap_stable.
      * apply in_app_iff. now right.
Qed.

(** cgroup_do_freeze at its own group. *)
Lemma cgroup_do_freeze_effect g b st :
  let st' := cgroup_do_freeze H g b st in
  CGRP_FREEZE (cgrp st' g) = b /\
  exists evs,
    trace st' = evs ++ trace st /\
    forall t, In t (css_tasks st g) ->
      PF_KTHREAD (task st t) = false -> sighand (task st t) = true ->
      JOBCTL_TRAP_FREEZE (task st' t) = b /\ In (freeze_action b t) evs.
Proof.
  unfold cgroup_do_freeze.
  set (st1 := map_cgrp g (set_CGRP_FREEZE b) st).
  set (st2 := fold_left (do_freeze_task b) (css_tasks st1 g) st1).
  assert (Hflag : CGRP_FREEZE (cgrp st2 g) = b).
  { unfold st2. rewrite freeze_tasks_cgrp. unfold st1.
    now rewrite cgrp_map_cgrp_same. }
  destruct (freeze_tasks_effect b (css_tasks st1 g) st1)
    as (evs & Htr & Hall). fold st2 in Htr, Hall.
  assert (H2 : exists evs,
    trace st2 = evs ++ trace st /\
    forall t, In t (css_tasks st g) ->
      PF_KTHREAD (task st t) = false -> sighand (task st t) = true ->
      JOBCTL_TRAP_FREEZE (task st2 t) = b /\ In (freeze_action b t) evs).
  { exists evs. split; [exact Htr|]. intros t Ht. now apply Hall. }
  destruct (_ =? _); cbn zeta; [|split; [exact Hflag | exact H2]].
  destruct (cgroup_update_frozen_upward H g st2)
    as (Hc & Htask & _ & notes & Hn & _).
  split.
  - destruct (Hc g) as (-> & _). exact Hflag.
  - destruct H2 as (evs2 & Htr2 & Hall2). exists (notes ++ evs2). split.
    + rewrite Hn, Htr2. apply app_assoc.
    + intros t Ht Hk Hs. destruct (Hall2 t Ht Hk Hs) as (A & B).
      rewrite Htask. split; [exact A|]. apply in_app_iff. now right.
Qed.

End Visits.

(** ** Nested freeze depth during a subtree walk *)

Section NestedDepth.

Variable H : hierarchy.

(** C5: in a set_freeze walk, a visited live group [d] whose depth honours
    I3 gets its nested freeze depth incremented by one when freeze is
    asserted and decremented by one when it is withdrawn.  When the
    resulting depth is 1 (assert) or 0 (withdraw), the group's freeze flag
    is set to the new state and every task of [d] that is neither exempt nor
    about to die gets its trap bit set or cleared and a freeze or thaw
    request.  Otherwise the group stays obligated as it was: its freeze
    flag and its tasks are unchanged and no request goes to any of its
    tasks. *)
Theorem C5_nested_depth_decides_task_actions (g : gid) (b : bool)
    (st : state) (d : gid) :
  freeze (freezer (cgrp st g)) = negb b ->
  NoDup (css_descendants_pre H g) ->
  In d (css_descendants_pre H g) ->
  is_dead (cgrp st d) = false ->
  (if b then 0 <= e_freeze (freezer (cgrp st d)) < INT_MAX
   else 0 < e_freeze (freezer (cgrp st d)) <= INT_MAX) ->
  let st' := cgroup_freeze H g b st in
  let depth' := e_freeze (freezer (cgrp st' d)) in
  depth' = e_freeze (freezer (cgrp st d)) + (if b then 1 else -1) /\
  (depth' = (if b then 1 else 0) ->
     CGRP_FREEZE (cgrp st' d) = b /\
     forall t, In t (css_tasks st d) ->
       PF_KTHREAD (task st t) = false -> sighand (task st t) = true ->
       JOBCTL_TRAP_FREEZE (task st' t) = b /\
       In (freeze_action b t) (emitted st st')) /\
  (depth' <> (if b then 1 else 0) ->
     CGRP_FREEZE (cgrp st' d) = CGRP_FREEZE (cgrp st d) /\
     forall t, dfl_cgroup (task st t) = d ->
       task st' t = task st t /\
       ~ In (EvSignalWakeUp t) (emitted st st') /\
       ~ In (EvWakeUpProcess t) (emitted st st')).
Proof.
  intros Hguard Hnd Hin Hlive Hrange st' depth'.
  set (e0 := e_freeze (freezer (cgrp st d))) in *.
  set (delta := if b then 1 else -1).
  set (target := if b then 1 else 0).
  assert (Hwrap : wrap_int (e0 + delta) = e0 + delta).
  { apply wrap_int_id. unfold delta, INT_MIN, INT_MAX in *.
    destruct b; lia. }
  (* the request is recorded on [g] *)
  set (st1 := map_cgrp g (map_freezer (set_freeze b)) st).
  assert (Hst1 : forall x,
            CGRP_FREEZE (cgrp st1 x) = CGRP_FREEZE (cgrp st x) /\
            is_dead (cgrp st1 x) = is_dead (cgrp st x) /\
            e_freeze (freezer (cgrp st1 x)) = e_freeze (freezer (cgrp st x))).
  { intros x. unfold st1. destruct (Nat.eq_dec x g) as [->|Hne].
    - rewrite cgrp_map_cgrp_same. cbn. tauto.
    - rewrite cgrp_map_cgrp_other by assumption. tauto. }
  destruct (in_split _ _ Hin) as (l1 & l2 & Hl).
  rewrite Hl in Hnd. apply NoDup_remove_2 in Hnd.
  assert (Hn1 : ~ In d l1) by (intros X; apply Hnd, in_app_iff; now left).
  assert (Hn2 : ~ In d l2) by (intros X; apply Hnd, in_app_iff; now right).
  (* the visits before [d] *)
  pose proof (untouched_group_visits H d b l1 st1 false Hn1) as Hu1.
  pose proof (cgroup_freeze_visits_footprint H b l1 st1 false) as Hf1.
  destruct (fold_left (cgroup_freeze_visit H b) l1 (st1, false))
    as [sa a1] eqn:Efold1.
  cbn [fst] in Hu1, Hf1.
  destruct Hu1 as (Hfa & Hea & Hta & evs1 & Htr1 & Hno1).
  assert (Hlive_a : is_dead (cgrp sa d) = false).
  { destruct Hf1 as (Hadm & _). destruct (Hadm d) as (-> & _).
    destruct (Hst1 d) as (_ & -> & _). exact Hlive. }
  assert (Hea' : e_freeze (freezer (cgrp sa d)) = e0).
  { rewrite Hea. now destruct (Hst1 d) as (_ & _ & ->). }
  (* the visit of [d] *)
  pose proof (cgroup_freeze_visit_live H b sa a1 d Hlive_a) as Hvis.
  cbn zeta in Hvis. rewrite Hea' in Hvis. fold delta in Hvis.
  rewrite Hwrap in Hvis. fold target in Hvis.
  assert (Hwarn : negb b && (e0 + delta <? 0) = false).
  { unfold delta. destruct b; [reflexivity|]. cbn [negb andb].
    apply Z.ltb_ge. lia. }
  rewrite Hwarn in Hvis. cbn [WARN_ON_ONCE] in Hvis.
  set (sa1 := with_depth d (e0 + delta) sa) in Hvis.
  assert (Hperf : (e0 + delta >? target) = false <-> e0 + delta = target).
  { unfold delta, target. destruct b.
    - split; [intros X; rewrite Z.gtb_ltb in X; apply Z.ltb_ge in X; lia
             | intros ->; reflexivity].
    - split; [intros X; rewrite Z.gtb_ltb in X; apply Z.ltb_ge in X; lia
             | intros ->; reflexivity]. }
  (* the visits after [d] and the final notification *)
  assert (Hfinal : forall sb a2,
            cgroup_freeze_visit H b (sa, a1) d = (sb, a2) ->
            exists sc evs3 evs4,
              st' = sc /\ untouched_group d sb
                (mkState (cgrp sc) (task sc) (tasklist sc) (trace sb)) /\
              trace sc = evs4 ++ evs3 ++ trace sb /\
              Forall is_notify evs4 /\
              (forall u, dfl_cgroup (task sb u) = d ->
                 ~ In (EvSignalWakeUp u) evs3 /\
                 ~ In (EvWakeUpProcess u) evs3)).
  { intros sb a2 Evis.
    pose proof (untouched_group_visits H d b l2 sb a2 Hn2) as Hu3.
    assert (Est' : st' =
      let '(s, applied) :=
        fold_left (cgroup_freeze_visit H b) l2 (sb, a2) in
      if negb applied then cgroup_file_notify g s else s).
    { unfold st', cgroup_freeze. rewrite Hguard.
      destruct b; cbn [negb Bool.eqb]; fold st1;
        unfold cgroup_freeze_walk; rewrite Hl, fold_left_app, Efold1;
        cbn [fold_left]; rewrite Evis; reflexivity. }
    destruct (fold_left (cgroup_freeze_visit H b) l2 (sb, a2))
      as [s3 a3].
    cbn [fst] in Hu3. destruct Hu3 as (A & B & C & evs3 & D & E).
    exists st', evs3, (if negb a3 then [EvFileNotify g] else []).
    split; [reflexivity|].
    assert (Hsame : cgrp st' = cgrp s3 /\ task st' = task s3 /\
                    trace st' =
                    (if negb a3 then [EvFileNotify g] else []) ++ trace s3).
    { rewrite Est'. destruct (negb a3); repeat split. }
    destruct Hsame as (Hc & Ht & Htr).
    split; [|split; [|split]].
    - unfold untouched_group. cbn [cgrp task trace].
      rewrite Hc, Ht. repeat split; try assumption.
      exists []. split; [reflexivity|]. intros u _. cbn. tauto.
    - rewrite Htr, D. reflexivity.
    - destruct (negb a3); repeat constructor.
    - exact E. }
  destruct (cgroup_freeze_visit H b (sa, a1) d) as [sb a2] eqn:Evis.
  destruct (Hfinal sb a2 eq_refl)
    as (sc & evs3 & evs4 & Esc & Hu3 & Htr3 & Hnot4 & Hno3).
  clear Hfinal. subst sc.
  destruct Hu3 as (Hf3 & He3 & Ht3 & _). cbn [cgrp task] in Hf3, He3, Ht3.
  rewrite Forall_forall in Hnot4.
  assert (Hnot4' : forall u, ~ In (EvSignalWakeUp u) evs4 /\
                             ~ In (EvWakeUpProcess u) evs4).
  { intros u. split; intros X; exact (Hnot4 _ X). }
  assert (Htrace1 : trace st1 = trace st) by reflexivity.
  assert (Htask1 : task st1 = task st) by reflexivity.
  destruct (e0 + delta >? target) eqn:Egt.
  - (* another ancestor keeps or already had the obligation *)
    injection Hvis as Hsb Ha2. subst sb a2.
    assert (Hdepth : depth' = e0 + delta).
    { unfold depth'. rewrite He3. unfold sa1, with_depth.
      now rewrite cgrp_map_cgrp_same. }
    split; [exact Hdepth|]. split.
    + intros Heq. rewrite Hdepth in Heq. apply Hperf in Heq. congruence.
    + intros _. split.
      * rewrite Hf3. unfold sa1, with_depth. rewrite cgrp_map_cgrp_same.
        cbn [map_freezer CGRP_FREEZE]. rewrite Hfa.
        now destruct (Hst1 d) as (-> & _).
      * intros t Ht.
        assert (Hta' : task sa t = task st t)
          by (rewrite Hta; [now rewrite Htask1 | now rewrite Htask1]).
        assert (Hd_a1 : dfl_cgroup (task sa1 t) = d)
          by (unfold sa1, with_depth; cbn [map_cgrp task];
              now rewrite Hta').
        split.
        { rewrite Ht3 by exact Hd_a1. exact Hta'. }
        assert (Hem : emitted st st' = evs4 ++ evs3 ++ evs1).
        { apply emitted_app. rewrite Htr3.
          unfold sa1, with_depth. cbn [map_cgrp trace].
          rewrite Htr1, Htrace1. now rewrite <- !app_assoc. }
        rewrite Hem, !in_app_iff.
        destruct (Hnot4' t) as (X1 & X2).
        destruct (Hno3 t Hd_a1) as (Y1 & Y2).
        destruct (Hno1 t) as (Z1 & Z2); [now rewrite Htask1|].
        tauto.
  - (* the depth reaches the target: the tasks of [d] are acted upon *)
    injection Hvis as Hsb Ha2. subst a2. symmetry in Hsb.
    pose proof (cgroup_do_freeze_effect H d b sa1) as Heff.
    cbn zeta in Heff. rewrite Hsb in Heff.
    destruct Heff as (Hflag & evs2 & Htr2 & Hall).
    assert (Hdepth : depth' = e0 + delta).
    { unfold depth'. rewrite He3, <- Hsb, cgroup_do_freeze_depth.
      unfold sa1, with_depth. now rewrite cgrp_map_cgrp_same. }
    split; [exact Hdepth|]. split.
    + intros _. split; [now rewrite Hf3|].
      intros t Ht Hk Hs.
      apply css_tasks_spec in Ht. destruct Ht as (Hlist & Hd).
      assert (Hta' : task sa t = task st t)
        by (rewrite Hta; [now rewrite Htask1 | now rewrite Htask1]).
      assert (Hin_a1 : In t (css_tasks sa1 d)).
      { apply css_tasks_spec. unfold sa1, with_depth.
        cbn [map_cgrp task tasklist]. rewrite Hta'. split; [|exact Hd].
        destruct Hf1 as (_ & _ & -> & _). exact Hlist. }
      destruct (Hall t Hin_a1) as (A & B).
      { unfold sa1, with_depth. cbn [map_cgrp task]. now rewrite Hta'. }
      { unfold sa1, with_depth. cbn [map_cgrp task]. now rewrite Hta'. }
      assert (Hd_b : dfl_cgroup (task sb t) = d).
      { rewrite <- Hsb.
        destruct (cgroup_do_freeze_footprint H d b sa1) as (_ & Hts & _).
        destruct (Hts t) as (_ & _ & _ & -> & _).
        unfold sa1, with_depth. cbn [map_cgrp task]. now rewrite Hta'. }
      split.
      * rewrite Ht3 by exact Hd_b. exact A.
      * assert (Hem : emitted st st' = evs4 ++ evs3 ++ evs2 ++ evs1).
        { apply emitted_app. rewrite Htr3, Htr2.
          unfold sa1, with_depth. cbn [map_cgrp trace].
          rewrite Htr1, Htrace1. now rewrite <- !app_assoc. }
        rewrite Hem, !in_app_iff. tauto.
    + intros Hneq. rewrite Hdepth in Hneq.
      exfalso. apply Hneq. now apply Hperf.
Qed.

End NestedDepth.

Lemma C5_nested_depth_witness :
  e_freeze (freezer (cgrp Examples.st0 2%nat)) = 0 /\
  e_freeze (freezer
    (cgrp (cgroup_freeze Examples.H3 1%nat true Examples.st0) 2%nat)) = 1.
Proof.
  split; [reflexivity|].
  assert (Hnd : NoDup (css_descendants_pre Examples.H3 1%nat)).
  { cbn. repeat constructor; cbn; intuition discriminate. }
  assert (Hin : In 2%nat (css_descendants_pre Examples.H3 1%nat))
    by (cbn; tauto).
  assert (Hr : if true
               then 0 <= e_freeze (freezer (cgrp Examples.st0 2%nat))
                    < INT_MAX
               else 0 < e_freeze (freezer (cgrp Examples.st0 2%nat))
                    <= INT_MAX)
    by (cbn; unfold INT_MAX; lia).
  destruct (C5_nested_depth_decides_task_actions Examples.H3 1%nat true
              Examples.st0 2%nat eq_refl Hnd Hin eq_refl Hr) as (Hd & _).
  exact Hd.
Defined.

(** ** Balanced executions keep depths and counters non-negative *)

Lemma frozen_in_bounds st g :
  0 <= frozen_in st g <= Z.of_nat (length (tasklist st)).
Proof. apply count_le_length. Qed.

Lemma count_pos {A : Type} (p : A -> bool) (x : A) (l : list A) :
  In x l -> p x = true -> 0 < Z.of_nat (length (filter p l)).
Proof.
  intros Hin Hp.
  assert (Hf : In x (filter p l)) by (apply filter_In; tauto).
  destruct (filter p l); [destruct Hf | cbn; lia].
Qed.

Lemma depth_balanced_view H groups st st' :
  depth_balanced H groups st -> same_depth_view st st' ->
  depth_balanced H groups st'.
Proof.
  intros Hb Hv d. destruct (Hv d) as (-> & _ & ->). rewrite (Hb d).
  replace (requests_on H groups st' d) with (requests_on H groups st d);
    [reflexivity|].
  unfold requests_on. f_equal. f_equal. apply filter_agree.
  intros a _. destruct (Hv a) as (_ & -> & _). reflexivity.
Qed.

Lemma frozen_in_view st st' g :
  same_task_view st st' -> frozen_in st' g = frozen_in st g.
Proof.
  intros (_ & Ht & Hl). unfold frozen_in. rewrite Hl. f_equal. f_equal.
  apply filter_agree. intros u _.
  destruct (Ht u) as (_ & -> & ->). reflexivity.
Qed.

Lemma tasks_balanced_view st st' :
  tasks_balanced st -> same_task_view st st' -> tasks_balanced st'.
Proof.
  intros (Hnd & Hlen & Hcnt & Huser) Hv.
  pose proof Hv as (Hn & Ht & Hl).
  split; [now rewrite Hl|]. split; [now rewrite Hl|]. split.
  - intros g. rewrite Hn, (frozen_in_view st st' g Hv). apply Hcnt.
  - intros t. rewrite Hl. destruct (Ht t) as (-> & -> & _). apply Huser.
Qed.

Lemma same_depth_view_refl st : same_depth_view st st.
Proof. intros g. tauto. Qed.

Lemma same_depth_view_trans st1 st2 st3 :
  same_depth_view st1 st2 -> same_depth_view st2 st3 ->
  same_depth_view st1 st3.
Proof.
  intros H1 H2 g. destruct (H1 g) as (A & B & C).
  destruct (H2 g) as (A' & B' & C'). repeat split; congruence.
Qed.

Lemma same_task_view_trans st1 st2 st3 :
  same_task_view st1 st2 -> same_task_view st2 st3 ->
  same_task_view st1 st3.
Proof.
  intros (N1 & T1 & L1) (N2 & T2 & L2). split; [|split].
  - intros g. now rewrite N2.
  - intros u. destruct (T1 u) as (A & B & C).
    destruct (T2 u) as (A' & B' & C'). repeat split; congruence.
  - congruence.
Qed.

Lemma upward_same_depth_view st st' :
  upward st st' -> same_depth_view st st'.
Proof.
  intros (Hc & _) g. destruct (Hc g) as (_ & A & _ & B & C & _). tauto.
Qed.

Lemma upward_same_task_view st st' :
  upward st st' -> same_task_view st st'.
Proof.
  intros (Hc & Ht & Hl & _). split; [|split].
  - intros g. now destruct (Hc g) as (_ & _ & _ & _ & _ & ->).
  - intros u. rewrite Ht. tauto.
  - exact Hl.
Qed.

Lemma walk_footprint_same_task_view st st' :
  walk_footprint st st' -> same_task_view st st'.
Proof.
  intros (Hc & Ht & Hl & _). split; [|split].
  - intros g. now destruct (Hc g) as (_ & _ & _ & ->).
  - intros u. destruct (Ht u) as (A & B & _ & C & _). tauto.
  - exact Hl.
Qed.

Lemma upward_no_warning st st' :
  upward st st' -> no_warning (trace st) -> no_warning (trace st').
Proof.
  intros (_ & _ & _ & evs & -> & Hn) Hw w Hin.
  apply in_app_iff in Hin. destruct Hin as [Hin|Hin]; [|exact (Hw w Hin)].
  rewrite Forall_forall in Hn. exact (Hn _ Hin).
Qed.

(** One live task changes its frozen flag or its group, and the counters
    follow. *)
Lemma tasks_balanced_change st st' t :
  tasks_balanced st ->
  In t (tasklist st) ->
  tasklist st' = tasklist st ->
  (forall u, u <> t -> task st' u = task st u) ->
  (frozen (task st' t) = true -> PF_KTHREAD (task st' t) = false) ->
  (forall x, nr_frozen_tasks (freezer (cgrp st' x)) =
     nr_frozen_tasks (freezer (cgrp st x))
     + b2z (frozen (task st' t) && Nat.eqb (dfl_cgroup (task st' t)) x)
     - b2z (frozen (task st t) && Nat.eqb (dfl_cgroup (task st t)) x)) ->
  tasks_balanced st'.
Proof.
  intros (Hnd & Hlen & Hcnt & Huser) Hin Hl Hother Hk Hdelta.
  split; [now rewrite Hl|]. split; [now rewrite Hl|]. split.
  - intros x. rewrite Hdelta, Hcnt. unfold frozen_in. rewrite Hl.
    symmetry.
    apply (count_change_one
             (fun u => frozen (task st u) &&
                       Nat.eqb (dfl_cgroup (task st u)) x)
             (fun u => frozen (task st' u) &&
                       Nat.eqb (dfl_cgroup (task st' u)) x)
             t (tasklist st) Hnd Hin).
    intros u Hu. now rewrite Hother.
  - intros u. rewrite Hl. intros Hu Hf.
    destruct (Nat.eq_dec u t) as [->|Hne]; [now apply Hk|].
    rewrite Hother in * by assumption. now apply Huser.
Qed.

Lemma NoDup_remove_elt (t : nat) (l : list nat) :
  NoDup l -> NoDup (remove Nat.eq_dec t l).
Proof.
  induction 1 as [|a l Hnotin Hnd IH]; cbn [remove]; [constructor|].
  destruct (Nat.eq_dec t a); [exact IH|].
  constructor; [|exact IH].
  intros Hin. apply in_remove in Hin. tauto.
Qed.

(** A frozen live task exits, and the counter of its group follows. *)
Lemma tasks_balanced_remove st st' t :
  tasks_balanced st ->
  In t (tasklist st) ->
  tasklist st' = remove Nat.eq_dec t (tasklist st) ->
  task st' = task st ->
  (forall x, nr_frozen_tasks (freezer (cgrp st' x)) =
     nr_frozen_tasks (freezer (cgrp st x))
     - b2z (frozen (task st t) && Nat.eqb (dfl_cgroup (task st t)) x)) ->
  tasks_balanced st'.
Proof.
  intros (Hnd & Hlen & Hcnt & Huser) Hin Hl Ht Hdelta.
  split; [rewrite Hl; now apply NoDup_remove_elt|]. split.
  - rewrite Hl.
    eapply Z.le_lt_trans; [apply inj_le, remove_length_le | exact Hlen].
  - split.
    + intros x. rewrite Hdelta, Hcnt. unfold frozen_in. rewrite Hl, Ht.
      symmetry.
      apply (count_remove
               (fun u => frozen (task st u) &&
                         Nat.eqb (dfl_cgroup (task st u)) x)
               t (tasklist st) Hnd Hin).
    + intros u. rewrite Hl, Ht. intros Hu. apply in_remove in Hu.
      apply Huser. tauto.
Qed.

(** *** The administrative walk *)

Lemma freeze_tasks_no_warning b l : forall st,
  no_warning (trace st) ->
  no_warning (trace (fold_left (do_freeze_task b) l st)).
Proof.
  induction l as [|t l IH]; intros st Hw; cbn [fold_left]; [exact Hw|].
  apply IH. unfold do_freeze_task, cgroup_freeze_task.
  destruct (PF_KTHREAD _); [exact Hw|].
  destruct (negb _); [exact Hw|].
  destruct b; cbn [emit trace map_task]; intros w [Hin|Hin];
    try discriminate; exact (Hw w Hin).
Qed.

Section BalancedWalk.

Variable H : hierarchy.

Lemma cgroup_do_freeze_no_warning g b st :
  no_warning (trace st) -> no_warning (trace (cgroup_do_freeze H g b st)).
Proof.
  intros Hw. unfold cgroup_do_freeze.
  set (st1 := map_cgrp g (set_CGRP_FREEZE b) st).
  set (st2 := fold_left (do_freeze_task b) (css_tasks st1 g) st1).
  assert (H2 : no_warning (trace st2))
    by (apply freeze_tasks_no_warning; exact Hw).
  destruct (_ =? _); [|exact H2].
  eapply upward_no_warning; [apply cgroup_update_frozen_upward | exact H2].
Qed.

Lemma cgroup_freeze_visit_no_warning (b : bool) (st : state) (a : bool)
    (d : gid) :
  (b = false -> is_dead (cgrp st d) = false ->
   0 < e_freeze (freezer (cgrp st d)) <= INT_MAX) ->
  no_warning (trace st) ->
  no_warning (trace (fst (cgroup_freeze_visit H b (st, a) d))).
Proof.
  intros Hr Hw. destruct (is_dead (cgrp st d)) eqn:Hd.
  - now rewrite cgroup_freeze_visit_dead.
  - rewrite cgroup_freeze_visit_live by assumption.
    destruct (_ >? _); cbn [fst]; [exact Hw|].
    apply cgroup_do_freeze_no_warning.
    assert (Hc : negb b &&
              (wrap_int (e_freeze (freezer (cgrp st d)) +
                         (if b then 1 else -1)) <? 0) = false).
    { destruct b; [reflexivity|]. cbn [negb andb].
      specialize (Hr eq_refl eq_refl).
      rewrite wrap_int_id by (unfold INT_MIN, INT_MAX in *; lia).
      apply Z.ltb_ge. lia. }
    rewrite Hc. exact Hw.
Qed.

Lemma cgroup_freeze_visits_no_warning (b : bool) (l : list gid) :
  forall (st : state) (a : bool),
  NoDup l ->
  (b = false -> forall d, In d l -> is_dead (cgrp st d) = false ->
   0 < e_freeze (freezer (cgrp st d)) <= INT_MAX) ->
  no_warning (trace st) ->
  no_warning
    (trace (fst (fold_left (cgroup_freeze_visit H b) l (st, a)))).
Proof.
  induction l as [|d0 l IH]; intros st a Hnd Hr Hw; cbn [fold_left].
  - exact Hw.
  - inversion Hnd as [|x l' Hnotin Hnd']; subst.
    assert (Hw1 : no_warning
              (trace (fst (cgroup_freeze_visit H b (st, a) d0)))).
    { apply cgroup_freeze_visit_no_warning; [|exact Hw].
      intros Hb Hd. apply Hr; [exact Hb | now left | exact Hd]. }
    pose proof (cgroup_freeze_visit_footprint H b st a d0) as Hfp.
    pose proof (fun d Hne => untouched_group_visit H d d0 b st a Hne) as Hun.
    destruct (cgroup_freeze_visit H b (st, a) d0) as [st1 a1].
    cbn [fst] in Hw1, Hfp, Hun.
    apply IH; [exact Hnd'| |exact Hw1].
    intros Hb d Hd Hlive.
    assert (Hne : d0 <> d) by (intros ->; contradiction).
    destruct (Hun d Hne) as (_ & -> & _).
    destruct Hfp as (Hadm & _). destruct (Hadm d) as (Hdead & _).
    apply Hr; [exact Hb | now right | congruence].
Qed.

Lemma existsb_eqb_In (d : nat) (l : list nat) :
  existsb (Nat.eqb d) l = true <-> In d l.
Proof.
  rewrite existsb_exists. split.
  - intros (x & Hx & He). apply Nat.eqb_eq in He. now subst.
  - intros Hin. exists d. split; [exact Hin | apply Nat.eqb_refl].
Qed.

(** cgroup_freeze keeps a balanced state balanced. *)
Lemma cgroup_freeze_balanced (groups : list gid) (g : gid) (b : bool)
    (st : state) :
  NoDup groups ->
  (forall a, In a groups -> NoDup (css_descendants_pre H a)) ->
  Z.of_nat (length groups) < INT_MAX ->
  In g groups ->
  balanced H groups st ->
  balanced H groups (cgroup_freeze H g b st).
Proof.
  intros Hgnd Hdnd Hglen Hg (Htb & Hdb & Hw).
  unfold cgroup_freeze.
  destruct (Bool.eqb (freeze (freezer (cgrp st g))) b) eqn:Hguard;
    [exact (conj Htb (conj Hdb Hw))|].
  assert (Hreq : freeze (freezer (cgrp st g)) = negb b).
  { destruct (freeze (freezer (cgrp st g))), b;
      cbn in Hguard; congruence || reflexivity. }
  set (st1 := map_cgrp g (map_freezer (set_freeze b)) st).
  assert (Hst1 : forall x,
            is_dead (cgrp st1 x) = is_dead (cgrp st x) /\
            e_freeze (freezer (cgrp st1 x)) = e_freeze (freezer (cgrp st x))
            /\ nr_frozen_tasks (freezer (cgrp st1 x)) =
               nr_frozen_tasks (freezer (cgrp st x)) /\
            freeze (freezer (cgrp st1 x)) =
              if Nat.eqb x g then b else freeze (freezer (cgrp st x))).
  { intros x. unfold st1. destruct (Nat.eqb_spec x g) as [->|Hne].
    - rewrite cgrp_map_cgrp_same. cbn. tauto.
    - rewrite cgrp_map_cgrp_other by assumption. tauto. }
  pose proof (cgroup_freeze_visits_footprint H b
                (css_descendants_pre H g) st1 false) as Hfp.
  pose proof (fun d => cgroup_freeze_visits_depth H b
                (css_descendants_pre H g) st1 false d (Hdnd g Hg)) as Hdep.
  (* the number of covering requests before and after *)
  assert (Hcount : forall s' d,
            (forall a, freeze (freezer (cgrp s' a)) =
                       freeze (freezer (cgrp st1 a))) ->
            requests_on H groups s' d =
            requests_on H groups st d +
            (if existsb (Nat.eqb d) (css_descendants_pre H g)
             then (if b then 1 else -1) else 0)).
  { intros s' d Hs'. unfold requests_on.
    rewrite (count_change_one
               (fun a => freeze (freezer (cgrp st a)) &&
                         existsb (Nat.eqb d) (css_descendants_pre H a))
               (fun a => freeze (freezer (cgrp s' a)) &&
                         existsb (Nat.eqb d) (css_descendants_pre H a))
               g groups Hgnd Hg).
    - rewrite Hs'. destruct (Hst1 g) as (_ & _ & _ & ->).
      rewrite Nat.eqb_refl, Hreq.
      destruct b, (existsb (Nat.eqb d) (css_descendants_pre H g));
        unfold b2z; cbn; lia.
    - intros a Ha. rewrite Hs'. destruct (Hst1 a) as (_ & _ & _ & ->).
      destruct (Nat.eqb_spec a g); [contradiction | reflexivity]. }
  assert (Hwalk_w :
    no_warning (trace (fst (cgroup_freeze_walk H g b st1)))).
  { unfold cgroup_freeze_walk.
    apply cgroup_freeze_visits_no_warning; [now apply Hdnd| |exact Hw].
    intros Hb d Hd Hlive. subst b.
    destruct (Hst1 d) as (Hdead & -> & _). rewrite Hdead in Hlive.
    rewrite (Hdb d), Hlive.
    assert (Hpos : 0 < requests_on H groups st d).
    { unfold requests_on.
      apply (count_pos _ g); [exact Hg|].
      rewrite Hreq. cbn [negb andb]. now apply existsb_eqb_In. }
    pose proof (count_le_length
      (fun a => freeze (freezer (cgrp st a)) &&
                existsb (Nat.eqb d) (css_descendants_pre H a)) groups)
      as Hle.
    fold (requests_on H groups st d) in Hle.
    unfold INT_MAX in *. lia. }
  fold (cgroup_freeze_walk H g b st1) in Hfp, Hdep.
  destruct (cgroup_freeze_walk H g b st1) as [st2 applied].
  cbn [fst] in Hfp, Hdep, Hwalk_w.
  assert (Hdb2 : depth_balanced H groups st2).
  { intros d. destruct Hfp as (Hadm & _).
    assert (Hfr : forall a, freeze (freezer (cgrp st2 a)) =
                            freeze (freezer (cgrp st1 a)))
      by (intros a; now destruct (Hadm a) as (_ & _ & -> & _)).
    rewrite (Hcount st2 d Hfr), Hdep.
    destruct (Hadm d) as (-> & _).
    destruct (Hst1 d) as (-> & -> & _).
    pose proof (Hdb d) as Hd0.
    destruct (is_dead (cgrp st d)) eqn:Hdead.
    - rewrite andb_false_r. exact Hd0.
    - rewrite andb_true_r.
      destruct (existsb (Nat.eqb d) (css_descendants_pre H g)) eqn:Hex;
        [|lia].
      pose proof (Hcount st1 d (fun a => eq_refl)) as Hc1.
      rewrite Hex in Hc1.
      pose proof (count_le_length
        (fun a => freeze (freezer (cgrp st1 a)) &&
                  existsb (Nat.eqb d) (css_descendants_pre H a)) groups)
        as Hle1.
      fold (requests_on H groups st1 d) in Hle1.
      pose proof (count_le_length
        (fun a => freeze (freezer (cgrp st a)) &&
                  existsb (Nat.eqb d) (css_descendants_pre H a)) groups)
        as Hle0.
      fold (requests_on H groups st d) in Hle0.
      rewrite Hd0. rewrite wrap_int_id; [reflexivity|].
      unfold INT_MIN, INT_MAX in *. destruct b; lia. }
  assert (Htb2 : tasks_balanced st2).
  { apply (tasks_balanced_view st); [exact Htb|].
    apply (same_task_view_trans st st1 st2).
    - split; [|split].
      + intros x. now destruct (Hst1 x) as (_ & _ & -> & _).
      + intros u. cbn. tauto.
      + reflexivity.
    - now apply walk_footprint_same_task_view. }
  destruct (negb applied); [|exact (conj Htb2 (conj Hdb2 Hwalk_w))].
  split; [|split].
  - apply (tasks_balanced_view st2); [exact Htb2|].
    repeat split; reflexivity.
  - apply (depth_balanced_view H groups st2); [exact Hdb2|].
    intros x. cbn. tauto.
  - intros w [Hin|Hin]; [discriminate | exact (Hwalk_w w Hin)].
Qed.

End BalancedWalk.

(** *** Tasks entering and leaving the frozen state, migrating, exiting *)

Lemma nr_after_set g z st x :
  nr_frozen_tasks (freezer
    (cgrp (map_cgrp g (map_freezer (set_nr_frozen_tasks z)) st) x)) =
  if Nat.eqb x g then z else nr_frozen_tasks (freezer (cgrp st x)).
Proof.
  destruct (Nat.eqb_spec x g) as [->|Hne].
  - now rewrite cgrp_map_cgrp_same.
  - now rewrite cgrp_map_cgrp_other.
Qed.

Lemma same_depth_view_set_nr g z st :
  same_depth_view st (map_cgrp g (map_freezer (set_nr_frozen_tasks z)) st).
Proof.
  intros x. destruct (Nat.eq_dec x g) as [->|Hne].
  - rewrite cgrp_map_cgrp_same. cbn. tauto.
  - rewrite cgrp_map_cgrp_other by assumption. tauto.
Qed.

Lemma frozen_in_pos st t :
  In t (tasklist st) -> frozen (task st t) = true ->
  0 < frozen_in st (dfl_cgroup (task st t)).
Proof.
  intros Hin Hf. unfold frozen_in. apply (count_pos _ t); [exact Hin|].
  now rewrite Hf, Nat.eqb_refl.
Qed.

Section BalancedTasks.

Variable H : hierarchy.
Variable groups : list gid.

Lemma cgroup_enter_frozen_balanced t st :
  In t (tasklist st) -> PF_KTHREAD (task st t) = false ->
  balanced H groups st ->
  balanced H groups (cgroup_enter_frozen H t st).
Proof.
  intros Hin Hk (Htb & Hdb & Hw). unfold cgroup_enter_frozen.
  destruct (frozen (task st t)) eqn:Hf; [exact (conj Htb (conj Hdb Hw))|].
  set (st1 := map_task t (set_frozen true) st).
  assert (Hg : dfl_cgroup (task st1 t) = dfl_cgroup (task st t)).
  { unfold st1. now rewrite task_map_task_same. }
  rewrite Hg. set (g := dfl_cgroup (task st t)).
  pose proof Htb as (Hnd & Hlen & Hcnt & Huser).
  pose proof (frozen_in_bounds st g) as Hb.
  assert (Hinc : cgroup_inc_frozen_cnt g st1 =
                 map_cgrp g (map_freezer (set_nr_frozen_tasks
                   (nr_frozen_tasks (freezer (cgrp st g)) + 1))) st1).
  { rewrite (cgroup_inc_frozen_cnt_in_range g st1); [reflexivity|].
    change (cgrp st1 g) with (cgrp st g).
    rewrite Hcnt. unfold INT_MIN, INT_MAX in *. lia. }
  rewrite Hinc.
  set (st2 := map_cgrp g _ st1).
  pose proof (cgroup_update_frozen_upward H g st2) as Hup.
  split; [|split].
  - apply (tasks_balanced_view st2);
      [|now apply upward_same_task_view].
    apply (tasks_balanced_change st st2 t Htb Hin); try reflexivity.
    + intros u Hu. unfold st2, st1. cbn [map_cgrp task].
      now apply task_map_task_other.
    + intros _. unfold st2, st1. cbn [map_cgrp task].
      rewrite task_map_task_same. exact Hk.
    + intros x. unfold st2. rewrite nr_after_set.
      unfold st1 at 2 3. cbn [map_cgrp map_task task cgrp].
      rewrite upd_same. cbn [set_frozen frozen dfl_cgroup]. rewrite Hf.
      fold g. rewrite (Nat.eqb_sym x g).
      destruct (Nat.eqb_spec g x) as [->|Hne]; unfold b2z; cbn; lia.
  - apply (depth_balanced_view H groups st); [exact Hdb|].
    eapply same_depth_view_trans; [|apply upward_same_depth_view, Hup].
    apply (same_depth_view_trans st st1 st2);
      [intros x; cbn; tauto | apply same_depth_view_set_nr].
  - apply (upward_no_warning st2); [exact Hup | exact Hw].
Qed.

Lemma cgroup_leave_frozen_balanced t b st :
  In t (tasklist st) -> frozen (task st t) = true ->
  balanced H groups st ->
  balanced H groups (cgroup_leave_frozen H t b st).
Proof.
  intros Hin Hf (Htb & Hdb & Hw). unfold cgroup_leave_frozen.
  set (g := dfl_cgroup (task st t)).
  pose proof Htb as (Hnd & Hlen & Hcnt & Huser).
  destruct (b || negb (CGRP_FREEZE (cgrp st g))).
  - pose proof (frozen_in_bounds st g) as Hb.
    pose proof (frozen_in_pos st t Hin Hf) as Hpos. fold g in Hpos.
    rewrite (cgroup_dec_frozen_cnt_in_range g st)
      by (rewrite Hcnt; unfold INT_MAX in *; lia).
    set (s1 := map_cgrp g _ st).
    pose proof (cgroup_update_frozen_upward H g s1) as Hup.
    set (s2 := cgroup_update_frozen H g s1) in *.
    pose proof Hup as (Hc & Ht & Hl & _).
    assert (Hf2 : frozen (task s2 t) = true) by (rewrite Ht; exact Hf).
    rewrite Hf2. cbn [negb WARN_ON_ONCE].
    rewrite task_map_task_same. cbn [set_frozen frozen].
    split; [|split].
    + apply (tasks_balanced_change st _ t Htb Hin).
      * cbn [map_task tasklist]. exact Hl.
      * intros u Hu. rewrite task_map_task_other by assumption.
        now rewrite Ht.
      * rewrite task_map_task_same. cbn. discriminate.
      * intros x. rewrite task_map_task_same.
        cbn [map_task cgrp set_frozen frozen dfl_cgroup andb].
        destruct (Hc x) as (_ & _ & _ & _ & _ & ->).
        unfold s1. rewrite nr_after_set. rewrite Hf. fold g.
        rewrite (Nat.eqb_sym x g).
        destruct (Nat.eqb_spec g x) as [->|Hne]; unfold b2z; cbn; lia.
    + apply (depth_balanced_view H groups st); [exact Hdb|].
      apply (same_depth_view_trans st s2);
        [|intros x; cbn; tauto].
      apply (same_depth_view_trans st s1);
        [apply same_depth_view_set_nr | now apply upward_same_depth_view].
    + cbn [map_task trace]. apply (upward_no_warning s1); assumption.
  - rewrite Hf. split; [|split].
    + apply (tasks_balanced_view st); [exact Htb|].
      repeat split; reflexivity.
    + apply (depth_balanced_view H groups st); [exact Hdb|].
      intros x. cbn. tauto.
    + intros w [Hin'|Hin']; [discriminate | exact (Hw w Hin')].
Qed.

Lemma cgroup_freeze_task_balanced t b st :
  balanced H groups st -> balanced H groups (cgroup_freeze_task t b st).
Proof.
  intros (Htb & Hdb & Hw). unfold cgroup_freeze_task.
  destruct (negb _); [exact (conj Htb (conj Hdb Hw))|].
  assert (Hgen : forall e, (forall w, e <> EvWarn w) ->
            balanced H groups
              (emit e (map_task t (set_JOBCTL_TRAP_FREEZE b) st))).
  { intros e He. split; [|split].
    - apply (tasks_balanced_view st); [exact Htb|].
      split; [|split]; try reflexivity.
      intros u. cbn [emit task]. destruct (Nat.eq_dec u t) as [->|Hne].
      + rewrite task_map_task_same. cbn. tauto.
      + rewrite task_map_task_other by assumption. tauto.
    - apply (depth_balanced_view H groups st); [exact Hdb|].
      intros x. cbn. tauto.
    - intros w [Hin|Hin]; [exact (He w Hin) | exact (Hw w Hin)]. }
  destruct b; apply Hgen; discriminate.
Qed.

Lemma migrate_balanced t dst st :
  In t (tasklist st) ->
  balanced H groups st ->
  balanced H groups (step H (OpMigrate t dst) st).
Proof.
  intros Hin (Htb & Hdb & Hw). cbn [step].
  set (src := dfl_cgroup (task st t)).
  unfold css_set_move_task.
  set (s0 := map_task t (set_dfl_cgroup dst) st).
  pose proof Htb as (Hnd & Hlen & Hcnt & Huser).
  assert (Hs0 : task s0 t = set_dfl_cgroup dst (task st t))
    by (unfold s0; apply task_map_task_same).
  (* the counters once the frozen task has been accounted for *)
  assert (Hacc : forall sa,
            tasklist sa = tasklist st -> task sa = task s0 ->
            trace sa = trace st -> same_depth_view st sa ->
            (forall x, nr_frozen_tasks (freezer (cgrp sa x)) =
               nr_frozen_tasks (freezer (cgrp st x))
               + b2z (frozen (task st t) && Nat.eqb dst x)
               - b2z (frozen (task st t) && Nat.eqb src x)) ->
            (frozen (task st t) = true -> PF_KTHREAD (task st t) = false) ->
            balanced H groups sa).
  { intros sa Hl Ht Htr Hdv Hnr Hk. split; [|split].
    - apply (tasks_balanced_change st sa t Htb Hin Hl).
      + intros u Hu. rewrite Ht. unfold s0.
        now apply task_map_task_other.
      + rewrite Ht, Hs0. cbn. exact Hk.
      + intros x. rewrite Ht, Hs0. cbn [set_dfl_cgroup frozen dfl_cgroup].
        apply Hnr.
    - now apply (depth_balanced_view H groups st).
    - now rewrite Htr. }
  unfold cgroup_freezer_migrate_task. rewrite Hs0.
  cbn [set_dfl_cgroup PF_KTHREAD frozen].
  destruct (PF_KTHREAD (task st t)) eqn:Hk.
  - apply Hacc; [reflexivity | reflexivity | reflexivity | | | ].
    + intros x. cbn. tauto.
    + assert (Hf : frozen (task st t) = false).
      { destruct (frozen (task st t)) eqn:Hf; [|reflexivity].
        specialize (Huser t Hin Hf). congruence. }
      intros x. rewrite Hf. cbn. lia.
    + intros Hf. specialize (Huser t Hin Hf). congruence.
  - apply cgroup_freeze_task_balanced.
    match goal with
    | |- balanced _ _ (cgroup_update_frozen _ _
                         (cgroup_update_frozen _ _ ?s)) =>
        set (sa := s)
    end.
    assert (Hsa : balanced H groups sa).
    { unfold sa. destruct (frozen (task st t)) eqn:Hf.
      - pose proof (frozen_in_bounds st dst) as Hbd.
        pose proof (frozen_in_bounds st src) as Hbs.
        pose proof (frozen_in_pos st t Hin Hf) as Hpos. fold src in Hpos.
        rewrite (cgroup_inc_frozen_cnt_in_range dst s0)
          by (change (cgrp s0 dst) with (cgrp st dst); rewrite Hcnt;
              unfold INT_MIN, INT_MAX in *; lia).
        change (cgrp s0 dst) with (cgrp st dst).
        set (si := map_cgrp dst _ s0).
        assert (Hsi : nr_frozen_tasks (freezer (cgrp si src)) =
                      if Nat.eqb src dst
                      then nr_frozen_tasks (freezer (cgrp st dst)) + 1
                      else nr_frozen_tasks (freezer (cgrp st src))).
        { unfold si. now rewrite nr_after_set. }
        rewrite (cgroup_dec_frozen_cnt_in_range src si).
        + apply Hacc; [reflexivity | reflexivity | reflexivity | | | ].
          * apply (same_depth_view_trans st si);
              [|apply same_depth_view_set_nr].
            apply (same_depth_view_trans st s0);
              [intros x; cbn; tauto | apply same_depth_view_set_nr].
          * intros x. rewrite nr_after_set, Hsi. unfold si.
            rewrite nr_after_set.
            change (cgrp s0 x) with (cgrp st x). cbn [andb].
            rewrite (Nat.eqb_sym x src), (Nat.eqb_sym x dst).
            destruct (Nat.eqb_spec src x) as [E1|N1];
              destruct (Nat.eqb_spec dst x) as [E2|N2];
              destruct (Nat.eqb_spec src dst) as [E3|N3];
              try congruence; rewrite ?E1, ?E2; unfold b2z; lia.
          * reflexivity.
        + rewrite Hsi. destruct (Nat.eqb_spec src dst) as [He|Hne];
            rewrite !Hcnt; unfold INT_MAX in *; lia.
      - apply Hacc; [reflexivity | reflexivity | reflexivity | | | ].
        + intros x. cbn. tauto.
        + intros x. cbn. lia.
        + reflexivity. }
    destruct Hsa as (Htb' & Hdb' & Hw').
    pose proof (cgroup_update_frozen_upward H dst sa) as Hup1.
    pose proof (cgroup_update_frozen_upward H src
                  (cgroup_update_frozen H dst sa)) as Hup2.
    pose proof (upward_trans _ _ _ Hup1 Hup2) as Hup.
    split; [|split].
    + apply (tasks_balanced_view sa);
        [exact Htb' | now apply upward_same_task_view].
    + apply (depth_balanced_view H groups sa);
        [exact Hdb' | now apply upward_same_depth_view].
    + now apply (upward_no_warning sa).
Qed.

Lemma frozen_exit_balanced t st :
  In t (tasklist st) -> frozen (task st t) = true ->
  balanced H groups st ->
  balanced H groups (step H (OpExit t) st).
Proof.
  intros Hin Hf (Htb & Hdb & Hw). cbn [step].
  unfold cgroup_freezer_frozen_exit.
  set (s0 := css_set_remove_task t st).
  change (dfl_cgroup (task s0 t)) with (dfl_cgroup (task st t)).
  set (g := dfl_cgroup (task st t)).
  pose proof Htb as (Hnd & Hlen & Hcnt & Huser).
  pose proof (frozen_in_bounds st g) as Hb.
  pose proof (frozen_in_pos st t Hin Hf) as Hpos. fold g in Hpos.
  rewrite (cgroup_dec_frozen_cnt_in_range g s0)
    by (change (cgrp s0 g) with (cgrp st g); rewrite Hcnt;
        unfold INT_MAX in *; lia).
  change (cgrp s0 g) with (cgrp st g).
  set (s1 := map_cgrp g _ s0).
  pose proof (cgroup_update_frozen_upward H g s1) as Hup.
  split; [|split].
  - apply (tasks_balanced_view s1); [|now apply upward_same_task_view].
    apply (tasks_balanced_remove st s1 t Htb Hin); try reflexivity.
    intros x. unfold s1. rewrite nr_after_set.
    change (cgrp s0 x) with (cgrp st x). rewrite Hf. fold g.
    rewrite (Nat.eqb_sym x g).
    destruct (Nat.eqb_spec g x) as [->|Hne]; unfold b2z; cbn; lia.
  - apply (depth_balanced_view H groups st); [exact Hdb|].
    apply (same_depth_view_trans st s1);
      [|now apply upward_same_depth_view].
    apply (same_depth_view_trans st s0);
      [intros x; cbn; tauto | apply same_depth_view_set_nr].
  - apply (upward_no_warning s1); [exact Hup | exact Hw].
Qed.

End BalancedTasks.

Section BalancedRuns.

Variable H : hierarchy.
Variable groups : list gid.

Hypothesis groups_nodup : NoDup groups.
Hypothesis descendants_nodup :
  forall a, In a groups -> NoDup (css_descendants_pre H a).
Hypothesis groups_bound : Z.of_nat (length groups) < INT_MAX.

Lemma initial_balanced st :
  Z.of_nat (length (tasklist st)) < INT_MAX ->
  initial st -> balanced H groups st.
Proof.
  intros Hlen (Hg & Ht & Hnd & Htr). split; [|split].
  - split; [exact Hnd|]. split; [exact Hlen|]. split.
    + intros g. destruct (Hg g) as (_ & _ & ->). cbn [nr_frozen_tasks].
      unfold frozen_in.
      rewrite (filter_agree _ (fun _ => false)).
      * now rewrite filter_none.
      * intros u _. now destruct (Ht u) as (-> & _).
    + intros t _ Hf. destruct (Ht t) as (Hf' & _). congruence.
  - intros d. destruct (Hg d) as (_ & _ & Hd). rewrite Hd. cbn [e_freeze].
    destruct (is_dead (cgrp st d)); [reflexivity|].
    unfold requests_on.
    rewrite (filter_agree _ (fun _ => false)).
    + now rewrite filter_none.
    + intros a _. now destruct (Hg a) as (_ & _ & ->).
  - rewrite Htr. intros w [].
Qed.

Lemma step_balanced o st :
  matched groups st o -> balanced H groups st ->
  balanced H groups (step H o st).
Proof.
  intros Hm Hb. destruct o as [g b|t|t b|t dst|t]; cbn [matched] in Hm.
  - now apply cgroup_freeze_balanced.
  - destruct Hm. now apply cgroup_enter_frozen_balanced.
  - destruct Hm. now apply cgroup_leave_frozen_balanced.
  - now apply migrate_balanced.
  - destruct Hm. now apply frozen_exit_balanced.
Qed.

Lemma run_balanced ops : forall st,
  matched_run H groups st ops -> balanced H groups st ->
  balanced H groups (run H ops st).
Proof.
  induction ops as [|o ops IH]; intros st Hm Hb; cbn [run fold_left].
  - exact Hb.
  - destruct Hm as (Ho & Hrest). apply IH; [exact Hrest|].
    now apply step_balanced.
Qed.

Lemma balanced_nonnegative st g :
  balanced H groups st ->
  0 <= e_freeze (freezer (cgrp st g)) /\
  0 <= nr_frozen_tasks (freezer (cgrp st g)).
Proof.
  intros ((_ & _ & Hcnt & _) & Hdb & _). rewrite (Hdb g), (Hcnt g). split.
  - destruct (is_dead (cgrp st g)); [lia|]. unfold requests_on. lia.
  - apply frozen_in_bounds.
Qed.

End BalancedRuns.

Lemma cgroup_dec_frozen_cnt_warns g st :
  nr_frozen_tasks (freezer (cgrp (cgroup_dec_frozen_cnt g st) g)) < 0 ->
  In (EvWarn (WarnFrozenCntNegative g))
     (trace (cgroup_dec_frozen_cnt g st)).
Proof.
  unfold cgroup_dec_frozen_cnt, WARN_ON_ONCE.
  destruct (_ <? 0) eqn:Hlt.
  - intros _. now left.
  - cbn [emit cgrp]. intros Hneg. apply Z.ltb_ge in Hlt. lia.
Qed.

Lemma cgroup_freeze_visit_warns H st a d :
  is_dead (cgrp st d) = false ->
  e_freeze (freezer
    (cgrp (fst (cgroup_freeze_visit H false (st, a) d)) d)) < 0 ->
  In (EvWarn (WarnEFreezeNegative d))
     (trace (fst (cgroup_freeze_visit H false (st, a) d))).
Proof.
  intros Hlive. rewrite cgroup_freeze_visit_depth, Hlive.
  rewrite cgroup_freeze_visit_live by assumption.
  set (depth' := wrap_int (e_freeze (freezer (cgrp st d)) + -1)).
  intros Hneg.
  destruct (Z.gtb_spec depth' 0) as [Hgt|_]; [lia|]. cbn [fst negb andb].
  destruct (Z.ltb_spec depth' 0) as [_|Hge]; [|lia].
  cbn [WARN_ON_ONCE].
  destruct (cgroup_do_freeze_footprint H d false
              (emit (EvWarn (WarnEFreezeNegative d))
                    (with_depth d depth' st)))
    as (_ & _ & _ & evs & -> & _).
  apply in_app_iff. right. now left.
Qed.

(** C7: along every balanced execution from a freshly created system -
    administrative requests on known groups, each withdrawal being matched
    with the assertion it undoes by the guard of set_freeze, and frozen-task
    counter decrements only for tasks that were counted - the nested freeze
    depth and the frozen-task count of every group stay non-negative and no
    WARN_ON_ONCE assertion fires; the statement covers every intermediate
    state, a prefix of a balanced execution being balanced.  A negative
    frozen-task count after a decrement, and a negative depth after a
    withdrawal, do trip the assertion. *)
Theorem C7_balanced_counters_never_negative (H : hierarchy)
    (groups : list gid) (st : state) (ops : list op) :
  NoDup groups ->
  (forall a, In a groups -> NoDup (css_descendants_pre H a)) ->
  Z.of_nat (length groups) < INT_MAX ->
  Z.of_nat (length (tasklist st)) < INT_MAX ->
  initial st ->
  matched_run H groups st ops ->
  let st' := run H ops st in
  (forall g, 0 <= e_freeze (freezer (cgrp st' g)) /\
             0 <= nr_frozen_tasks (freezer (cgrp st' g))) /\
  no_warning (trace st') /\
  (forall s g,
     nr_frozen_tasks (freezer (cgrp (cgroup_dec_frozen_cnt g s) g)) < 0 ->
     In (EvWarn (WarnFrozenCntNegative g))
        (trace (cgroup_dec_frozen_cnt g s))) /\
  (forall s a d,
     is_dead (cgrp s d) = false ->
     e_freeze (freezer
       (cgrp (fst (cgroup_freeze_visit H false (s, a) d)) d)) < 0 ->
     In (EvWarn (WarnEFreezeNegative d))
        (trace (fst (cgroup_freeze_visit H false (s, a) d)))).
Proof.
  intros Hgnd Hdnd Hglen Hlen Hinit Hm st'.
  assert (Hb : balanced H groups st').
  { apply run_balanced; try assumption. now apply initial_balanced. }
  split; [|split; [|split]].
  - intros g. now apply (balanced_nonnegative H groups).
  - now destruct Hb as (_ & _ & Hw).
  - intros s g. apply cgroup_dec_frozen_cnt_warns.
  - intros s a d. apply cgroup_freeze_visit_warns.
Qed.

Lemma C7_balanced_counters_witness :
  initial Examples.st0 /\
  forall g,
    0 <= e_freeze (freezer
           (cgrp (run Examples.H3 Examples.balanced_ops Examples.st0) g)) /\
    0 <= nr_frozen_tasks (freezer
           (cgrp (run Examples.H3 Examples.balanced_ops Examples.st0) g)).
Proof.
  assert (Hinit : initial Examples.st0).
  { split; [|split; [|split]].
    - intros g. repeat split.
    - intros t. destruct t as [|[|t]]; split; reflexivity.
    - repeat constructor; cbn; intuition discriminate.
    - reflexivity. }
  assert (Hgnd : NoDup [1; 2]%nat)
    by (repeat constructor; cbn; intuition discriminate).
  assert (Hdnd : forall a, In a [1; 2]%nat ->
                   NoDup (css_descendants_pre Examples.H3 a)).
  { intros a [<-|[<-|[]]]; cbn;
      repeat constructor; cbn; intuition discriminate. }
  assert (Hglen : Z.of_nat (length [1; 2]%nat) < INT_MAX) by reflexivity.
  assert (Hlen : Z.of_nat (length (tasklist Examples.st0)) < INT_MAX)
    by reflexivity.
  assert (Hm : matched_run Examples.H3 [1; 2]%nat Examples.st0
                 Examples.balanced_ops).
  { vm_compute. repeat split; auto. }
  split; [exact Hinit|].
  exact (proj1 (C7_balanced_counters_never_negative Examples.H3 [1; 2]%nat
                  Examples.st0 Examples.balanced_ops
                  Hgnd Hdnd Hglen Hlen Hinit Hm)).
Defined.

(** ** The aggregate status against invariant I1 *)

Lemma H3_well_formed : well_formed Examples.H3.
Proof.
  intros g p. destruct g as [|[|[|g]]]; cbn; intros [= <-]; reflexivity.
Qed.

(** C1 does not hold of the code.  With group 1 asked to freeze: (a) once
    its own task 0 has stopped, cgroup_update_frozen reports group 1 frozen
    although its descendant group 2 is not frozen and its frozen-descendant
    count (0) differs from its descendant count (1); (b) once instead task 1
    of the child group 2 has stopped, cgroup_propagate_frozen reports group
    1 frozen although its own task 0 is still running and its frozen-task
    count (0) differs from its own-task count (1).  In both states the
    group is asked to freeze by both its request flag and CGRP_FREEZE. *)
Theorem C1_frozen_reported_against_I1 :
  (let st := Examples.st_parent_task_stopped in
   freeze (freezer (cgrp st 1%nat)) = true /\
   CGRP_FREEZE (cgrp st 1%nat) = true /\
   CGRP_FROZEN (cgrp st 1%nat) = true /\
   CGRP_FROZEN (cgrp st 2%nat) = false /\
   cgroup_parent Examples.H3 2%nat = Some 1%nat /\
   nr_frozen_descendants (freezer (cgrp st 1%nat)) = 0 /\
   nr_descendants (cgrp st 1%nat) = 1 /\
   ~ I1 st 1%nat) /\
  (let st := Examples.st_child_task_stopped in
   freeze (freezer (cgrp st 1%nat)) = true /\
   CGRP_FREEZE (cgrp st 1%nat) = true /\
   CGRP_FROZEN (cgrp st 1%nat) = true /\
   frozen (task st 0%nat) = false /\
   dfl_cgroup (task st 0%nat) = 1%nat /\
   nr_frozen_tasks (freezer (cgrp st 1%nat)) = 0 /\
   __cgroup_task_count st 1%nat = 1 /\
   ~ I1 st 1%nat).
Proof.
  split; cbv zeta; repeat (split; [reflexivity|]);
    intros [HI1 _]; specialize (HI1 eq_refl);
    destruct HI1 as (_ & Ht & Hd); vm_compute in Ht, Hd; discriminate.
Qed.

(** ** The scenarios of the design document, evaluated *)

(** S1: freezing the root of two siblings quiesces the task, reports the
    empty sibling frozen at once, and reports the other sibling and the
    root frozen once the task has stopped. *)
Example scenario_S1 :
  let st1 := run Examples.H_siblings [OpFreeze 0%nat true]
               Examples.st_siblings in
  let st2 := run Examples.H_siblings [OpEnterFrozen 0%nat] st1 in
  JOBCTL_TRAP_FREEZE (task st1 0%nat) = true /\
  Examples.frozen_flags st1 = [false; false; true] /\
  Examples.frozen_flags st2 = [true; true; true].
Proof. repeat split. Qed.

(** S2: moving the frozen task between the two frozen siblings moves one
    unit of the frozen-task count and leaves all three groups frozen. *)
Example scenario_S2 :
  let st2 := run Examples.H_siblings
               [OpFreeze 0%nat true; OpEnterFrozen 0%nat]
               Examples.st_siblings in
  let st3 := run Examples.H_siblings [OpMigrate 0%nat 2%nat] st2 in
  nr_frozen_tasks (freezer (cgrp st3 1%nat)) = 0 /\
  nr_frozen_tasks (freezer (cgrp st3 2%nat)) = 1 /\
  Examples.frozen_flags st3 = [true; true; true] /\
  Forall (fun e => forall g, e <> EvFileNotify g) (emitted st2 st3).
Proof.
  repeat split. vm_compute. repeat constructor; discriminate.
Qed.

(** S3: group 2 is under two requests, its own and that of group 1; when
    group 1 withdraws, the depth of group 2 drops to 1 and its task keeps
    its freeze request. *)
Example scenario_S3 :
  let st2 := run Examples.H3 [OpFreeze 1%nat true; OpFreeze 2%nat true]
               Examples.st0 in
  let st3 := run Examples.H3 [OpFreeze 1%nat false] st2 in
  e_freeze (freezer (cgrp st2 2%nat)) = 2 /\
  e_freeze (freezer (cgrp st3 2%nat)) = 1 /\
  CGRP_FREEZE (cgrp st3 2%nat) = true /\
  JOBCTL_TRAP_FREEZE (task st3 1%nat) = true /\
  ~ In (EvWakeUpProcess 1%nat) (emitted st2 st3).
Proof.
  repeat split. vm_compute. intuition discriminate.
Qed.

(** ** The recomputation of one group, in a well-formed tree *)

Lemma propagate_step_other b p desc st x :
  x <> p -> cgrp (fst (propagate_step b p desc st)) x = cgrp st x.
Proof.
  intros Hne. unfold propagate_step.
  destruct b; match goal with |- context [if ?c then _ else _] =>
    destruct c end; cbn [fst cgroup_file_notify emit cgrp];
    rewrite ?cgrp_map_cgrp_other by assumption; reflexivity.
Qed.

(** What one iteration of the ancestor loop does to the status of the
    ancestor and to the trace: a notification exactly when the status
    flips. *)
Lemma propagate_step_flip b p desc st :
  let st1 := fst (propagate_step b p desc st) in
  (CGRP_FROZEN (cgrp st1 p) <> CGRP_FROZEN (cgrp st p) /\
   trace st1 = EvFileNotify p :: trace st) \/
  (CGRP_FROZEN (cgrp st1 p) = CGRP_FROZEN (cgrp st p) /\
   trace st1 = trace st).
Proof.
  cbv zeta. unfold propagate_step.
  destruct b.
  - rewrite cgrp_map_cgrp_same.
    cbn [map_freezer CGRP_FROZEN CGRP_FREEZE].
    destruct (CGRP_FROZEN (cgrp st p)) eqn:Hf; cbn [negb andb fst].
    + right. rewrite cgrp_map_cgrp_same. cbn. tauto.
    + match goal with |- context [if ?c then _ else _] =>
        destruct c end; cbn [fst].
      * left. cbn [cgroup_file_notify emit cgrp trace].
        rewrite cgrp_map_cgrp_same. cbn. split; [discriminate|reflexivity].
      * right. rewrite cgrp_map_cgrp_same. cbn. tauto.
  - rewrite cgrp_map_cgrp_same. cbn [map_freezer CGRP_FROZEN].
    destruct (CGRP_FROZEN (cgrp st p)) eqn:Hf; cbn [fst].
    + left. cbn [cgroup_file_notify emit cgrp trace].
      rewrite cgrp_map_cgrp_same. cbn. split; [discriminate|reflexivity].
    + right. rewrite cgrp_map_cgrp_same. cbn. tauto.
Qed.

Section WellFormedTree.

Variable H : hierarchy.
Hypothesis H_well_formed : well_formed H.

(** The ancestor loop only writes to groups strictly above its start. *)
Lemma propagate_loop_below fuel : forall g b desc st x,
  (cgroup_level H g <= cgroup_level H x)%nat ->
  cgrp (propagate_loop H fuel g b desc st) x = cgrp st x.
Proof.
  induction fuel as [|fuel IH]; intros g b desc st x Hle;
    cbn [propagate_loop]; [reflexivity|].
  destruct (cgroup_parent H g) as [p|] eqn:Hp; [|reflexivity].
  pose proof (H_well_formed g p Hp) as Hlev.
  pose proof (propagate_step_other b p desc st x) as Hother.
  destruct (propagate_step b p desc st) as [st1 desc1]. cbn [fst] in Hother.
  rewrite IH by lia. apply Hother. intros ->. lia.
Qed.

(** The ancestor loop notifies exactly the groups whose status it flips,
    once each. *)
Lemma propagate_loop_notifies fuel : forall g b desc st,
  exists evs,
    trace (propagate_loop H fuel g b desc st) = evs ++ trace st /\
    NoDup evs /\
    (forall e, In e evs -> exists x,
       e = EvFileNotify x /\ (cgroup_level H x < cgroup_level H g)%nat) /\
    (forall x, In (EvFileNotify x) evs <->
       CGRP_FROZEN (cgrp (propagate_loop H fuel g b desc st) x) <>
       CGRP_FROZEN (cgrp st x)).
Proof.
  induction fuel as [|fuel IH]; intros g b desc st; cbn [propagate_loop].
  - exists []. split; [reflexivity|]. split; [constructor|].
    split; [intros e []|]. intros x. split; [intros [] | congruence].
  - destruct (cgroup_parent H g) as [p|] eqn:Hp.
    2:{ exists []. split; [reflexivity|]. split; [constructor|].
        split; [intros e []|]. intros x. split; [intros [] | congruence]. }
    pose proof (H_well_formed g p Hp) as Hlev.
    pose proof (propagate_step_flip b p desc st) as Hflip.
    pose proof (fun x => propagate_step_other b p desc st x) as Hother.
    destruct (propagate_step b p desc st) as [st1 desc1].
    cbv zeta in Hflip. cbn [fst] in Hflip, Hother.
    destruct (IH p b desc1 st1) as (evs & Htr & Hnd & Hlev_evs & Hiff).
    pose proof (propagate_loop_below fuel p b desc1 st1 p (le_n _)) as Hp_kept.
    set (st' := propagate_loop H fuel p b desc1 st1) in *.
    assert (Hnot_p : ~ In (EvFileNotify p) evs).
    { intros Hin. destruct (Hlev_evs _ Hin) as (x & [= <-] & Hx). lia. }
    destruct Hflip as [(Hne & Htr1)|(Heq & Htr1)].
    + exists (evs ++ [EvFileNotify p]). split; [|split; [|split]].
      * rewrite Htr, Htr1, <- app_assoc. reflexivity.
      * apply NoDup_app; [exact Hnd | repeat constructor; intros [] |].
        intros e He [<-|[]]. contradiction.
      * intros e He. apply in_app_iff in He. destruct He as [He|[<-|[]]].
        -- destruct (Hlev_evs e He) as (x & -> & Hx). exists x.
           split; [reflexivity | lia].
        -- exists p. split; [reflexivity | lia].
      * intros x. rewrite in_app_iff. destruct (Nat.eq_dec x p) as [->|Hxp].
        -- rewrite Hp_kept. split; [intros _; exact Hne|].
           intros _. right. now left.
        -- rewrite Hiff, (Hother x Hxp). split; [intros [A|[A|[]]]|tauto].
           ++ exact A.
           ++ congruence.
    + exists evs. split; [|split; [|split]].
      * rewrite Htr, Htr1. reflexivity.
      * exact Hnd.
      * intros e He. destruct (Hlev_evs e He) as (x & -> & Hx). exists x.
        split; [reflexivity | lia].
      * intros x. destruct (Nat.eq_dec x p) as [->|Hxp].
        -- rewrite Hp_kept, Heq. split; [contradiction | congruence].
        -- now rewrite Hiff, (Hother x Hxp).
Qed.

(** The status of a group after its recomputation. *)
Lemma cgroup_update_frozen_status (g : gid) (st : state) :
  let st' := cgroup_update_frozen H g st in
  CGRP_FROZEN (cgrp st' g) =
    CGRP_FREEZE (cgrp st' g) &&
    (nr_frozen_tasks (freezer (cgrp st' g)) =? __cgroup_task_count st' g).
Proof.
  intros st'.
  destruct (cgroup_update_frozen_upward H g st) as (Hc & Ht & Hl & _).
  fold st' in Hc, Ht, Hl.
  destruct (Hc g) as (Hfz & _ & _ & _ & _ & Hnr).
  assert (Hcount : __cgroup_task_count st' g = __cgroup_task_count st g).
  { unfold __cgroup_task_count. now rewrite Ht, Hl. }
  rewrite Hfz, Hnr, Hcount.
  unfold st', cgroup_update_frozen, cgroup_propagate_frozen.
  set (want := CGRP_FREEZE (cgrp st g) &&
               (nr_frozen_tasks (freezer (cgrp st g)) =?
                __cgroup_task_count st g)).
  destruct want eqn:Hw.
  - destruct (CGRP_FROZEN (cgrp st g)) eqn:Hcur; [exact Hcur|].
    rewrite propagate_loop_below by apply le_n.
    cbn [cgroup_file_notify emit cgrp]. rewrite cgrp_map_cgrp_same.
    reflexivity.
  - destruct (CGRP_FROZEN (cgrp st g)) eqn:Hcur; cbn [negb]; [|exact Hcur].
    rewrite propagate_loop_below by apply le_n.
    cbn [cgroup_file_notify emit cgrp]. rewrite cgrp_map_cgrp_same.
    reflexivity.
Qed.

(** The recomputation of a group only writes to the group and to groups
    strictly above it. *)
Lemma cgroup_update_frozen_below (g : gid) (st : state) (x : gid) :
  x <> g -> (cgroup_level H g <= cgroup_level H x)%nat ->
  cgrp (cgroup_update_frozen H g st) x = cgrp st x.
Proof.
  intros Hne Hle.
  assert (Hflip : forall b,
            cgrp (cgroup_propagate_frozen H g b
                    (cgroup_file_notify g
                       (map_cgrp g (set_CGRP_FROZEN b) st))) x = cgrp st x).
  { intros b. unfold cgroup_propagate_frozen.
    rewrite propagate_loop_below by exact Hle.
    cbn [cgroup_file_notify emit cgrp]. now apply cgrp_map_cgrp_other. }
  unfold cgroup_update_frozen.
  destruct (_ && _); destruct (CGRP_FROZEN (cgrp st g)); cbn [negb];
    try reflexivity; apply Hflip.
Qed.

(** X1: in a well-formed tree, cgroup_update_frozen leaves the status of
    its group frozen exactly when the group's CGRP_FREEZE flag is set and
    its frozen-task count equals its task count; the walk over the
    ancestors does not disturb that result, and no other group at the same
    depth or deeper is written to. *)
Theorem update_frozen_settles_group (g : gid) (st : state) :
  let st' := cgroup_update_frozen H g st in
  CGRP_FROZEN (cgrp st' g) =
    CGRP_FREEZE (cgrp st g) &&
    (nr_frozen_tasks (freezer (cgrp st g)) =? __cgroup_task_count st g) /\
  forall x, x <> g -> (cgroup_level H g <= cgroup_level H x)%nat ->
            cgrp st' x = cgrp st x.
Proof.
  intros st'. split; [|intros x; apply cgroup_update_frozen_below].
  pose proof (cgroup_update_frozen_status g st) as Hst. cbv zeta in Hst.
  fold st' in Hst. rewrite Hst.
  destruct (cgroup_update_frozen_upward H g st) as (Hc & Ht & Hl & _).
  fold st' in Hc, Ht, Hl.
  destruct (Hc g) as (-> & _ & _ & _ & _ & ->).
  unfold __cgroup_task_count. now rewrite Ht, Hl.
Qed.

(** X2: cgroup_update_frozen is idempotent: run a second time on the same
    group it finds the status already there and returns the state
    unchanged, without a second notification. *)
Theorem update_frozen_idempotent (g : gid) (st : state) :
  cgroup_update_frozen H g (cgroup_update_frozen H g st) =
  cgroup_update_frozen H g st.
Proof.
  pose proof (cgroup_update_frozen_status g st) as Hset. cbv zeta in Hset.
  set (st' := cgroup_update_frozen H g st) in *.
  unfold cgroup_update_frozen at 1. rewrite <- Hset.
  destruct (CGRP_FROZEN (cgrp st' g)); reflexivity.
Qed.

(** X3: cgroup_update_frozen emits status notifications only, at most one
    per group, and for exactly the groups whose aggregate status differs
    before and after the call. *)
Theorem update_frozen_notifies_exactly_flips (g : gid) (st : state) :
  let st' := cgroup_update_frozen H g st in
  NoDup (emitted st st') /\
  (forall e, In e (emitted st st') -> exists x, e = EvFileNotify x) /\
  (forall x, In (EvFileNotify x) (emitted st st') <->
             CGRP_FROZEN (cgrp st' x) <> CGRP_FROZEN (cgrp st x)).
Proof.
  intros st'.
  assert (Hnone : st' = st ->
            NoDup (emitted st st') /\
            (forall e, In e (emitted st st') -> exists x, e = EvFileNotify x)
            /\ (forall x, In (EvFileNotify x) (emitted st st') <->
                  CGRP_FROZEN (cgrp st' x) <> CGRP_FROZEN (cgrp st x))).
  { intros ->. rewrite (emitted_app st st []) by reflexivity.
    split; [constructor|]. split; [intros e []|].
    intros x. split; [intros [] | congruence]. }
  assert (Hflip : forall b,
            CGRP_FROZEN (cgrp st g) = negb b ->
            st' = cgroup_propagate_frozen H g b
                    (cgroup_file_notify g
                       (map_cgrp g (set_CGRP_FROZEN b) st)) ->
            NoDup (emitted st st') /\
            (forall e, In e (emitted st st') -> exists x, e = EvFileNotify x)
            /\ (forall x, In (EvFileNotify x) (emitted st st') <->
                  CGRP_FROZEN (cgrp st' x) <> CGRP_FROZEN (cgrp st x))).
  { intros b Hcur Hst'. unfold cgroup_propagate_frozen in Hst'.
    set (st1 := cgroup_file_notify g (map_cgrp g (set_CGRP_FROZEN b) st))
      in *.
    destruct (propagate_loop_notifies (cgroup_level H g) g b 1 st1)
      as (evs & Htr & Hnd & Hlev & Hiff).
    rewrite <- Hst' in Htr, Hiff.
    assert (Hg : cgrp st' g = cgrp st1 g)
      by (rewrite Hst'; apply propagate_loop_below, le_n).
    assert (Hst1_g : CGRP_FROZEN (cgrp st1 g) = b)
      by (unfold st1; cbn [cgroup_file_notify emit cgrp];
          now rewrite cgrp_map_cgrp_same).
    assert (Hst1_other : forall x, x <> g -> cgrp st1 x = cgrp st x)
      by (intros x Hx; unfold st1; cbn [cgroup_file_notify emit cgrp];
          now apply cgrp_map_cgrp_other).
    assert (Hnot_g : ~ In (EvFileNotify g) evs).
    { intros Hin. destruct (Hlev _ Hin) as (x & [= <-] & Hx). lia. }
    rewrite (emitted_app st st' (evs ++ [EvFileNotify g])).
    2:{ rewrite Htr. unfold st1. cbn [cgroup_file_notify emit trace map_cgrp].
        now rewrite <- app_assoc. }
    split; [|split].
    - apply NoDup_app; [exact Hnd | repeat constructor; intros [] |].
      intros e He [<-|[]]. contradiction.
    - intros e He. apply in_app_iff in He. destruct He as [He|[<-|[]]].
      + destruct (Hlev e He) as (x & -> & _). now exists x.
      + now exists g.
    - intros x. rewrite in_app_iff. destruct (Nat.eq_dec x g) as [->|Hx].
      + rewrite Hg, Hst1_g, Hcur. split.
        * intros _. destruct b; discriminate.
        * intros _. right. now left.
      + rewrite Hiff, (Hst1_other x Hx). split; [intros [A|[A|[]]]|tauto].
        * exact A.
        * congruence. }
  unfold st', cgroup_update_frozen in *.
  destruct (CGRP_FREEZE (cgrp st g) &&
            (nr_frozen_tasks (freezer (cgrp st g)) =?
             __cgroup_task_count st g)).
  - destruct (CGRP_FROZEN (cgrp st g)) eqn:Hcur.
    + now apply Hnone.
    + now apply (Hflip true).
  - destruct (CGRP_FROZEN (cgrp st g)) eqn:Hcur; cbn [negb].
    + now apply (Hflip false).
    + now apply Hnone.
Qed.

End WellFormedTree.

Lemma update_frozen_settles_group_witness :
  CGRP_FROZEN
    (cgrp (cgroup_update_frozen Examples.H3 2%nat
             Examples.st_child_task_stopped) 2%nat) = true.
Proof.
  exact (proj1 (update_frozen_settles_group Examples.H3 H3_well_formed 2%nat
                  Examples.st_child_task_stopped)).
Defined.

Lemma update_frozen_idempotent_witness :
  cgroup_update_frozen Examples.H3 1%nat
    (cgroup_update_frozen Examples.H3 1%nat Examples.st_parent_task_stopped)
  = cgroup_update_frozen Examples.H3 1%nat Examples.st_parent_task_stopped.
Proof.
  exact (update_frozen_idempotent Examples.H3 H3_well_formed 1%nat
           Examples.st_parent_task_stopped).
Defined.

Lemma update_frozen_notifies_witness :
  NoDup (emitted Examples.st_parent_task_stopped
           (cgroup_update_frozen Examples.H3 1%nat
              Examples.st_parent_task_stopped)).
Proof.
  exact (proj1 (update_frozen_notifies_exactly_flips Examples.H3
                  H3_well_formed 1%nat Examples.st_parent_task_stopped)).
Defined.


(** ** The counters of frozen descendants *)

Lemma propagate_step_counts (b : bool) p desc st :
  exists flipped : bool,
    snd (propagate_step b p desc st) =
      (if flipped then wrap_int (desc + 1) else desc) /\
    nr_frozen_descendants (freezer (cgrp (fst (propagate_step b p desc st)) p))
      = wrap_int (nr_frozen_descendants (freezer (cgrp st p)) +
                  (if b then desc else - desc)) /\
    CGRP_FROZEN (cgrp (fst (propagate_step b p desc st)) p) =
      (if flipped then b else CGRP_FROZEN (cgrp st p)) /\
    (flipped = true -> CGRP_FROZEN (cgrp st p) = negb b).
Proof.
  unfold propagate_step. destruct b.
  - rewrite cgrp_map_cgrp_same.
    cbn [map_freezer CGRP_FROZEN CGRP_FREEZE freezer nr_descendants
         set_nr_frozen_descendants nr_frozen_descendants].
    destruct (CGRP_FROZEN (cgrp st p)) eqn:Hf; cbn [negb andb].
    + exists false. cbn [fst snd]. rewrite cgrp_map_cgrp_same. cbn.
      rewrite Hf. repeat split; try discriminate.
    + match goal with |- context [if ?c then _ else _] =>
        destruct c end.
      * exists true. cbn [fst snd cgroup_file_notify emit cgrp].
        rewrite !cgrp_map_cgrp_same. cbn. repeat split.
      * exists false. cbn [fst snd]. rewrite cgrp_map_cgrp_same. cbn.
        rewrite Hf. repeat split; try discriminate.
  - rewrite cgrp_map_cgrp_same. cbn [map_freezer CGRP_FROZEN].
    destruct (CGRP_FROZEN (cgrp st p)) eqn:Hf.
    + exists true. cbn [fst snd cgroup_file_notify emit cgrp].
      rewrite !cgrp_map_cgrp_same, Z.add_opp_r. cbn. repeat split.
    + exists false. cbn [fst snd].
      rewrite cgrp_map_cgrp_same, Z.add_opp_r. cbn.
      rewrite Hf. repeat split; try discriminate.
Qed.

Lemma same_aggregate_refl st : same_aggregate st st.
Proof. intros g. split; reflexivity. Qed.

Lemma same_aggregate_trans st1 st2 st3 :
  same_aggregate st1 st2 -> same_aggregate st2 st3 -> same_aggregate st1 st3.
Proof.
  intros H12 H23 g. destruct (H12 g) as (A & B), (H23 g) as (C & D).
  split; congruence.
Qed.

Lemma same_aggregate_cgrp st st' : cgrp st' = cgrp st -> same_aggregate st st'.
Proof. intros E g. rewrite E. split; reflexivity. Qed.

Lemma same_aggregate_map_cgrp g h st :
  CGRP_FROZEN (h (cgrp st g)) = CGRP_FROZEN (cgrp st g) ->
  nr_frozen_descendants (freezer (h (cgrp st g))) =
    nr_frozen_descendants (freezer (cgrp st g)) ->
  same_aggregate st (map_cgrp g h st).
Proof.
  intros A B x. destruct (Nat.eq_dec x g) as [->|Hne].
  - rewrite cgrp_map_cgrp_same. tauto.
  - rewrite cgrp_map_cgrp_other by assumption. tauto.
Qed.

Section CountedDescendants.

Variable H : hierarchy.
Hypothesis H_tree : tree_consistent H.

Lemma frozen_below_same st st' x :
  (forall d, In d (tl (css_descendants_pre H x)) ->
             CGRP_FROZEN (cgrp st' d) = CGRP_FROZEN (cgrp st d)) ->
  frozen_below H st' x = frozen_below H st x.
Proof.
  intros Hsame. unfold frozen_below. f_equal. f_equal.
  now apply filter_agree.
Qed.

Lemma frozen_below_flip st st' p x :
  In p (tl (css_descendants_pre H x)) ->
  (forall d, d <> p -> CGRP_FROZEN (cgrp st' d) = CGRP_FROZEN (cgrp st d)) ->
  frozen_below H st' x =
  frozen_below H st x + b2z (CGRP_FROZEN (cgrp st' p))
  - b2z (CGRP_FROZEN (cgrp st p)).
Proof.
  intros Hin Hother. unfold frozen_below.
  destruct H_tree as (_ & Hnd & _).
  apply (count_change_one (fun d => CGRP_FROZEN (cgrp st d))
           (fun d => CGRP_FROZEN (cgrp st' d)) p _ (Hnd x) Hin Hother).
Qed.

Lemma frozen_below_bounds st x :
  0 <= frozen_below H st x <=
  Z.of_nat (length (tl (css_descendants_pre H x))).
Proof. apply count_le_length. Qed.

Lemma below_bound x :
  Z.of_nat (length (tl (css_descendants_pre H x))) < INT_MAX.
Proof.
  destruct H_tree as (_ & _ & _ & Hlen). specialize (Hlen x).
  destruct (css_descendants_pre H x) as [|a l]; cbn [tl length] in *;
    unfold INT_MAX in *; lia.
Qed.

(** A group strictly below another one is deeper in the tree. *)
Lemma descendant_deeper : forall n d a,
  cgroup_level H d = n ->
  In d (tl (css_descendants_pre H a)) ->
  (cgroup_level H a < cgroup_level H d)%nat.
Proof.
  destruct H_tree as (Hwf & _ & Hchar & _).
  induction n as [|n IH]; intros d a Hlev Hin;
    apply Hchar in Hin; destruct Hin as (p & Hp & Hin);
    pose proof (Hwf d p Hp) as Hdp; [lia|].
  destruct Hin as [->|Hin]; [lia|].
  assert (cgroup_level H a < cgroup_level H p)%nat by (apply (IH p a); [lia | exact Hin]).
  lia.
Qed.

Lemma not_below_itself p : ~ In p (tl (css_descendants_pre H p)).
Proof.
  intros Hin. pose proof (descendant_deeper _ p p eq_refl Hin). lia.
Qed.

Lemma above_child g p x :
  cgroup_parent H g = Some p ->
  In g (tl (css_descendants_pre H x)) <->
  x = p \/ In p (tl (css_descendants_pre H x)).
Proof.
  destruct H_tree as (_ & _ & Hchar & _). intros Hp. rewrite Hchar. split.
  - intros (q & Hq & Hin). rewrite Hp in Hq. injection Hq as <-.
    destruct Hin as [->|Hin]; tauto.
  - intros [->|Hin]; exists p; tauto.
Qed.

Lemma nothing_above_root g x :
  cgroup_parent H g = None -> ~ In g (tl (css_descendants_pre H x)).
Proof.
  destruct H_tree as (_ & _ & Hchar & _). intros Hp Hin.
  apply Hchar in Hin. destruct Hin as (q & Hq & _). congruence.
Qed.

(** The ancestor loop settles the counters: on entry the groups above [g]
    are owed the [desc] status changes made below them, every other counter
    is exact; on exit every counter is exact. *)
Lemma propagate_loop_counted fuel : forall g (b : bool) desc st,
  fuel = cgroup_level H g ->
  0 <= desc ->
  (forall x, ~ In g (tl (css_descendants_pre H x)) ->
     nr_frozen_descendants (freezer (cgrp st x)) = frozen_below H st x) ->
  (forall x, In g (tl (css_descendants_pre H x)) ->
     nr_frozen_descendants (freezer (cgrp st x)) +
       (if b then desc else - desc) = frozen_below H st x /\
     0 <= nr_frozen_descendants (freezer (cgrp st x)) <=
       Z.of_nat (length (tl (css_descendants_pre H x)))) ->
  descendants_counted H (propagate_loop H fuel g b desc st).
Proof.
  induction fuel as [|fuel IH]; intros g b desc st Hfuel Hdesc Hexact Howed;
    cbn [propagate_loop].
  - intros x. apply Hexact. intros Hin.
    pose proof (descendant_deeper _ g x eq_refl Hin). lia.
  - destruct (cgroup_parent H g) as [p|] eqn:Hp.
    2:{ intros x. apply Hexact. now apply nothing_above_root. }
    assert (Hlev : cgroup_level H g = S (cgroup_level H p))
      by (destruct H_tree as (Hwf & _); now apply Hwf).
    assert (Hgp : In g (tl (css_descendants_pre H p)))
      by (apply (above_child g p p Hp); now left).
    destruct (Howed p Hgp) as (Hp_owed & Hp_rng).
    pose proof (frozen_below_bounds st p) as Hfb.
    pose proof (below_bound p) as Hlen.
    destruct (propagate_step_counts b p desc st)
      as (flipped & Hdesc1 & Hnfd & Hfrz & Hwas).
    pose proof (fun x => propagate_step_other b p desc st x) as Hother.
    destruct (propagate_step b p desc st) as [st1 desc1].
    cbn [fst snd] in *.
    rewrite Hp_owed, wrap_int_id in Hnfd
      by (unfold INT_MIN, INT_MAX in *; lia).
    assert (Hdesc_le : desc < INT_MAX) by (destruct b; lia).
    assert (Hd1 : desc1 = desc + b2z flipped).
    { rewrite Hdesc1. destruct flipped; cbn [b2z]; [|lia].
      apply wrap_int_id. unfold INT_MIN, INT_MAX in *; lia. }
    assert (Hfb1 : forall x,
      frozen_below H st1 x =
      frozen_below H st x +
      (if in_dec Nat.eq_dec p (tl (css_descendants_pre H x))
       then (if flipped then (if b then 1 else -1) else 0) else 0)).
    { intros x.
      destruct (in_dec Nat.eq_dec p (tl (css_descendants_pre H x)))
        as [Hin|Hnin].
      - rewrite (frozen_below_flip st st1 p x Hin)
          by (intros d Hd; now rewrite (Hother d Hd)).
        rewrite Hfrz. destruct flipped.
        + rewrite (Hwas eq_refl). destruct b; cbn [negb b2z]; lia.
        + lia.
      - rewrite (frozen_below_same st st1 x); [lia|].
        intros d Hd. rewrite Hother; [reflexivity|]. intros ->.
        contradiction. }
    apply IH.
    + lia.
    + destruct flipped; cbn [b2z] in Hd1; lia.
    + intros x Hnot. rewrite Hfb1.
      destruct (in_dec Nat.eq_dec p (tl (css_descendants_pre H x)))
        as [Hin|_]; [contradiction|].
      destruct (Nat.eq_dec x p) as [->|Hxp].
      * rewrite Hnfd. lia.
      * rewrite (Hother x Hxp), Z.add_0_r. apply Hexact.
        rewrite (above_child g p x Hp). tauto.
    + intros x Hin. rewrite Hfb1.
      destruct (in_dec Nat.eq_dec p (tl (css_descendants_pre H x)))
        as [_|Hnin]; [|contradiction].
      assert (Hxp : x <> p) by (intros ->; now apply (not_below_itself p)).
      rewrite (Hother x Hxp).
      destruct (Howed x) as (Hx_owed & Hx_rng);
        [apply (above_child g p x Hp); tauto|].
      split; [|exact Hx_rng].
      rewrite Hd1. destruct flipped, b; cbn [b2z]; lia.
Qed.

(** The recomputation of a group keeps every counter of frozen descendants
    exact. *)
Lemma cgroup_update_frozen_counted g st :
  descendants_counted H st ->
  descendants_counted H (cgroup_update_frozen H g st).
Proof.
  intros Hcnt.
  assert (Hflip : forall b : bool,
            CGRP_FROZEN (cgrp st g) = negb b ->
            descendants_counted H
              (cgroup_propagate_frozen H g b
                 (cgroup_file_notify g (map_cgrp g (set_CGRP_FROZEN b) st)))).
  { intros b Hcur. unfold cgroup_propagate_frozen.
    set (st1 := cgroup_file_notify g (map_cgrp g (set_CGRP_FROZEN b) st)).
    assert (Hg1 : CGRP_FROZEN (cgrp st1 g) = b)
      by (unfold st1; cbn [cgroup_file_notify emit cgrp];
          now rewrite cgrp_map_cgrp_same).
    assert (H1 : forall x, x <> g -> cgrp st1 x = cgrp st x)
      by (intros x Hx; unfold st1; cbn [cgroup_file_notify emit cgrp];
          now apply cgrp_map_cgrp_other).
    assert (Hnfd : forall x,
              nr_frozen_descendants (freezer (cgrp st1 x)) =
              nr_frozen_descendants (freezer (cgrp st x))).
    { intros x. destruct (Nat.eq_dec x g) as [->|Hx].
      - unfold st1. cbn [cgroup_file_notify emit cgrp].
        now rewrite cgrp_map_cgrp_same.
      - now rewrite H1. }
    apply propagate_loop_counted; [reflexivity | lia | |].
    - intros x Hnot. rewrite Hnfd, Hcnt.
      symmetry. apply frozen_below_same. intros d Hd.
      rewrite H1; [reflexivity|]. intros ->. contradiction.
    - intros x Hin. rewrite Hnfd, Hcnt.
      pose proof (frozen_below_bounds st x) as Hb.
      split; [|exact Hb].
      rewrite (frozen_below_flip st st1 g x Hin)
        by (intros d Hd; now rewrite H1).
      rewrite Hg1, Hcur. destruct b; cbn [negb b2z]; lia. }
  unfold cgroup_update_frozen.
  destruct (CGRP_FREEZE (cgrp st g) &&
            (nr_frozen_tasks (freezer (cgrp st g)) =?
             __cgroup_task_count st g)).
  - destruct (CGRP_FROZEN (cgrp st g)) eqn:Hcur; [exact Hcnt|].
    now apply (Hflip true).
  - destruct (CGRP_FROZEN (cgrp st g)) eqn:Hcur; cbn [negb];
      [|exact Hcnt].
    now apply (Hflip false).
Qed.

Lemma counted_same_aggregate st st' :
  same_aggregate st st' ->
  descendants_counted H st -> descendants_counted H st'.
Proof.
  intros Hsame Hcnt a. destruct (Hsame a) as (_ & ->). rewrite Hcnt.
  symmetry. apply frozen_below_same. intros d _. now destruct (Hsame d).
Qed.

Lemma counted_cgrp st st' :
  cgrp st' = cgrp st ->
  descendants_counted H st -> descendants_counted H st'.
Proof. intros E. apply counted_same_aggregate, same_aggregate_cgrp, E. Qed.

Lemma counted_warn c w st :
  descendants_counted H st -> descendants_counted H (WARN_ON_ONCE c w st).
Proof. apply counted_cgrp. now destruct c. Qed.

Lemma counted_inc g st :
  descendants_counted H st ->
  descendants_counted H (cgroup_inc_frozen_cnt g st).
Proof.
  apply counted_same_aggregate, same_aggregate_map_cgrp; reflexivity.
Qed.

Lemma counted_dec g st :
  descendants_counted H st ->
  descendants_counted H (cgroup_dec_frozen_cnt g st).
Proof.
  intros Hcnt. unfold cgroup_dec_frozen_cnt. apply counted_warn.
  revert Hcnt.
  apply counted_same_aggregate, same_aggregate_map_cgrp; reflexivity.
Qed.

Lemma counted_freeze_task t b st :
  descendants_counted H st ->
  descendants_counted H (cgroup_freeze_task t b st).
Proof.
  apply counted_cgrp. unfold cgroup_freeze_task.
  destruct (negb _); [reflexivity|]. now destruct b.
Qed.

Lemma counted_do_freeze g b st :
  descendants_counted H st ->
  descendants_counted H (cgroup_do_freeze H g b st).
Proof.
  intros Hcnt. unfold cgroup_do_freeze.
  set (st1 := map_cgrp g (set_CGRP_FREEZE b) st).
  set (st2 := fold_left (do_freeze_task b) (css_tasks st1 g) st1).
  assert (H2 : descendants_counted H st2).
  { apply (counted_cgrp st1); [apply freeze_tasks_cgrp|].
    revert Hcnt.
    apply counted_same_aggregate, same_aggregate_map_cgrp; reflexivity. }
  destruct (_ =? _); [|exact H2].
  now apply cgroup_update_frozen_counted.
Qed.

Lemma counted_visit (b : bool) st (a : bool) d :
  descendants_counted H st ->
  descendants_counted H (fst (cgroup_freeze_visit H b (st, a) d)).
Proof.
  intros Hcnt. cbn [cgroup_freeze_visit].
  assert (Hdepth : forall z,
            descendants_counted H
              (map_cgrp d (map_freezer (fun f => set_e_freeze (z f) f)) st)).
  { intros z. revert Hcnt.
    apply counted_same_aggregate, same_aggregate_map_cgrp; reflexivity. }
  destruct (is_dead (cgrp st d)); [exact Hcnt|].
  destruct b.
  - destruct (_ >? _); cbn [fst]; [apply Hdepth|].
    apply counted_do_freeze, Hdepth.
  - destruct (_ >? _); cbn [fst]; [apply Hdepth|].
    apply counted_do_freeze, counted_warn, Hdepth.
Qed.

Lemma counted_visits (b : bool) l : forall st (a : bool),
  descendants_counted H st ->
  descendants_counted H (fst (fold_left (cgroup_freeze_visit H b) l (st, a))).
Proof.
  induction l as [|d l IH]; intros st a Hcnt; cbn [fold_left];
    [exact Hcnt|].
  pose proof (counted_visit b st a d Hcnt) as H1.
  destruct (cgroup_freeze_visit H b (st, a) d) as [st1 a1].
  now apply IH.
Qed.

Lemma counted_step o st :
  descendants_counted H st -> descendants_counted H (step H o st).
Proof.
  intros Hcnt. destruct o as [g b|t|t b|t dst|t]; cbn [step].
  - unfold cgroup_freeze. destruct (Bool.eqb _ _); [exact Hcnt|].
    unfold cgroup_freeze_walk.
    pose proof (counted_visits b (css_descendants_pre H g)
                  (map_cgrp g (map_freezer (set_freeze b)) st) false) as Hw.
    destruct (fold_left _ _ _) as [st2 applied]. cbn [fst] in Hw.
    assert (H2 : descendants_counted H st2).
    { apply Hw. revert Hcnt.
      apply counted_same_aggregate, same_aggregate_map_cgrp; reflexivity. }
    destruct (negb applied); [|exact H2].
    revert H2. now apply counted_cgrp.
  - unfold cgroup_enter_frozen. destruct (frozen _); [exact Hcnt|].
    apply cgroup_update_frozen_counted, counted_inc.
    revert Hcnt. now apply counted_cgrp.
  - unfold cgroup_leave_frozen.
    match goal with |- context [if frozen (task ?s t) then _ else _] =>
      assert (H1 : descendants_counted H s); [|set (s1 := s) in *] end.
    { destruct (_ || _); [|exact Hcnt].
      apply (counted_cgrp _ _ eq_refl), counted_warn,
        cgroup_update_frozen_counted, counted_dec, Hcnt. }
    clearbody s1. destruct (frozen (task s1 t)); [|exact H1].
    revert H1. now apply counted_cgrp.
  - unfold cgroup_freezer_migrate_task.
    assert (H0 : descendants_counted H (css_set_move_task t dst st))
      by (revert Hcnt; now apply counted_cgrp).
    destruct (PF_KTHREAD _); [exact H0|].
    apply counted_freeze_task.
    do 2 apply cgroup_update_frozen_counted.
    destruct (frozen _); [|exact H0].
    apply counted_dec, counted_inc, H0.
  - unfold cgroup_freezer_frozen_exit.
    apply cgroup_update_frozen_counted, counted_dec.
    revert Hcnt. now apply counted_cgrp.
Qed.

Lemma counted_run ops : forall st,
  descendants_counted H st -> descendants_counted H (run H ops st).
Proof.
  induction ops as [|o ops IH]; intros st Hcnt; [exact Hcnt|].
  apply IH, counted_step, Hcnt.
Qed.

Lemma initial_counted st : initial st -> descendants_counted H st.
Proof.
  intros (Hinit & _) x. destruct (Hinit x) as (_ & Hf & ->).
  cbn [nr_frozen_descendants]. unfold frozen_below.
  rewrite (filter_agree _ (fun _ => false)), filter_none; [reflexivity|].
  intros d _. now destruct (Hinit d) as (_ & -> & _).
Qed.

(** X4: in a consistent tree, every operation of the freezer keeps the
    counter nr_frozen_descendants of every group equal to the number of
    groups strictly below it whose status is frozen: the ancestor walk of
    cgroup_propagate_frozen adds to each ancestor exactly the status changes
    that happened below it.  Hence, from a state in which the counters are
    exact - a freshly created system is one - they are exact after any
    sequence of operations, and lie between 0 and the size of the
    subtree. *)
Theorem frozen_descendants_stay_counted (ops : list op) (st : state) :
  descendants_counted H st ->
  let st' := run H ops st in
  forall a,
    nr_frozen_descendants (freezer (cgrp st' a)) = frozen_below H st' a /\
    0 <= nr_frozen_descendants (freezer (cgrp st' a)) <=
      Z.of_nat (length (tl (css_descendants_pre H a))).
Proof.
  intros Hcnt0 st' a.
  assert (Hcnt : descendants_counted H st') by now apply counted_run.
  rewrite (Hcnt a). split; [reflexivity | apply frozen_below_bounds].
Qed.

End CountedDescendants.

(** ** Trap bits mirror the freeze flag *)

(** What the task loop of cgroup_do_freeze does to each task. *)
Lemma freeze_tasks_task (b : bool) l : forall st u,
  task (fold_left (do_freeze_task b) l st) u =
  if existsb (Nat.eqb u) l && negb (PF_KTHREAD (task st u)) &&
     sighand (task st u)
  then set_JOBCTL_TRAP_FREEZE b (task st u)
  else task st u.
Proof.
  induction l as [|t0 l IH]; intros st u; cbn [fold_left existsb];
    [reflexivity|].
  rewrite IH.
  assert (Hstep : task (do_freeze_task b st t0) u =
            if Nat.eqb u t0 && negb (PF_KTHREAD (task st u)) &&
               sighand (task st u)
            then set_JOBCTL_TRAP_FREEZE b (task st u)
            else task st u).
  { unfold do_freeze_task, cgroup_freeze_task.
    destruct (Nat.eqb_spec u t0) as [->|Hne]; cbn [andb].
    - destruct (PF_KTHREAD (task st t0)); cbn [negb andb]; [reflexivity|].
      destruct (sighand (task st t0)); cbn [negb]; [|reflexivity].
      destruct b; cbn [emit task]; now rewrite task_map_task_same.
    - destruct (PF_KTHREAD (task st t0)); [reflexivity|].
      destruct (negb (sighand (task st t0))); [reflexivity|].
      destruct b; cbn [emit task]; now rewrite task_map_task_other. }
  rewrite Hstep.
  destruct (Nat.eqb u t0); cbn [orb andb];
    destruct (PF_KTHREAD (task st u)) eqn:Hk; cbn [negb andb];
    rewrite ?Hk, ?andb_false_r; cbn [negb andb]; try reflexivity;
    destruct (sighand (task st u)) eqn:Hs;
    cbn [set_JOBCTL_TRAP_FREEZE PF_KTHREAD sighand];
    rewrite ?Hk, ?Hs, ?andb_false_r, ?andb_true_r; cbn [negb andb];
    try reflexivity;
    destruct (existsb (Nat.eqb u) l); reflexivity.
Qed.

Lemma same_request_view_refl st : same_request_view st st.
Proof. intros g. split; reflexivity. Qed.

Lemma same_request_view_trans st1 st2 st3 :
  same_request_view st1 st2 -> same_request_view st2 st3 ->
  same_request_view st1 st3.
Proof.
  intros H12 H23 g. destruct (H12 g) as (A & B), (H23 g) as (C & D).
  split; congruence.
Qed.

Lemma same_request_view_cgrp st st' :
  cgrp st' = cgrp st -> same_request_view st st'.
Proof. intros E g. rewrite E. split; reflexivity. Qed.

Lemma same_request_view_map_cgrp g h st :
  CGRP_FREEZE (h (cgrp st g)) = CGRP_FREEZE (cgrp st g) ->
  e_freeze (freezer (h (cgrp st g))) = e_freeze (freezer (cgrp st g)) ->
  same_request_view st (map_cgrp g h st).
Proof.
  intros A B x. destruct (Nat.eq_dec x g) as [->|Hne].
  - rewrite cgrp_map_cgrp_same. tauto.
  - rewrite cgrp_map_cgrp_other by assumption. tauto.
Qed.

Lemma same_request_view_upward st st' :
  upward st st' -> same_request_view st st'.
Proof.
  intros (Hc & _) g. destruct (Hc g) as (A & _ & _ & _ & B & _). tauto.
Qed.

Lemma same_request_view_warn c w st :
  same_request_view st (WARN_ON_ONCE c w st).
Proof. apply same_request_view_cgrp. now destruct c. Qed.

Lemma same_request_view_inc g st :
  same_request_view st (cgroup_inc_frozen_cnt g st).
Proof. apply same_request_view_map_cgrp; reflexivity. Qed.

Lemma same_request_view_dec g st :
  same_request_view st (cgroup_dec_frozen_cnt g st).
Proof.
  unfold cgroup_dec_frozen_cnt.
  eapply same_request_view_trans; [|apply same_request_view_warn].
  apply same_request_view_map_cgrp; reflexivity.
Qed.

Lemma traps_mirror_upward st st' :
  upward st st' -> traps_mirror st -> traps_mirror st'.
Proof.
  intros (Hc & Ht & Hl & _) Hm t. rewrite Ht, Hl.
  destruct (Hc (dfl_cgroup (task st t))) as (-> & _). apply Hm.
Qed.

Lemma traps_mirror_view st st' :
  (forall g, CGRP_FREEZE (cgrp st' g) = CGRP_FREEZE (cgrp st g)) ->
  (forall t, PF_KTHREAD (task st' t) = PF_KTHREAD (task st t) /\
             sighand (task st' t) = sighand (task st t) /\
             dfl_cgroup (task st' t) = dfl_cgroup (task st t) /\
             JOBCTL_TRAP_FREEZE (task st' t) = JOBCTL_TRAP_FREEZE (task st t))
  ->
  (forall t, In t (tasklist st') -> In t (tasklist st)) ->
  traps_mirror st -> traps_mirror st'.
Proof.
  intros Hg Ht Hl Hm t Hin. destruct (Ht t) as (-> & -> & -> & ->).
  rewrite Hg. apply Hm, Hl, Hin.
Qed.

Lemma traps_mirror_inc g st :
  traps_mirror st -> traps_mirror (cgroup_inc_frozen_cnt g st).
Proof.
  apply traps_mirror_view; [|tauto|tauto].
  intros x. unfold cgroup_inc_frozen_cnt.
  destruct (Nat.eq_dec x g) as [->|Hne].
  - now rewrite cgrp_map_cgrp_same.
  - now rewrite cgrp_map_cgrp_other.
Qed.

Lemma traps_mirror_dec g st :
  traps_mirror st -> traps_mirror (cgroup_dec_frozen_cnt g st).
Proof.
  apply traps_mirror_view.
  - intros x. unfold cgroup_dec_frozen_cnt, WARN_ON_ONCE.
    destruct (_ <? _); cbn [emit cgrp];
      (destruct (Nat.eq_dec x g) as [->|Hne];
       [now rewrite cgrp_map_cgrp_same | now rewrite cgrp_map_cgrp_other]).
  - intros t. unfold cgroup_dec_frozen_cnt, WARN_ON_ONCE.
    destruct (_ <? _); cbn; tauto.
  - intros t. unfold cgroup_dec_frozen_cnt, WARN_ON_ONCE.
    destruct (_ <? _); cbn; tauto.
Qed.

Lemma traps_mirror_set_frozen t b st :
  traps_mirror st -> traps_mirror (map_task t (set_frozen b) st).
Proof.
  apply traps_mirror_view; [reflexivity| |tauto].
  intros u. destruct (Nat.eq_dec u t) as [->|Hne].
  - rewrite task_map_task_same. cbn. tauto.
  - rewrite task_map_task_other by assumption. tauto.
Qed.

Lemma traps_mirror_warn c w st :
  traps_mirror st -> traps_mirror (WARN_ON_ONCE c w st).
Proof. destruct c; [|tauto]. apply traps_mirror_view; cbn; tauto. Qed.

Lemma traps_mirror_emit e st :
  traps_mirror st -> traps_mirror (emit e st).
Proof. apply traps_mirror_view; cbn; tauto. Qed.

Lemma initial_traps_mirror st : initial st -> traps_mirror st.
Proof.
  intros (Hg & Ht & _) t _ _ _.
  destruct (Ht t) as (_ & ->). now destruct (Hg (dfl_cgroup (task st t))) as (-> & _).
Qed.

Section MirroredTraps.

Variable H : hierarchy.

Lemma traps_mirror_update g st :
  traps_mirror st -> traps_mirror (cgroup_update_frozen H g st).
Proof. apply traps_mirror_upward, cgroup_update_frozen_upward. Qed.

Lemma traps_mirror_do_freeze g b st :
  traps_mirror st -> traps_mirror (cgroup_do_freeze H g b st).
Proof.
  intros Hm. unfold cgroup_do_freeze.
  set (st1 := map_cgrp g (set_CGRP_FREEZE b) st).
  set (st2 := fold_left (do_freeze_task b) (css_tasks st1 g) st1).
  assert (H2 : traps_mirror st2).
  { destruct (do_freeze_tasks_footprint b (css_tasks st1 g) st1)
      as (_ & Htasks & Hlist & _). fold st2 in Htasks, Hlist.
    assert (Hcg : cgrp st2 = cgrp st1) by apply freeze_tasks_cgrp.
    intros t Hin Hk Hs.
    destruct (Htasks t) as (Hk' & _ & Hs' & Hd' & _).
    rewrite Hlist in Hin. rewrite Hk' in Hk. rewrite Hs' in Hs.
    rewrite Hd', Hcg. unfold st2. rewrite freeze_tasks_task, Hk, Hs.
    cbn [negb andb]. rewrite andb_true_r.
    change (task st1 t) with (task st t) in *.
    destruct (Nat.eq_dec (dfl_cgroup (task st t)) g) as [Hg|Hg].
    - assert (Hex : existsb (Nat.eqb t) (css_tasks st1 g) = true).
      { apply existsb_exists. exists t. split; [|apply Nat.eqb_refl].
        apply css_tasks_spec. split; [exact Hin | exact Hg]. }
      rewrite Hex, Hg. unfold st1. now rewrite cgrp_map_cgrp_same.
    - assert (Hex : existsb (Nat.eqb t) (css_tasks st1 g) = false).
      { destruct (existsb _ _) eqn:E; [|reflexivity].
        apply existsb_exists in E. destruct E as (x & Hx & Hxe).
        apply Nat.eqb_eq in Hxe. subst x.
        apply css_tasks_spec in Hx. destruct Hx as (_ & Hx).
        contradiction. }
      rewrite Hex. unfold st1. rewrite cgrp_map_cgrp_other by assumption.
      now apply Hm. }
  destruct (_ =? _); [|exact H2].
  now apply traps_mirror_update.
Qed.

Lemma traps_mirror_depth d z st :
  traps_mirror st ->
  traps_mirror (map_cgrp d (map_freezer (fun f => set_e_freeze (z f) f)) st).
Proof.
  apply traps_mirror_view; [|tauto|tauto].
  intros x. destruct (Nat.eq_dec x d) as [->|Hne].
  - now rewrite cgrp_map_cgrp_same.
  - now rewrite cgrp_map_cgrp_other.
Qed.

Lemma traps_mirror_visit (b : bool) st (a : bool) d :
  traps_mirror st ->
  traps_mirror (fst (cgroup_freeze_visit H b (st, a) d)).
Proof.
  intros Hm. cbn [cgroup_freeze_visit].
  destruct (is_dead (cgrp st d)); [exact Hm|].
  destruct b.
  - destruct (_ >? _); cbn [fst]; [now apply traps_mirror_depth|].
    now apply traps_mirror_do_freeze, traps_mirror_depth.
  - destruct (_ >? _); cbn [fst]; [now apply traps_mirror_depth|].
    now apply traps_mirror_do_freeze, traps_mirror_warn, traps_mirror_depth.
Qed.

Lemma traps_mirror_visits (b : bool) l : forall st (a : bool),
  traps_mirror st ->
  traps_mirror (fst (fold_left (cgroup_freeze_visit H b) l (st, a))).
Proof.
  induction l as [|d l IH]; intros st a Hm; cbn [fold_left]; [exact Hm|].
  pose proof (traps_mirror_visit b st a d Hm) as H1.
  destruct (cgroup_freeze_visit H b (st, a) d) as [st1 a1].
  now apply IH.
Qed.

Lemma traps_mirror_freeze g b st :
  traps_mirror st -> traps_mirror (cgroup_freeze H g b st).
Proof.
  intros Hm. unfold cgroup_freeze. destruct (Bool.eqb _ _); [exact Hm|].
  unfold cgroup_freeze_walk.
  pose proof (traps_mirror_visits b (css_descendants_pre H g)
                (map_cgrp g (map_freezer (set_freeze b)) st) false) as Hw.
  destruct (fold_left _ _ _) as [st2 applied]. cbn [fst] in Hw.
  assert (H2 : traps_mirror st2).
  { apply Hw. revert Hm. apply traps_mirror_view; [|tauto|tauto].
    intros x. destruct (Nat.eq_dec x g) as [->|Hne].
    - now rewrite cgrp_map_cgrp_same.
    - now rewrite cgrp_map_cgrp_other. }
  destruct (negb applied); [|exact H2].
  now apply traps_mirror_emit.
Qed.

Lemma traps_mirror_migrate t dst st :
  traps_mirror st ->
  traps_mirror
    (cgroup_freezer_migrate_task H t (dfl_cgroup (task st t)) dst
       (css_set_move_task t dst st)).
Proof.
  intros Hm. set (src := dfl_cgroup (task st t)).
  set (st0 := css_set_move_task t dst st).
  assert (H0 : forall u, u <> t -> In u (tasklist st0) ->
             PF_KTHREAD (task st0 u) = false -> sighand (task st0 u) = true ->
             JOBCTL_TRAP_FREEZE (task st0 u) =
             CGRP_FREEZE (cgrp st0 (dfl_cgroup (task st0 u)))).
  { intros u Hu. unfold st0, css_set_move_task.
    rewrite task_map_task_other by assumption. apply Hm. }
  assert (Ht0 : PF_KTHREAD (task st0 t) = PF_KTHREAD (task st t) /\
                sighand (task st0 t) = sighand (task st t) /\
                dfl_cgroup (task st0 t) = dst).
  { unfold st0, css_set_move_task. rewrite task_map_task_same. cbn. tauto. }
  destruct Ht0 as (Hk0 & Hs0 & Hd0).
  unfold cgroup_freezer_migrate_task.
  destruct (PF_KTHREAD (task st0 t)) eqn:Hk.
  { intros u Hin Hku Hsu. destruct (Nat.eq_dec u t) as [->|Hne];
      [congruence | now apply H0]. }
  set (st1 := if frozen (task st0 t)
              then cgroup_dec_frozen_cnt src (cgroup_inc_frozen_cnt dst st0)
              else st0).
  set (st2 := cgroup_update_frozen H src (cgroup_update_frozen H dst st1)).
  assert (H2 : (forall g, CGRP_FREEZE (cgrp st2 g) = CGRP_FREEZE (cgrp st0 g))
               /\ task st2 = task st0 /\ tasklist st2 = tasklist st0).
  { assert (H1 : (forall g, CGRP_FREEZE (cgrp st1 g) =
                            CGRP_FREEZE (cgrp st0 g))
                 /\ task st1 = task st0 /\ tasklist st1 = tasklist st0).
    { unfold st1. destruct (frozen (task st0 t)); [|tauto].
      split; [|split].
      - intros g.
        destruct (same_request_view_dec src (cgroup_inc_frozen_cnt dst st0) g)
          as (-> & _).
        now destruct (same_request_view_inc dst st0 g) as (-> & _).
      - unfold cgroup_dec_frozen_cnt, WARN_ON_ONCE.
        destruct (_ <? _); reflexivity.
      - unfold cgroup_dec_frozen_cnt, WARN_ON_ONCE.
        destruct (_ <? _); reflexivity. }
    destruct H1 as (Hg1 & Ht1 & Hl1).
    destruct (cgroup_update_frozen_upward H dst st1) as (Hca & Hta & Hla & _).
    destruct (cgroup_update_frozen_upward H src
                (cgroup_update_frozen H dst st1)) as (Hcb & Htb & Hlb & _).
    fold st2 in Hcb, Htb, Hlb.
    split; [|split; congruence].
    intros g. destruct (Hcb g) as (-> & _). destruct (Hca g) as (-> & _).
    apply Hg1. }
  destruct H2 as (Hg2 & Ht2 & Hl2).
  unfold cgroup_freeze_task. rewrite Ht2.
  destruct (sighand (task st0 t)) eqn:Hs; cbn [negb].
  - assert (Hgoal : forall (bb : bool) ev,
              bb = CGRP_FREEZE (cgrp st2 dst) ->
              traps_mirror
                (emit ev (map_task t (set_JOBCTL_TRAP_FREEZE bb) st2))).
    { intros bb ev Hbb u Hin. cbn [emit task cgrp tasklist map_task] in *.
      destruct (Nat.eq_dec u t) as [->|Hne].
      - rewrite upd_same, Ht2.
        cbn [set_JOBCTL_TRAP_FREEZE PF_KTHREAD sighand dfl_cgroup
             JOBCTL_TRAP_FREEZE].
        rewrite Hd0. intros _ _. exact Hbb.
      - rewrite upd_other by assumption. rewrite Ht2, Hg2.
        rewrite Hl2 in Hin. now apply H0. }
    destruct (CGRP_FREEZE (cgrp st2 dst)) eqn:Hf; now apply Hgoal.
  - intros u Hin. rewrite Ht2, Hg2. rewrite Hl2 in Hin.
    destruct (Nat.eq_dec u t) as [->|Hne]; [congruence | now apply H0].
Qed.

Lemma traps_mirror_step o st :
  traps_mirror st -> traps_mirror (step H o st).
Proof.
  intros Hm. destruct o as [g b|t|t b|t dst|t]; cbn [step].
  - now apply traps_mirror_freeze.
  - unfold cgroup_enter_frozen. destruct (frozen _); [exact Hm|].
    now apply traps_mirror_update, traps_mirror_inc, traps_mirror_set_frozen.
  - unfold cgroup_leave_frozen.
    match goal with |- context [if frozen (task ?s t) then _ else _] =>
      assert (H1 : traps_mirror s); [|set (s1 := s) in *] end.
    { destruct (_ || _); [|exact Hm].
      now apply traps_mirror_set_frozen, traps_mirror_warn,
        traps_mirror_update, traps_mirror_dec. }
    clearbody s1. destruct (frozen (task s1 t)); [|exact H1].
    now apply traps_mirror_emit.
  - now apply traps_mirror_migrate.
  - unfold cgroup_freezer_frozen_exit.
    apply traps_mirror_update, traps_mirror_dec.
    revert Hm. apply traps_mirror_view; cbn [css_set_remove_task cgrp task
      tasklist]; [tauto | tauto |].
    intros u Hin. now apply in_remove in Hin.
Qed.

(** X5: the freezer keeps the trap bit of every live task that is neither a
    kernel thread nor about to die equal to the freeze flag of the group
    that owns the task: cgroup_do_freeze rewrites the bits of a group
    together with its flag, and a migration sets the bit of the moved task
    from the flag of the destination.  The property holds in a freshly
    created system and is kept by every sequence of operations. *)
Theorem trap_bit_mirrors_freeze_flag (ops : list op) (st : state) :
  traps_mirror st ->
  let st' := run H ops st in
  forall t, In t (tasklist st') ->
    PF_KTHREAD (task st' t) = false -> sighand (task st' t) = true ->
    JOBCTL_TRAP_FREEZE (task st' t) =
    CGRP_FREEZE (cgrp st' (dfl_cgroup (task st' t))).
Proof.
  revert st. induction ops as [|o ops IH]; intros st Hm; [exact Hm|].
  apply IH, traps_mirror_step, Hm.
Qed.

End MirroredTraps.


(** ** The freeze flag follows the nested depth *)

Section FlagAndDepth.

Variable H : hierarchy.

Lemma cgroup_do_freeze_flag g b st x :
  CGRP_FREEZE (cgrp (cgroup_do_freeze H g b st) x) =
  if Nat.eqb x g then b else CGRP_FREEZE (cgrp st x).
Proof.
  destruct (Nat.eqb_spec x g) as [->|Hne].
  - now destruct (cgroup_do_freeze_effect H g b st) as (-> & _).
  - assert (Hne' : g <> x) by congruence.
    now destruct (untouched_group_do_freeze H x g b st Hne') as (-> & _).
Qed.

(** The visit of a group whose depth is in range leaves its flag in step
    with its depth. *)
Lemma visit_flag_follows_depth (b : bool) st (a : bool) d :
  0 <= e_freeze (freezer (cgrp st d)) < INT_MAX ->
  CGRP_FREEZE (cgrp st d) = (0 <? e_freeze (freezer (cgrp st d))) ->
  let st1 := fst (cgroup_freeze_visit H b (st, a) d) in
  CGRP_FREEZE (cgrp st1 d) = (0 <? e_freeze (freezer (cgrp st1 d))).
Proof.
  intros Hrng Hflag. cbv zeta.
  destruct (is_dead (cgrp st d)) eqn:Hd.
  - now rewrite cgroup_freeze_visit_dead.
  - rewrite cgroup_freeze_visit_live by assumption.
    set (e := e_freeze (freezer (cgrp st d))) in *.
    assert (Hw : wrap_int (e + (if b then 1 else -1)) =
                 e + (if b then 1 else -1))
      by (apply wrap_int_id; unfold INT_MIN, INT_MAX in *;
          destruct b; lia).
    rewrite Hw.
    destruct (_ >? _) eqn:Hcmp; cbn [fst].
    + unfold with_depth. rewrite cgrp_map_cgrp_same.
      cbn [map_freezer CGRP_FREEZE freezer set_e_freeze e_freeze].
      rewrite Hflag. rewrite Z.gtb_ltb in Hcmp. apply Z.ltb_lt in Hcmp.
      destruct b.
      * transitivity true; [apply Z.ltb_lt | symmetry; apply Z.ltb_lt]; lia.
      * transitivity true; [apply Z.ltb_lt | symmetry; apply Z.ltb_lt]; lia.
    + rewrite cgroup_do_freeze_flag, Nat.eqb_refl, cgroup_do_freeze_depth.
      assert (He : forall c w,
                e_freeze (freezer
                  (cgrp (WARN_ON_ONCE c w
                           (with_depth d (e + (if b then 1 else -1)) st)) d))
                = e + (if b then 1 else -1)).
      { intros c w. unfold WARN_ON_ONCE, with_depth.
        destruct c; cbn [emit cgrp]; now rewrite cgrp_map_cgrp_same. }
      rewrite He. rewrite Z.gtb_ltb in Hcmp. apply Z.ltb_ge in Hcmp.
      destruct b.
      * symmetry. apply Z.ltb_lt. lia.
      * symmetry. apply Z.ltb_ge. lia.
Qed.

Lemma visits_flag_follows_depth (b : bool) l : forall st (a : bool),
  NoDup l ->
  (forall d, In d l -> 0 <= e_freeze (freezer (cgrp st d)) < INT_MAX) ->
  flag_follows_depth st ->
  flag_follows_depth (fst (fold_left (cgroup_freeze_visit H b) l (st, a))).
Proof.
  induction l as [|d0 l IH]; intros st a Hnd Hrng Hflag; cbn [fold_left];
    [exact Hflag|].
  inversion Hnd as [|x l' Hnotin Hnd']; subst.
  pose proof (visit_flag_follows_depth b st a d0
                (Hrng d0 (or_introl eq_refl)) (Hflag d0)) as Hown.
  pose proof (fun d Hne => untouched_group_visit H d d0 b st a Hne) as Hun.
  destruct (cgroup_freeze_visit H b (st, a) d0) as [st1 a1].
  cbv zeta in Hown. cbn [fst] in Hown, Hun.
  apply IH; [exact Hnd' | |].
  - intros d Hd.
    assert (Hne : d0 <> d) by (intros ->; contradiction).
    destruct (Hun d Hne) as (_ & -> & _). apply Hrng. now right.
  - intros d. destruct (Nat.eq_dec d0 d) as [<-|Hne]; [exact Hown|].
    destruct (Hun d Hne) as (-> & -> & _). apply Hflag.
Qed.

Lemma flag_follows_depth_view st st' :
  same_request_view st st' ->
  flag_follows_depth st -> flag_follows_depth st'.
Proof. intros Hv Hf d. destruct (Hv d) as (-> & ->). apply Hf. Qed.

Lemma same_request_view_update g st :
  same_request_view st (cgroup_update_frozen H g st).
Proof. apply same_request_view_upward, cgroup_update_frozen_upward. Qed.

(** The task-side operations change neither a freeze flag nor a depth. *)
Lemma same_request_view_task_ops o st :
  (forall g b, o <> OpFreeze g b) ->
  same_request_view st (step H o st).
Proof.
  intros Hnot. destruct o as [g b|t|t b|t dst|t]; cbn [step].
  - now destruct (Hnot g b).
  - unfold cgroup_enter_frozen.
    destruct (frozen _); [apply same_request_view_refl|].
    eapply same_request_view_trans; [|apply same_request_view_update].
    eapply same_request_view_trans; [|apply same_request_view_inc].
    now apply same_request_view_cgrp.
  - unfold cgroup_leave_frozen.
    match goal with |- context [if frozen (task ?s t) then _ else _] =>
      assert (H1 : same_request_view st s); [|set (s1 := s) in *] end.
    { destruct (_ || _); [|apply same_request_view_refl].
      eapply same_request_view_trans;
        [|apply same_request_view_cgrp; reflexivity].
      eapply same_request_view_trans; [|apply same_request_view_warn].
      eapply same_request_view_trans; [|apply same_request_view_update].
      apply same_request_view_dec. }
    clearbody s1. destruct (frozen (task s1 t)); [|exact H1].
    eapply same_request_view_trans; [exact H1|].
    now apply same_request_view_cgrp.
  - unfold cgroup_freezer_migrate_task.
    set (st0 := css_set_move_task t dst st).
    assert (H0 : same_request_view st st0)
      by now apply same_request_view_cgrp.
    destruct (PF_KTHREAD _); [exact H0|].
    eapply same_request_view_trans;
      [|apply same_request_view_cgrp; unfold cgroup_freeze_task;
        destruct (negb _); [reflexivity|];
        destruct (CGRP_FREEZE _); reflexivity].
    eapply same_request_view_trans; [|apply same_request_view_update].
    eapply same_request_view_trans; [|apply same_request_view_update].
    destruct (frozen _); [|exact H0].
    eapply same_request_view_trans; [|apply same_request_view_dec].
    eapply same_request_view_trans; [|apply same_request_view_inc].
    exact H0.
  - unfold cgroup_freezer_frozen_exit.
    eapply same_request_view_trans; [|apply same_request_view_update].
    eapply same_request_view_trans; [|apply same_request_view_dec].
    now apply same_request_view_cgrp.
Qed.

Lemma cgroup_freeze_flag_follows_depth g b st :
  NoDup (css_descendants_pre H g) ->
  (forall d, In d (css_descendants_pre H g) ->
             0 <= e_freeze (freezer (cgrp st d)) < INT_MAX) ->
  flag_follows_depth st -> flag_follows_depth (cgroup_freeze H g b st).
Proof.
  intros Hnd Hrng Hflag. unfold cgroup_freeze.
  destruct (Bool.eqb _ _); [exact Hflag|].
  unfold cgroup_freeze_walk.
  set (st1 := map_cgrp g (map_freezer (set_freeze b)) st).
  assert (Hv1 : same_request_view st st1)
    by (apply same_request_view_map_cgrp; reflexivity).
  pose proof (visits_flag_follows_depth b (css_descendants_pre H g) st1 false
                Hnd) as Hw.
  destruct (fold_left _ _ _) as [st2 applied]. cbn [fst] in Hw.
  assert (H2 : flag_follows_depth st2).
  { apply Hw.
    - intros d Hd. destruct (Hv1 d) as (_ & ->). now apply Hrng.
    - now apply (flag_follows_depth_view st). }
  destruct (negb applied); [|exact H2].
  revert H2. now apply flag_follows_depth_view, same_request_view_cgrp.
Qed.

Variable groups : list gid.
Hypothesis groups_nodup : NoDup groups.
Hypothesis descendants_nodup :
  forall a, In a groups -> NoDup (css_descendants_pre H a).
Hypothesis groups_bound : Z.of_nat (length groups) < INT_MAX.

Lemma balanced_depth_range st d :
  balanced H groups st ->
  0 <= e_freeze (freezer (cgrp st d)) < INT_MAX.
Proof.
  intros (_ & Hdb & _). rewrite (Hdb d).
  destruct (is_dead (cgrp st d)); [unfold INT_MAX; lia|].
  pose proof (count_le_length
    (fun a => freeze (freezer (cgrp st a)) &&
              existsb (Nat.eqb d) (css_descendants_pre H a)) groups) as Hle.
  unfold requests_on. lia.
Qed.

Lemma step_flag_follows_depth o st :
  matched groups st o -> balanced H groups st ->
  flag_follows_depth st -> flag_follows_depth (step H o st).
Proof.
  intros Hm Hb Hflag.
  destruct o as [g b|t|t b|t dst|t];
    try (apply (flag_follows_depth_view st); [|exact Hflag];
         apply same_request_view_task_ops; intros; discriminate).
  cbn [step matched] in *.
  apply cgroup_freeze_flag_follows_depth;
    [now apply descendants_nodup | | exact Hflag].
  intros d _. now apply balanced_depth_range.
Qed.

Lemma run_flag_follows_depth ops : forall st,
  matched_run H groups st ops -> balanced H groups st ->
  flag_follows_depth st ->
  balanced H groups (run H ops st) /\ flag_follows_depth (run H ops st).
Proof.
  induction ops as [|o ops IH]; intros st Hm Hb Hflag; cbn [run fold_left].
  - tauto.
  - destruct Hm as (Ho & Hrest). apply IH; [exact Hrest | |].
    + now apply step_balanced.
    + now apply step_flag_follows_depth.
Qed.

(** X6: along every balanced execution from a freshly created system, the
    freeze flag of a group is set exactly when its nested depth is
    positive, and for a live group that is exactly when the group itself
    or one of the groups above it has a freeze request pending. *)
Theorem freeze_flag_follows_requests (st : state) (ops : list op) :
  Z.of_nat (length (tasklist st)) < INT_MAX ->
  initial st ->
  matched_run H groups st ops ->
  let st' := run H ops st in
  forall d,
    CGRP_FREEZE (cgrp st' d) = (0 <? e_freeze (freezer (cgrp st' d))) /\
    (is_dead (cgrp st' d) = false ->
     (CGRP_FREEZE (cgrp st' d) = true <->
      exists a, In a groups /\ freeze (freezer (cgrp st' a)) = true /\
                In d (css_descendants_pre H a))).
Proof.
  intros Hlen Hinit Hm st' d.
  assert (Hflag0 : flag_follows_depth st).
  { intros x. destruct Hinit as (Hg & _).
    now destruct (Hg x) as (-> & _ & ->). }
  destruct (run_flag_follows_depth ops st Hm
              (initial_balanced H groups st Hlen Hinit) Hflag0)
    as (Hb & Hflag).
  fold st' in Hb, Hflag. split; [apply Hflag|].
  intros Hlive. rewrite (Hflag d).
  destruct Hb as (_ & Hdb & _). rewrite (Hdb d), Hlive.
  unfold requests_on. rewrite Z.ltb_lt. split.
  - intros Hpos.
    destruct (filter _ groups) as [|a l] eqn:Hf; [cbn in Hpos; lia|].
    assert (Hin : In a (filter
              (fun a => freeze (freezer (cgrp st' a)) &&
                        existsb (Nat.eqb d) (css_descendants_pre H a))
              groups)) by (rewrite Hf; now left).
    apply filter_In in Hin. destruct Hin as (Hin & Hp).
    apply andb_true_iff in Hp. destruct Hp as (Hfr & Hex).
    exists a. split; [exact Hin|]. split; [exact Hfr|].
    now apply existsb_eqb_In.
  - intros (a & Hin & Hfr & Hd).
    apply (count_pos _ a); [exact Hin|].
    rewrite Hfr. cbn [andb]. now apply existsb_eqb_In.
Qed.

(** X7: along every balanced execution from a freshly created system, a
    live task that is neither a kernel thread nor about to die, in a live
    group, has its freeze trap bit set exactly when its group or a group
    above it has a freeze request pending. *)
Theorem task_trapped_iff_request_covers (st : state) (ops : list op) :
  Z.of_nat (length (tasklist st)) < INT_MAX ->
  initial st ->
  matched_run H groups st ops ->
  let st' := run H ops st in
  forall t, In t (tasklist st') ->
    PF_KTHREAD (task st' t) = false -> sighand (task st' t) = true ->
    is_dead (cgrp st' (dfl_cgroup (task st' t))) = false ->
    (JOBCTL_TRAP_FREEZE (task st' t) = true <->
     exists a, In a groups /\ freeze (freezer (cgrp st' a)) = true /\
               In (dfl_cgroup (task st' t)) (css_descendants_pre H a)).
Proof.
  intros Hlen Hinit Hm st' t Hin Hk Hs Hlive.
  assert (Hmirror : traps_mirror st').
  { assert (Hrun : forall l s, traps_mirror s -> traps_mirror (run H l s)).
    { induction l as [|o l IH]; intros s Hs0; [exact Hs0|].
      apply IH, traps_mirror_step, Hs0. }
    apply Hrun. now apply initial_traps_mirror. }
  assert (Hflag0 : flag_follows_depth st).
  { intros x. destruct Hinit as (Hg & _).
    now destruct (Hg x) as (-> & _ & ->). }
  destruct (run_flag_follows_depth ops st Hm
              (initial_balanced H groups st Hlen Hinit) Hflag0)
    as (Hb & Hflag).
  fold st' in Hb, Hflag.
  rewrite (Hmirror t Hin Hk Hs).
  set (d := dfl_cgroup (task st' t)) in *.
  rewrite (Hflag d). destruct Hb as (_ & Hdb & _). rewrite (Hdb d), Hlive.
  unfold requests_on. rewrite Z.ltb_lt. split.
  - intros Hpos.
    destruct (filter _ groups) as [|a l] eqn:Hf; [cbn in Hpos; lia|].
    assert (Hina : In a (filter
              (fun a => freeze (freezer (cgrp st' a)) &&
                        existsb (Nat.eqb d) (css_descendants_pre H a))
              groups)) by (rewrite Hf; now left).
    apply filter_In in Hina. destruct Hina as (Hina & Hp).
    apply andb_true_iff in Hp. destruct Hp as (Hfr & Hex).
    exists a. split; [exact Hina|]. split; [exact Hfr|].
    now apply existsb_eqb_In.
  - intros (a & Hina & Hfr & Hd).
    apply (count_pos _ a); [exact Hina|].
    rewrite Hfr. cbn [andb]. now apply existsb_eqb_In.
Qed.

End FlagAndDepth.

(** ** A request that is withdrawn again *)

Section RoundTrip.

Variable H : hierarchy.

(** The state of the groups and tasks after a changed request is the one
    the walk leaves. *)
Lemma cgroup_freeze_changed g (b : bool) st :
  freeze (freezer (cgrp st g)) = negb b ->
  let st2 := fst (fold_left (cgroup_freeze_visit H b)
                    (css_descendants_pre H g)
                    (map_cgrp g (map_freezer (set_freeze b)) st, false)) in
  cgrp (cgroup_freeze H g b st) = cgrp st2 /\
  task (cgroup_freeze H g b st) = task st2 /\
  tasklist (cgroup_freeze H g b st) = tasklist st2.
Proof.
  intros Hfr. cbv zeta. unfold cgroup_freeze, cgroup_freeze_walk.
  rewrite Hfr. destruct b; cbn [negb Bool.eqb];
    destruct (fold_left _ _ _) as [st2 applied]; cbn [fst];
    destruct (negb applied); repeat split.
Qed.

Lemma cgroup_freeze_depth g (b : bool) st d :
  freeze (freezer (cgrp st g)) = negb b ->
  NoDup (css_descendants_pre H g) ->
  e_freeze (freezer (cgrp (cgroup_freeze H g b st) d)) =
  if existsb (Nat.eqb d) (css_descendants_pre H g) &&
     negb (is_dead (cgrp st d))
  then wrap_int (e_freeze (freezer (cgrp st d)) + (if b then 1 else -1))
  else e_freeze (freezer (cgrp st d)).
Proof.
  intros Hfr Hnd.
  destruct (cgroup_freeze_changed g b st Hfr) as (-> & _).
  rewrite cgroup_freeze_visits_depth by assumption.
  destruct (Nat.eq_dec d g) as [->|Hne].
  - now rewrite cgrp_map_cgrp_same.
  - now rewrite cgrp_map_cgrp_other.
Qed.

Lemma cgroup_freeze_admin g (b : bool) st :
  freeze (freezer (cgrp st g)) = negb b ->
  let st' := cgroup_freeze H g b st in
  (forall x, is_dead (cgrp st' x) = is_dead (cgrp st x) /\
             freeze (freezer (cgrp st' x)) =
               (if Nat.eqb x g then b else freeze (freezer (cgrp st x)))) /\
  (forall u, same_task_core (task st u) (task st' u)) /\
  tasklist st' = tasklist st.
Proof.
  intros Hfr. cbv zeta.
  destruct (cgroup_freeze_changed g b st Hfr) as (Hc & Ht & Hl).
  rewrite Hc, Ht, Hl.
  destruct (cgroup_freeze_visits_footprint H b (css_descendants_pre H g)
              (map_cgrp g (map_freezer (set_freeze b)) st) false)
    as (Hadm & Htask & Hlist & _).
  split; [|split; [exact Htask | exact Hlist]].
  intros x. destruct (Hadm x) as (-> & _ & -> & _).
  destruct (Nat.eqb_spec x g) as [->|Hne].
  - rewrite cgrp_map_cgrp_same. split; reflexivity.
  - rewrite cgrp_map_cgrp_other by assumption. split; reflexivity.
Qed.

(** X8: a freeze request on [g] that is withdrawn again restores the
    request flags, the nested depths and the freeze flags of all groups and
    the trap bits of all live tasks that are neither exempt nor about to
    die, provided the depths of the subtree are in range and the state was
    consistent (flags follow depths, trap bits mirror flags). *)
Theorem freeze_then_thaw_restores (g : gid) (st : state) :
  freeze (freezer (cgrp st g)) = false ->
  NoDup (css_descendants_pre H g) ->
  (forall d, In d (css_descendants_pre H g) ->
             0 <= e_freeze (freezer (cgrp st d)) < INT_MAX - 1) ->
  flag_follows_depth st ->
  traps_mirror st ->
  let st' := cgroup_freeze H g false (cgroup_freeze H g true st) in
  (forall d,
     freeze (freezer (cgrp st' d)) = freeze (freezer (cgrp st d)) /\
     e_freeze (freezer (cgrp st' d)) = e_freeze (freezer (cgrp st d)) /\
     CGRP_FREEZE (cgrp st' d) = CGRP_FREEZE (cgrp st d)) /\
  (forall t, In t (tasklist st) ->
     PF_KTHREAD (task st t) = false -> sighand (task st t) = true ->
     JOBCTL_TRAP_FREEZE (task st' t) = JOBCTL_TRAP_FREEZE (task st t)).
Proof.
  intros Hfr Hnd Hrng Hflag Hmirror st'.
  set (st1 := cgroup_freeze H g true st) in *.
  destruct (cgroup_freeze_admin g true st Hfr) as (Hadm1 & Htask1 & Hlist1).
  fold st1 in Hadm1, Htask1, Hlist1.
  assert (Hfr1 : freeze (freezer (cgrp st1 g)) = negb false).
  { destruct (Hadm1 g) as (_ & ->). now rewrite Nat.eqb_refl. }
  destruct (cgroup_freeze_admin g false st1 Hfr1)
    as (Hadm2 & Htask2 & Hlist2).
  fold st' in Hadm2, Htask2, Hlist2.
  assert (Hdepth1 : forall d,
            e_freeze (freezer (cgrp st1 d)) =
            if existsb (Nat.eqb d) (css_descendants_pre H g) &&
               negb (is_dead (cgrp st d))
            then e_freeze (freezer (cgrp st d)) + 1
            else e_freeze (freezer (cgrp st d))).
  { intros d. unfold st1. rewrite cgroup_freeze_depth by assumption.
    destruct (existsb _ _) eqn:Hex; cbn [andb]; [|reflexivity].
    destruct (is_dead (cgrp st d)); cbn [negb]; [reflexivity|].
    apply wrap_int_id. apply existsb_eqb_In in Hex.
    specialize (Hrng d Hex). unfold INT_MIN, INT_MAX in *. lia. }
  assert (Hdepth : forall d,
            e_freeze (freezer (cgrp st' d)) = e_freeze (freezer (cgrp st d))).
  { intros d. unfold st'. rewrite cgroup_freeze_depth by assumption.
    destruct (Hadm1 d) as (-> & _). rewrite Hdepth1.
    destruct (existsb _ _) eqn:Hex; cbn [andb]; [|reflexivity].
    destruct (is_dead (cgrp st d)); cbn [negb]; [reflexivity|].
    apply existsb_eqb_In in Hex. specialize (Hrng d Hex).
    rewrite wrap_int_id; unfold INT_MIN, INT_MAX in *; lia. }
  assert (Hflag1 : flag_follows_depth st1).
  { apply cgroup_freeze_flag_follows_depth; [exact Hnd | | exact Hflag].
    intros d Hd. specialize (Hrng d Hd). lia. }
  assert (Hflag' : flag_follows_depth st').
  { apply cgroup_freeze_flag_follows_depth; [exact Hnd | | exact Hflag1].
    intros d Hd. rewrite Hdepth1. specialize (Hrng d Hd).
    destruct (_ && _); lia. }
  assert (Hfreeze : forall d,
            CGRP_FREEZE (cgrp st' d) = CGRP_FREEZE (cgrp st d))
    by (intros d; now rewrite (Hflag' d), (Hflag d), Hdepth).
  split.
  - intros d. split; [|split; [apply Hdepth | apply Hfreeze]].
    destruct (Hadm2 d) as (_ & ->). destruct (Hadm1 d) as (_ & ->).
    destruct (Nat.eqb_spec d g) as [->|_]; [now rewrite Hfr | reflexivity].
  - intros t Hin Hk Hs.
    destruct (Htask1 t) as (Hk1 & _ & Hs1 & Hd1 & _).
    destruct (Htask2 t) as (Hk2 & _ & Hs2 & Hd2 & _).
    assert (Hm' : traps_mirror st')
      by now apply traps_mirror_freeze, traps_mirror_freeze.
    rewrite (Hm' t), Hd2, Hd1, Hfreeze; try congruence.
    symmetry. now apply Hmirror.
Qed.

End RoundTrip.

(** ** Requests that find their group ready, and requests without effect *)

Section ReadyGroups.

Variable H : hierarchy.
Hypothesis H_well_formed : well_formed H.

(** X9: cgroup_do_freeze revisits the status of its group exactly when all
    groups below it already report frozen (the two descendant counters are
    equal): the status then becomes frozen if and only if a freeze is asked
    for and every task of the group is already frozen, so that a group
    without tasks reports frozen at once.  Otherwise the status of the
    group is left as it was. *)
Theorem do_freeze_settles_ready_group (g : gid) (b : bool) (st : state) :
  let st' := cgroup_do_freeze H g b st in
  (nr_descendants (cgrp st g) = nr_frozen_descendants (freezer (cgrp st g)) ->
   CGRP_FROZEN (cgrp st' g) =
   b && (nr_frozen_tasks (freezer (cgrp st g)) =? __cgroup_task_count st g))
  /\
  (nr_descendants (cgrp st g) <> nr_frozen_descendants (freezer (cgrp st g))
   -> CGRP_FROZEN (cgrp st' g) = CGRP_FROZEN (cgrp st g)).
Proof.
  cbv zeta. unfold cgroup_do_freeze.
  set (st1 := map_cgrp g (set_CGRP_FREEZE b) st).
  set (st2 := fold_left (do_freeze_task b) (css_tasks st1 g) st1).
  assert (Hc2 : cgrp st2 g = set_CGRP_FREEZE b (cgrp st g)).
  { unfold st2. rewrite freeze_tasks_cgrp. unfold st1.
    apply cgrp_map_cgrp_same. }
  destruct (do_freeze_tasks_footprint b (css_tasks st1 g) st1)
    as (_ & Htasks & Hlist & _). fold st2 in Htasks, Hlist.
  assert (Hcount : __cgroup_task_count st2 g = __cgroup_task_count st g).
  { unfold __cgroup_task_count. rewrite Hlist. cbn [st1 map_cgrp tasklist].
    f_equal. f_equal. apply filter_agree. intros t _.
    destruct (Htasks t) as (-> & _ & _ & -> & _). reflexivity. }
  rewrite Hc2. cbn [set_CGRP_FREEZE nr_descendants freezer].
  split; intros Hready.
  - rewrite Hready, Z.eqb_refl.
    pose proof (cgroup_update_frozen_status H H_well_formed g st2) as Hst.
    cbv zeta in Hst. rewrite Hst.
    destruct (cgroup_update_frozen_upward H g st2) as (Hc & Ht & Hl & _).
    destruct (Hc g) as (-> & _ & _ & _ & _ & ->).
    assert (Hcount' : __cgroup_task_count (cgroup_update_frozen H g st2) g =
                      __cgroup_task_count st2 g)
      by (unfold __cgroup_task_count; now rewrite Ht, Hl).
    rewrite Hcount', Hcount, Hc2. reflexivity.
  - apply Z.eqb_neq in Hready. rewrite Hready, Hc2. reflexivity.
Qed.

End ReadyGroups.

Section RequestsWithoutEffect.

Variable H : hierarchy.

Lemma visits_without_effect (b : bool) l : forall st (a : bool),
  NoDup l ->
  (forall d, In d l ->
     is_dead (cgrp st d) = true \/
     (if b then 1 <= e_freeze (freezer (cgrp st d)) < INT_MAX
      else 2 <= e_freeze (freezer (cgrp st d)) <= INT_MAX)) ->
  let r := fold_left (cgroup_freeze_visit H b) l (st, a) in
  snd r = a /\ trace (fst r) = trace st /\ task (fst r) = task st /\
  forall x, CGRP_FREEZE (cgrp (fst r) x) = CGRP_FREEZE (cgrp st x) /\
            CGRP_FROZEN (cgrp (fst r) x) = CGRP_FROZEN (cgrp st x).
Proof.
  induction l as [|d l IH]; intros st a Hnd Hcond; cbn [fold_left].
  - cbn. repeat split.
  - inversion Hnd as [|x l' Hnotin Hnd']; subst.
    assert (Hvisit : exists st1,
              cgroup_freeze_visit H b (st, a) d = (st1, a) /\
              trace st1 = trace st /\ task st1 = task st /\
              (forall x, CGRP_FREEZE (cgrp st1 x) = CGRP_FREEZE (cgrp st x)
                      /\ CGRP_FROZEN (cgrp st1 x) = CGRP_FROZEN (cgrp st x)
                      /\ is_dead (cgrp st1 x) = is_dead (cgrp st x)) /\
              (forall x, x <> d -> cgrp st1 x = cgrp st x)).
    { destruct (is_dead (cgrp st d)) eqn:Hd.
      - exists st. rewrite cgroup_freeze_visit_dead by assumption.
        repeat split.
      - rewrite cgroup_freeze_visit_live by assumption.
        destruct (Hcond d (or_introl eq_refl)) as [Hdead|Hrng];
          [congruence|].
        set (e := e_freeze (freezer (cgrp st d))) in *.
        assert (Hw : wrap_int (e + (if b then 1 else -1)) =
                     e + (if b then 1 else -1))
          by (apply wrap_int_id; unfold INT_MIN, INT_MAX in *;
              destruct b; lia).
        rewrite Hw.
        assert (Hgt : (e + (if b then 1 else -1) >? (if b then 1 else 0))
                      = true)
          by (rewrite Z.gtb_ltb; apply Z.ltb_lt; destruct b; lia).
        rewrite Hgt. eexists. split; [reflexivity|].
        unfold with_depth. split; [reflexivity|]. split; [reflexivity|].
        split.
        + intros x. destruct (Nat.eq_dec x d) as [->|Hne].
          * rewrite cgrp_map_cgrp_same. repeat split.
          * rewrite cgrp_map_cgrp_other by assumption. repeat split.
        + intros x Hne. now apply cgrp_map_cgrp_other. }
    destruct Hvisit as (st1 & -> & Htr1 & Ht1 & Hfl1 & Hother1).
    destruct (IH st1 a Hnd') as (Ha & Htr & Ht & Hfl).
    { intros d' Hd'.
      assert (Hne : d' <> d) by (intros ->; contradiction).
      rewrite (Hother1 d' Hne). apply Hcond. now right. }
    cbv zeta. split; [exact Ha|]. split; [congruence|].
    split; [congruence|].
    intros x. destruct (Hfl x) as (-> & ->).
    destruct (Hfl1 x) as (-> & -> & _). split; reflexivity.
Qed.

(** X10: a changed request that takes effect on no group - every group of
    the subtree is dead or is already held (or still held) by another
    request - touches no task and changes no freeze flag and no status,
    but still notifies the group it was made on, exactly once. *)
Theorem request_without_effect_still_notifies (g : gid) (b : bool)
    (st : state) :
  freeze (freezer (cgrp st g)) = negb b ->
  NoDup (css_descendants_pre H g) ->
  (forall d, In d (css_descendants_pre H g) ->
     is_dead (cgrp st d) = true \/
     (if b then 1 <= e_freeze (freezer (cgrp st d)) < INT_MAX
      else 2 <= e_freeze (freezer (cgrp st d)) <= INT_MAX)) ->
  let st' := cgroup_freeze H g b st in
  emitted st st' = [EvFileNotify g] /\
  task st' = task st /\
  freeze (freezer (cgrp st' g)) = b /\
  forall x, CGRP_FREEZE (cgrp st' x) = CGRP_FREEZE (cgrp st x) /\
            CGRP_FROZEN (cgrp st' x) = CGRP_FROZEN (cgrp st x).
Proof.
  intros Hfr Hnd Hcond st'.
  set (st1 := map_cgrp g (map_freezer (set_freeze b)) st).
  assert (H1 : forall x,
            CGRP_FREEZE (cgrp st1 x) = CGRP_FREEZE (cgrp st x) /\
            CGRP_FROZEN (cgrp st1 x) = CGRP_FROZEN (cgrp st x) /\
            is_dead (cgrp st1 x) = is_dead (cgrp st x) /\
            e_freeze (freezer (cgrp st1 x)) = e_freeze (freezer (cgrp st x))).
  { intros x. unfold st1. destruct (Nat.eq_dec x g) as [->|Hne].
    - rewrite cgrp_map_cgrp_same. repeat split.
    - rewrite cgrp_map_cgrp_other by assumption. repeat split. }
  destruct (visits_without_effect b (css_descendants_pre H g) st1 false Hnd)
    as (Ha & Htr & Ht & Hfl).
  { intros d Hd. destruct (H1 d) as (_ & _ & -> & ->). now apply Hcond. }
  destruct (cgroup_freeze_admin H g b st Hfr) as (Hadm & _).
  fold st' in Hadm.
  assert (Hst' : st' = cgroup_file_notify g
            (fst (fold_left (cgroup_freeze_visit H b)
                    (css_descendants_pre H g) (st1, false)))).
  { unfold st', cgroup_freeze, cgroup_freeze_walk. rewrite Hfr.
    fold st1. revert Ha.
    destruct (fold_left _ _ _) as [st2 applied]. cbn [fst snd].
    intros ->. now destruct b. }
  split; [|split; [|split]].
  - apply emitted_app. rewrite Hst'.
    cbn [cgroup_file_notify emit trace]. now rewrite Htr.
  - rewrite Hst'. cbn [cgroup_file_notify emit task]. exact Ht.
  - destruct (Hadm g) as (_ & ->). now rewrite Nat.eqb_refl.
  - intros x. rewrite Hst'. cbn [cgroup_file_notify emit cgrp].
    destruct (Hfl x) as (-> & ->). destruct (H1 x) as (-> & -> & _).
    split; reflexivity.
Qed.

End RequestsWithoutEffect.

(** ** Tasks that stop and tasks that exit *)

Section StoppingTasks.

Variable H : hierarchy.
Hypothesis H_well_formed : well_formed H.

Lemma task_count_view st st' g :
  (forall u, PF_KTHREAD (task st' u) = PF_KTHREAD (task st u) /\
             dfl_cgroup (task st' u) = dfl_cgroup (task st u)) ->
  tasklist st' = tasklist st ->
  __cgroup_task_count st' g = __cgroup_task_count st g.
Proof.
  intros Ht Hl. unfold __cgroup_task_count. rewrite Hl.
  f_equal. f_equal. apply filter_agree. intros u _.
  now destruct (Ht u) as (-> & ->).
Qed.

(** The status of [g] after a recomputation, read off a state [st0] that
    has the same freeze flag, frozen-task counter and tasks. *)
Lemma cgroup_update_frozen_status_from st0 st g :
  CGRP_FREEZE (cgrp st g) = CGRP_FREEZE (cgrp st0 g) ->
  __cgroup_task_count st g = __cgroup_task_count st0 g ->
  CGRP_FROZEN (cgrp (cgroup_update_frozen H g st) g) =
  CGRP_FREEZE (cgrp st0 g) &&
  (nr_frozen_tasks (freezer (cgrp st g)) =? __cgroup_task_count st0 g).
Proof.
  intros Hfz Hcount.
  pose proof (cgroup_update_frozen_status H H_well_formed g st) as Hst.
  cbv zeta in Hst. rewrite Hst.
  destruct (cgroup_update_frozen_upward H g st) as (Hc & Ht & Hl & _).
  destruct (Hc g) as (-> & _ & _ & _ & _ & ->).
  rewrite (task_count_view st _ g), Hfz, Hcount;
    [reflexivity | now rewrite Ht | exact Hl].
Qed.

(** X11: when a task that is not yet frozen reports that it has stopped,
    it is marked frozen, the frozen-task counter of its group goes up by
    one, and the group reports frozen exactly when it is asked to freeze
    and this task was the last of its tasks to stop. *)
Theorem last_task_to_stop_freezes_group (t : tid) (st : state) :
  frozen (task st t) = false ->
  INT_MIN <= nr_frozen_tasks (freezer (cgrp st (dfl_cgroup (task st t))))
          < INT_MAX ->
  let g := dfl_cgroup (task st t) in
  let st' := cgroup_enter_frozen H t st in
  frozen (task st' t) = true /\
  nr_frozen_tasks (freezer (cgrp st' g)) =
    nr_frozen_tasks (freezer (cgrp st g)) + 1 /\
  CGRP_FROZEN (cgrp st' g) =
    CGRP_FREEZE (cgrp st g) &&
    (nr_frozen_tasks (freezer (cgrp st g)) + 1 =? __cgroup_task_count st g).
Proof.
  intros Hfr Hrng g st'. unfold st', cgroup_enter_frozen. rewrite Hfr.
  set (st1 := map_task t (set_frozen true) st).
  assert (Hg : dfl_cgroup (task st1 t) = g)
    by (unfold st1; now rewrite task_map_task_same).
  rewrite Hg. set (st2 := cgroup_inc_frozen_cnt g st1).
  assert (Hnr2 : nr_frozen_tasks (freezer (cgrp st2 g)) =
                 nr_frozen_tasks (freezer (cgrp st g)) + 1).
  { unfold st2, cgroup_inc_frozen_cnt. rewrite cgrp_map_cgrp_same.
    cbn [map_freezer freezer set_nr_frozen_tasks nr_frozen_tasks].
    change (cgrp st1 g) with (cgrp st g).
    apply wrap_int_id. fold g in Hrng. unfold INT_MIN, INT_MAX in *. lia. }
  assert (Hfz2 : CGRP_FREEZE (cgrp st2 g) = CGRP_FREEZE (cgrp st g)).
  { unfold st2, cgroup_inc_frozen_cnt. now rewrite cgrp_map_cgrp_same. }
  assert (Hcount2 : __cgroup_task_count st2 g = __cgroup_task_count st g).
  { apply task_count_view; [|reflexivity].
    intros u. cbn [st2 cgroup_inc_frozen_cnt map_cgrp task].
    unfold st1. destruct (Nat.eq_dec u t) as [->|Hne].
    - rewrite task_map_task_same. cbn. tauto.
    - rewrite task_map_task_other by assumption. tauto. }
  destruct (cgroup_update_frozen_upward H g st2) as (Hc & Ht & _).
  split; [|split].
  - rewrite Ht. cbn [st2 cgroup_inc_frozen_cnt map_cgrp task].
    unfold st1. now rewrite task_map_task_same.
  - destruct (Hc g) as (_ & _ & _ & _ & _ & ->). exact Hnr2.
  - rewrite (cgroup_update_frozen_status_from st st2 g Hfz2 Hcount2).
    now rewrite Hnr2.
Qed.

(** X12: when a task on the list of live tasks that is not a kernel thread
    exits through the frozen-exit hook, its group loses one task and one
    frozen task at once, so that the status of the group comes out as a
    recomputation before the exit would have left it: frozen exactly when
    the group is asked to freeze and all its tasks were frozen. *)
Theorem frozen_exit_keeps_group_status (t : tid) (st : state) :
  In t (tasklist st) ->
  NoDup (tasklist st) ->
  PF_KTHREAD (task st t) = false ->
  INT_MIN < nr_frozen_tasks (freezer (cgrp st (dfl_cgroup (task st t))))
          <= INT_MAX ->
  let g := dfl_cgroup (task st t) in
  let st' := step H (OpExit t) st in
  ~ In t (tasklist st') /\
  CGRP_FROZEN (cgrp st' g) =
    CGRP_FREEZE (cgrp st g) &&
    (nr_frozen_tasks (freezer (cgrp st g)) =? __cgroup_task_count st g).
Proof.
  intros Hin Hnd Hk Hrng g st'.
  unfold st'. cbn [step]. unfold cgroup_freezer_frozen_exit.
  set (st0 := css_set_remove_task t st).
  change (dfl_cgroup (task st0 t)) with g.
  set (st1 := cgroup_dec_frozen_cnt g st0).
  assert (Hnr1 : nr_frozen_tasks (freezer (cgrp st1 g)) =
                 nr_frozen_tasks (freezer (cgrp st g)) - 1).
  { unfold st1, cgroup_dec_frozen_cnt, WARN_ON_ONCE.
    destruct (_ <? _); cbn [emit cgrp]; rewrite cgrp_map_cgrp_same;
      cbn [map_freezer freezer set_nr_frozen_tasks nr_frozen_tasks];
      change (cgrp st0 g) with (cgrp st g);
      apply wrap_int_id; fold g in Hrng; unfold INT_MIN, INT_MAX in *; lia. }
  assert (Hfz1 : CGRP_FREEZE (cgrp st1 g) = CGRP_FREEZE (cgrp st0 g)).
  { unfold st1, cgroup_dec_frozen_cnt, WARN_ON_ONCE.
    destruct (_ <? _); cbn [emit cgrp]; now rewrite cgrp_map_cgrp_same. }
  assert (Hview1 : task st1 = task st0 /\ tasklist st1 = tasklist st0).
  { unfold st1, cgroup_dec_frozen_cnt, WARN_ON_ONCE.
    destruct (_ <? _); split; reflexivity. }
  destruct Hview1 as (Ht1 & Hl1).
  assert (Hcount1 : __cgroup_task_count st1 g = __cgroup_task_count st0 g)
    by (apply task_count_view; [intros u; now rewrite Ht1 | exact Hl1]).
  assert (Hcount0 : __cgroup_task_count st0 g = __cgroup_task_count st g - 1).
  { unfold __cgroup_task_count. cbn [st0 css_set_remove_task tasklist task].
    rewrite (count_remove _ t _ Hnd Hin). rewrite Hk.
    unfold g. rewrite Nat.eqb_refl. reflexivity. }
  destruct (cgroup_update_frozen_upward H g st1) as (_ & _ & Hl & _).
  split.
  - rewrite Hl, Hl1. cbn [st0 css_set_remove_task tasklist].
    apply remove_In.
  - rewrite (cgroup_update_frozen_status_from st0 st1 g Hfz1 Hcount1).
    rewrite Hnr1, Hcount0. change (cgrp st0 g) with (cgrp st g).
    f_equal.
    destruct (Z.eqb_spec (nr_frozen_tasks (freezer (cgrp st g)))
                         (__cgroup_task_count st g)) as [E|E].
    + apply Z.eqb_eq. lia.
    + apply Z.eqb_neq. lia.
Qed.

(** X13: when a task leaves the frozen state - unconditionally, or because
    its group is no longer asked to freeze - it is marked not frozen, the
    frozen-task counter of its group goes down by exactly one, and, the
    counter not having exceeded the number of tasks, the group does not
    report frozen any more. *)
Theorem leaving_task_unfreezes_group (t : tid) (always_leave : bool)
    (st : state) :
  always_leave = true \/
    CGRP_FREEZE (cgrp st (dfl_cgroup (task st t))) = false ->
  INT_MIN < nr_frozen_tasks (freezer (cgrp st (dfl_cgroup (task st t))))
          <= INT_MAX ->
  nr_frozen_tasks (freezer (cgrp st (dfl_cgroup (task st t)))) <=
    __cgroup_task_count st (dfl_cgroup (task st t)) ->
  let g := dfl_cgroup (task st t) in
  let st' := cgroup_leave_frozen H t always_leave st in
  frozen (task st' t) = false /\
  nr_frozen_tasks (freezer (cgrp st' g)) =
    nr_frozen_tasks (freezer (cgrp st g)) - 1 /\
  CGRP_FROZEN (cgrp st' g) = false.
Proof.
  intros Hleave Hrng Hle g st'. unfold st', cgroup_leave_frozen.
  fold g. fold g in Hleave, Hrng, Hle.
  assert (Hcond : always_leave || negb (CGRP_FREEZE (cgrp st g)) = true)
    by (destruct Hleave as [->| ->]; [reflexivity | apply orb_true_r]).
  rewrite Hcond.
  set (st1 := cgroup_dec_frozen_cnt g st).
  assert (Hnr1 : nr_frozen_tasks (freezer (cgrp st1 g)) =
                 nr_frozen_tasks (freezer (cgrp st g)) - 1).
  { unfold st1, cgroup_dec_frozen_cnt, WARN_ON_ONCE.
    destruct (_ <? _); cbn [emit cgrp]; rewrite cgrp_map_cgrp_same;
      cbn [map_freezer freezer set_nr_frozen_tasks nr_frozen_tasks];
      apply wrap_int_id; unfold INT_MIN, INT_MAX in *; lia. }
  assert (Hfz1 : CGRP_FREEZE (cgrp st1 g) = CGRP_FREEZE (cgrp st g)).
  { unfold st1, cgroup_dec_frozen_cnt, WARN_ON_ONCE.
    destruct (_ <? _); cbn [emit cgrp]; now rewrite cgrp_map_cgrp_same. }
  assert (Hcount1 : __cgroup_task_count st1 g = __cgroup_task_count st g).
  { apply task_count_view;
      unfold st1, cgroup_dec_frozen_cnt, WARN_ON_ONCE;
      destruct (_ <? _); try reflexivity; intros u; split; reflexivity. }
  set (st2 := cgroup_update_frozen H g st1).
  assert (Hfrozen2 : CGRP_FROZEN (cgrp st2 g) = false).
  { unfold st2.
    rewrite (cgroup_update_frozen_status_from st st1 g Hfz1 Hcount1), Hnr1.
    apply andb_false_iff. right. apply Z.eqb_neq. lia. }
  assert (Hnr2 : nr_frozen_tasks (freezer (cgrp st2 g)) =
                 nr_frozen_tasks (freezer (cgrp st g)) - 1).
  { destruct (cgroup_update_frozen_upward H g st1) as (Hc & _).
    fold st2 in Hc. now destruct (Hc g) as (_ & _ & _ & _ & _ & ->). }
  set (st3 := WARN_ON_ONCE (negb (frozen (task st2 t))) (WarnNotFrozen t)
                           st2).
  assert (Hc3 : cgrp st3 = cgrp st2).
  { unfold st3, WARN_ON_ONCE.
    destruct (negb (frozen (task st2 t))); reflexivity. }
  set (st4 := map_task t (set_frozen false) st3).
  assert (Hf4 : frozen (task st4 t) = false)
    by (unfold st4; now rewrite task_map_task_same).
  rewrite Hf4. split; [exact Hf4|].
  change (cgrp st4) with (cgrp st3). rewrite Hc3. tauto.
Qed.

End StoppingTasks.

Lemma leaving_task_unfreezes_group_witness :
  CGRP_FROZEN
    (cgrp (cgroup_leave_frozen Examples.H3 1%nat true
             (run Examples.H3 [OpFreeze 2%nat true; OpEnterFrozen 1%nat]
                Examples.st0)) 2%nat)
  = false.
Proof.
  assert (Hrng : INT_MIN < 1 <= INT_MAX) by (unfold INT_MIN, INT_MAX; lia).
  assert (Hle : 1 <= 1) by lia.
  exact (proj2 (proj2
           (leaving_task_unfreezes_group Examples.H3 H3_well_formed 1%nat
              true
              (run Examples.H3 [OpFreeze 2%nat true; OpEnterFrozen 1%nat]
                 Examples.st0)
              (or_introl eq_refl) Hrng Hle))).
Defined.

Lemma last_task_to_stop_witness :
  CGRP_FROZEN
    (cgrp (cgroup_enter_frozen Examples.H3 1%nat
             (run Examples.H3 [OpFreeze 2%nat true] Examples.st0)) 2%nat)
  = true.
Proof.
  assert (Hrng : INT_MIN <= 0 < INT_MAX) by (unfold INT_MIN, INT_MAX; lia).
  exact (proj2 (proj2
           (last_task_to_stop_freezes_group Examples.H3 H3_well_formed 1%nat
              (run Examples.H3 [OpFreeze 2%nat true] Examples.st0)
              eq_refl Hrng))).
Defined.

Lemma frozen_exit_keeps_group_status_witness :
  CGRP_FROZEN
    (cgrp (step Examples.H3 (OpExit 1%nat)
             (run Examples.H3 [OpFreeze 2%nat true; OpEnterFrozen 1%nat]
                Examples.st0)) 2%nat)
  = true.
Proof.
  assert (Hnd : NoDup [0; 1]%nat)
    by (repeat constructor; cbn; intuition discriminate).
  assert (Hrng : INT_MIN < 1 <= INT_MAX) by (unfold INT_MIN, INT_MAX; lia).
  exact (proj2
           (frozen_exit_keeps_group_status Examples.H3 H3_well_formed 1%nat
              (run Examples.H3 [OpFreeze 2%nat true; OpEnterFrozen 1%nat]
                 Examples.st0)
              (or_intror (or_introl eq_refl)) Hnd eq_refl Hrng)).
Defined.

(** ** The properties above, evaluated on the example systems *)

Lemma st0_initial : initial Examples.st0.
Proof.
  split; [|split; [|split]].
  - intros g. repeat split.
  - intros t. destruct t as [|[|t]]; split; reflexivity.
  - repeat constructor; cbn; intuition discriminate.
  - reflexivity.
Qed.

Lemma H3_tree_consistent : tree_consistent Examples.H3.
Proof.
  split; [exact H3_well_formed|]. split; [|split].
  - intros [|[|[|a]]]; cbn; repeat constructor; cbn; intuition discriminate.
  - intros a d. split.
    + destruct a as [|[|a]]; cbn; intros Hin;
        repeat (destruct Hin as [<-|Hin]); try contradiction.
      * exists 0%nat. split; [reflexivity | now left].
      * exists 1%nat. split; [reflexivity | right; now left].
      * exists 1%nat. split; [reflexivity | now left].
    + intros (p & Hp & Hor).
      destruct d as [|[|[|d]]]; cbn in Hp; try discriminate;
        injection Hp as <-;
        destruct a as [|[|a]]; cbn in *; intuition discriminate.
  - intros [|[|a]]; cbn; unfold INT_MAX; lia.
Qed.

Lemma H_siblings_well_formed : well_formed Examples.H_siblings.
Proof.
  intros g p. destruct g as [|[|[|g]]]; cbn; intros Hp; try discriminate;
    injection Hp as <-; reflexivity.
Qed.

Lemma frozen_descendants_stay_counted_witness :
  nr_frozen_descendants
    (freezer (cgrp (run Examples.H3
                      [OpFreeze 1%nat true; OpEnterFrozen 0%nat;
                       OpEnterFrozen 1%nat] Examples.st0) 1%nat)) =
  frozen_below Examples.H3
    (run Examples.H3
       [OpFreeze 1%nat true; OpEnterFrozen 0%nat; OpEnterFrozen 1%nat]
       Examples.st0) 1%nat.
Proof.
  exact (proj1 (frozen_descendants_stay_counted Examples.H3
                  H3_tree_consistent
                  [OpFreeze 1%nat true; OpEnterFrozen 0%nat;
                   OpEnterFrozen 1%nat] Examples.st0
                  (initial_counted Examples.H3 Examples.st0 st0_initial)
                  1%nat)).
Defined.

Lemma trap_bit_mirrors_freeze_flag_witness :
  JOBCTL_TRAP_FREEZE
    (task (run Examples.H3 [OpFreeze 1%nat true] Examples.st0) 0%nat) = true.
Proof.
  exact (trap_bit_mirrors_freeze_flag Examples.H3 [OpFreeze 1%nat true]
           Examples.st0 (initial_traps_mirror Examples.st0 st0_initial)
           0%nat (or_introl eq_refl) eq_refl eq_refl).
Defined.

Lemma freeze_flag_follows_requests_witness :
  CGRP_FREEZE
    (cgrp (run Examples.H3 [OpFreeze 1%nat true] Examples.st0) 2%nat) =
  (0 <? e_freeze (freezer
          (cgrp (run Examples.H3 [OpFreeze 1%nat true] Examples.st0)
                2%nat))).
Proof.
  assert (Hgnd : NoDup [1; 2]%nat)
    by (repeat constructor; cbn; intuition discriminate).
  assert (Hdnd : forall a, In a [1; 2]%nat ->
                   NoDup (css_descendants_pre Examples.H3 a)).
  { intros a [<-|[<-|[]]]; cbn;
      repeat constructor; cbn; intuition discriminate. }
  assert (Hglen : Z.of_nat (length [1; 2]%nat) < INT_MAX) by reflexivity.
  assert (Hlen : Z.of_nat (length (tasklist Examples.st0)) < INT_MAX)
    by reflexivity.
  assert (Hm : matched_run Examples.H3 [1; 2]%nat Examples.st0
                 [OpFreeze 1%nat true])
    by (cbn; tauto).
  exact (proj1 (freeze_flag_follows_requests Examples.H3 [1; 2]%nat
                  Hgnd Hdnd Hglen Examples.st0 [OpFreeze 1%nat true]
                  Hlen st0_initial Hm 2%nat)).
Defined.

Lemma task_trapped_iff_request_covers_witness :
  JOBCTL_TRAP_FREEZE
    (task (run Examples.H3 [OpFreeze 1%nat true] Examples.st0) 1%nat) = true
  <->
  exists a, In a [1; 2]%nat /\
    freeze (freezer
      (cgrp (run Examples.H3 [OpFreeze 1%nat true] Examples.st0) a)) = true
    /\ In 2%nat (css_descendants_pre Examples.H3 a).
Proof.
  assert (Hgnd : NoDup [1; 2]%nat)
    by (repeat constructor; cbn; intuition discriminate).
  assert (Hdnd : forall a, In a [1; 2]%nat ->
                   NoDup (css_descendants_pre Examples.H3 a)).
  { intros a [<-|[<-|[]]]; cbn;
      repeat constructor; cbn; intuition discriminate. }
  assert (Hglen : Z.of_nat (length [1; 2]%nat) < INT_MAX) by reflexivity.
  assert (Hlen : Z.of_nat (length (tasklist Examples.st0)) < INT_MAX)
    by reflexivity.
  assert (Hm : matched_run Examples.H3 [1; 2]%nat Examples.st0
                 [OpFreeze 1%nat true])
    by (cbn; tauto).
  exact (task_trapped_iff_request_covers Examples.H3 [1; 2]%nat
           Hgnd Hdnd Hglen Examples.st0 [OpFreeze 1%nat true]
           Hlen st0_initial Hm 1%nat (or_intror (or_introl eq_refl))
           eq_refl eq_refl eq_refl).
Defined.

Lemma freeze_then_thaw_restores_witness :
  e_freeze (freezer
    (cgrp (cgroup_freeze Examples.H3 1%nat false
             (cgroup_freeze Examples.H3 1%nat true Examples.st0)) 2%nat)) =
  e_freeze (freezer (cgrp Examples.st0 2%nat)).
Proof.
  assert (Hnd : NoDup (css_descendants_pre Examples.H3 1%nat))
    by (cbn; repeat constructor; cbn; intuition discriminate).
  assert (Hrng : forall d, In d (css_descendants_pre Examples.H3 1%nat) ->
            0 <= e_freeze (freezer (cgrp Examples.st0 d)) < INT_MAX - 1)
    by (intros d _; cbn; unfold INT_MAX; lia).
  assert (Hflag : flag_follows_depth Examples.st0)
    by (intros d; reflexivity).
  exact (proj1 (proj2 (proj1
           (freeze_then_thaw_restores Examples.H3 1%nat Examples.st0
              eq_refl Hnd Hrng Hflag
              (initial_traps_mirror Examples.st0 st0_initial)) 2%nat))).
Defined.

Lemma do_freeze_settles_ready_group_witness :
  CGRP_FROZEN
    (cgrp (cgroup_do_freeze Examples.H_siblings 2%nat true
             Examples.st_siblings) 2%nat) = true.
Proof.
  exact (proj1 (do_freeze_settles_ready_group Examples.H_siblings
                  H_siblings_well_formed 2%nat true Examples.st_siblings)
               eq_refl).
Defined.

Lemma request_without_effect_witness :
  emitted (run Examples.H3 [OpFreeze 1%nat true] Examples.st0)
    (cgroup_freeze Examples.H3 2%nat true
       (run Examples.H3 [OpFreeze 1%nat true] Examples.st0)) =
  [EvFileNotify 2%nat].
Proof.
  assert (Hnd : NoDup (css_descendants_pre Examples.H3 2%nat))
    by (cbn; repeat constructor; cbn; intuition discriminate).
  assert (Hcond : forall d, In d (css_descendants_pre Examples.H3 2%nat) ->
            is_dead (cgrp (run Examples.H3 [OpFreeze 1%nat true]
                             Examples.st0) d) = true \/
            1 <= e_freeze (freezer
                   (cgrp (run Examples.H3 [OpFreeze 1%nat true]
                            Examples.st0) d)) < INT_MAX).
  { intros d [<-|[]]. right. vm_compute. split; congruence. }
  exact (proj1 (request_without_effect_still_notifies Examples.H3 2%nat true
                  (run Examples.H3 [OpFreeze 1%nat true] Examples.st0)
                  eq_refl Hnd Hcond)).
Defined.

End CgroupFacts.

(** * Facts about the legacy freezer subsystem *)

Module LegacyFacts.

Import Legacy.

Lemma freezer_emitted_app st st' evs :
  trace st' = evs ++ trace st -> emitted st st' = evs.
Proof. unfold emitted. intros ->. apply firstn_app_exact. Qed.

(** ** The two loops of unfreeze_cgroup *)

Lemma unfreeze_own_fold l : forall tmp st,
  fold_left unfreeze_own_step l (tmp, st) =
  (last_uid st l tmp, with_trace (rev (map EvThawTask l)) st).
Proof.
  induction l as [|t l IH]; intros tmp st; cbn [fold_left].
  - unfold with_trace. destruct st; reflexivity.
  - cbn [unfreeze_own_step]. rewrite IH. unfold last_uid. cbn [fold_left].
    f_equal. unfold with_trace, emit. cbn [freezers task tasklist
      system_freezing_cnt trace map rev].
    now rewrite <- app_assoc.
Qed.

Lemma unfreeze_uid_fold uid l : forall st,
  fold_left (unfreeze_uid_step uid) l st =
  with_trace (rev (map EvThawTask (filter (has_uid st uid) l))) st.
Proof.
  induction l as [|p l IH]; intros st; cbn [fold_left].
  - unfold with_trace. destruct st; reflexivity.
  - rewrite IH. unfold unfreeze_uid_step, has_uid. cbn [filter].
    destruct (real_cred (task st p)) as [u|]; [|reflexivity].
    destruct (u =? uid); [|reflexivity].
    unfold with_trace, emit. cbn [freezers task tasklist
      system_freezing_cnt trace map rev].
    now rewrite <- app_assoc.
Qed.

Lemma unfreeze_cgroup_trace f st :
  unfreeze_cgroup f st =
  with_trace
    (rev (map EvThawTask
            (filter (has_uid st (last_uid st (css_tasks st f) UID_NONE))
                    (tasklist st)))
     ++ rev (map EvThawTask (css_tasks st f))) st.
Proof.
  unfold unfreeze_cgroup. rewrite unfreeze_own_fold, unfreeze_uid_fold.
  unfold with_trace. cbn [freezers task tasklist system_freezing_cnt trace].
  now rewrite <- app_assoc.
Qed.

Lemma last_uid_app st l1 l2 tmp :
  last_uid st (l1 ++ l2) tmp = last_uid st l2 (last_uid st l1 tmp).
Proof. unfold last_uid. apply fold_left_app. Qed.

Lemma last_uid_none st l tmp :
  (forall t, In t l -> real_cred (task st t) = None) ->
  last_uid st l tmp = tmp.
Proof.
  revert tmp. induction l as [|t l IH]; intros tmp Hl; [reflexivity|].
  unfold last_uid. cbn [fold_left]. rewrite (Hl t) by now left.
  apply IH. intros u Hu. apply Hl. now right.
Qed.

Lemma freezer_css_tasks_spec st f t :
  In t (css_tasks st f) <->
  In t (tasklist st) /\ freezer_css (task st t) = f.
Proof. unfold css_tasks. rewrite filter_In, Nat.eqb_eq. tauto. Qed.

(** C10: thawing a group in the legacy unfreeze path thaws every task
    iterated from the group and, in addition, every thread of the system
    whose real UID equals the real UID of the last task of the group that
    carries credentials, whatever group that thread belongs to; nothing
    else is thawed, and no freezer or counter is modified. *)
Theorem C10_unfreeze_broadens_by_uid (f : fid) (st : kstate)
    (before after : list tid) (t_cred : tid) (uid : Z) :
  css_tasks st f = before ++ t_cred :: after ->
  real_cred (task st t_cred) = Some uid ->
  (forall t, In t after -> real_cred (task st t) = None) ->
  let st' := unfreeze_cgroup f st in
  (forall t, In t (css_tasks st f) -> In (EvThawTask t) (emitted st st')) /\
  (forall p, In p (tasklist st) -> real_cred (task st p) = Some uid ->
             In (EvThawTask p) (emitted st st')) /\
  (forall e, In e (emitted st st') ->
     exists p, e = EvThawTask p /\
       (In p (css_tasks st f) \/
        (In p (tasklist st) /\ real_cred (task st p) = Some uid))) /\
  freezers st' = freezers st /\
  system_freezing_cnt st' = system_freezing_cnt st.
Proof.
  intros Hown Hcred Hafter st'.
  assert (Huid : last_uid st (css_tasks st f) UID_NONE = uid).
  { rewrite Hown, last_uid_app.
    change (t_cred :: after) with ([t_cred] ++ after).
    rewrite last_uid_app, (last_uid_none st after) by assumption.
    unfold last_uid. cbn [fold_left]. now rewrite Hcred. }
  unfold st'. rewrite unfreeze_cgroup_trace, Huid.
  set (evs := _ ++ _).
  rewrite (freezer_emitted_app st (with_trace evs st) evs) by reflexivity.
  assert (Hhas : forall p, has_uid st uid p = true <->
                           real_cred (task st p) = Some uid).
  { intros p. unfold has_uid. destruct (real_cred (task st p)) as [u|].
    - rewrite Z.eqb_eq. split; congruence.
    - split; discriminate. }
  split; [|split; [|split; [|split]]]; try reflexivity.
  - intros t Ht. unfold evs. apply in_app_iff. right.
    rewrite <- in_rev. now apply in_map.
  - intros p Hp Hu. unfold evs. apply in_app_iff. left.
    rewrite <- in_rev. apply in_map, filter_In. split; [exact Hp|].
    now apply Hhas.
  - intros e He. unfold evs in He. apply in_app_iff in He.
    destruct He as [He|He]; rewrite <- in_rev in He;
      apply in_map_iff in He; destruct He as (p & <- & Hp); exists p;
      (split; [reflexivity|]).
    + right. apply filter_In in Hp. destruct Hp as (Hp & Hu).
      split; [exact Hp | now apply Hhas].
    + now left.
Qed.

Lemma C10_unfreeze_witness :
  freezer_css (task LegacyExamples.lst0 1%nat) <> 1%nat /\
  In (EvThawTask 1%nat)
     (emitted LegacyExamples.lst0
        (unfreeze_cgroup 1%nat LegacyExamples.lst0)).
Proof.
  split; [discriminate|].
  assert (Hown : css_tasks LegacyExamples.lst0 1%nat = [] ++ 0%nat :: [])
    by reflexivity.
  assert (Hcred : real_cred (task LegacyExamples.lst0 0%nat) = Some 1000)
    by reflexivity.
  assert (Hafter : forall t, In t [] ->
            real_cred (task LegacyExamples.lst0 t) = None)
    by (intros t []).
  destruct (C10_unfreeze_broadens_by_uid 1%nat LegacyExamples.lst0
              [] [] 0%nat 1000 Hown Hcred Hafter) as (_ & Hall & _).
  apply Hall; [cbn; tauto | reflexivity].
Defined.

(** ** The state flags, bit by bit *)

(** Every flag test reads the low four bits of [state] only. *)
Lemma land_low (s m : Z) :
  Z.land m 15 = m -> Z.land s m = Z.land (Z.land s 15) m.
Proof.
  intros Hm. rewrite <- Z.land_assoc, (Z.land_comm 15 m), Hm. reflexivity.
Qed.

Lemma land_lor_low (s flag m : Z) :
  Z.land m 15 = m ->
  Z.land (Z.lor s flag) m = Z.land (Z.lor (Z.land s 15) flag) m.
Proof.
  intros Hm. rewrite !Z.land_lor_distr_l. f_equal. now apply land_low.
Qed.

Lemma land_land_low (s c m : Z) :
  Z.land m 15 = m ->
  Z.land (Z.land s c) m = Z.land (Z.land (Z.land s 15) c) m.
Proof.
  intros Hm. rewrite <- !Z.land_assoc. rewrite (land_low s (Z.land c m)).
  - now rewrite <- !Z.land_assoc.
  - rewrite <- Z.land_assoc, Hm. reflexivity.
Qed.

Lemma low_cases (s : Z) :
  let r := Z.land s 15 in
  r = 0 \/ r = 1 \/ r = 2 \/ r = 3 \/ r = 4 \/ r = 5 \/ r = 6 \/ r = 7 \/
  r = 8 \/ r = 9 \/ r = 10 \/ r = 11 \/ r = 12 \/ r = 13 \/ r = 14 \/ r = 15.
Proof.
  cbv zeta. change 15 with (Z.ones 4) at 1 2 3 4 5 6 7 8 9 10 11 12 13 14 15 16.
  rewrite Z.land_ones by lia.
  pose proof (Z.mod_pos_bound s (2 ^ 4) ltac:(lia)) as Hb.
  change (2 ^ 4) with 16 in *. lia.
Qed.

Ltac by_low_bits s :=
  let r := fresh "r" in
  let Hr := fresh "Hr" in
  pose proof (low_cases s) as Hr; cbv zeta in Hr;
  set (r := Z.land s 15) in *; clearbody r;
  repeat (destruct Hr as [Hr|Hr]; [subst r; vm_compute; intuition congruence|]);
  subst r; vm_compute; intuition congruence.

(** Setting a FREEZING flag makes the union non-empty and keeps ONLINE. *)
Lemma set_flag_bits (s flag : Z) :
  freezing_flag flag ->
  (Z.land (Z.lor s flag) CGROUP_FREEZING =? 0) = false /\
  (Z.land (Z.lor s flag) CGROUP_FREEZER_ONLINE =? 0) =
  (Z.land s CGROUP_FREEZER_ONLINE =? 0).
Proof.
  intros [->| ->];
    rewrite (land_lor_low s _ CGROUP_FREEZING) by reflexivity;
    rewrite (land_lor_low s _ CGROUP_FREEZER_ONLINE) by reflexivity;
    rewrite (land_low s CGROUP_FREEZER_ONLINE) by reflexivity;
    by_low_bits s.
Qed.

(** Clearing a FREEZING flag keeps ONLINE and cannot make the union
    non-empty. *)
Lemma clear_flag_bits (s flag : Z) :
  freezing_flag flag ->
  (Z.land (Z.land s (bitnot flag)) CGROUP_FREEZER_ONLINE =? 0) =
  (Z.land s CGROUP_FREEZER_ONLINE =? 0) /\
  ((Z.land (Z.land s (bitnot flag)) CGROUP_FREEZING =? 0) = false ->
   (Z.land s CGROUP_FREEZING =? 0) = false).
Proof.
  intros [->| ->];
    rewrite (land_land_low s _ CGROUP_FREEZING) by reflexivity;
    rewrite (land_land_low s _ CGROUP_FREEZER_ONLINE) by reflexivity;
    rewrite (land_low s CGROUP_FREEZER_ONLINE) by reflexivity;
    rewrite (land_low s CGROUP_FREEZING) by reflexivity;
    by_low_bits s.
Qed.

(** Clearing FROZEN touches neither ONLINE nor the FREEZING union. *)
Lemma clear_frozen_bits (s : Z) :
  (Z.land (Z.land s (bitnot CGROUP_FROZEN)) CGROUP_FREEZER_ONLINE =? 0) =
  (Z.land s CGROUP_FREEZER_ONLINE =? 0) /\
  (Z.land (Z.land s (bitnot CGROUP_FROZEN)) CGROUP_FREEZING =? 0) =
  (Z.land s CGROUP_FREEZING =? 0) /\
  Z.land (Z.land s (bitnot CGROUP_FROZEN)) CGROUP_FROZEN = 0.
Proof.
  rewrite (land_land_low s _ CGROUP_FREEZING) by reflexivity.
  rewrite (land_land_low s _ CGROUP_FREEZER_ONLINE) by reflexivity.
  rewrite (land_land_low s _ CGROUP_FROZEN) by reflexivity.
  rewrite (land_low s CGROUP_FREEZER_ONLINE) by reflexivity.
  rewrite (land_low s CGROUP_FREEZING) by reflexivity.
  by_low_bits s.
Qed.

(** ** freezer_apply_state *)

Lemma freeze_tasks_fold l : forall st,
  fold_left (fun s t => emit (EvFreezeTask t) s) l st =
  with_trace (rev (map EvFreezeTask l)) st.
Proof.
  induction l as [|t l IH]; intros st; cbn [fold_left].
  - unfold with_trace. destruct st; reflexivity.
  - rewrite IH. unfold with_trace, emit. cbn [freezers task tasklist
      system_freezing_cnt trace map rev].
    now rewrite <- app_assoc.
Qed.

Lemma freeze_cgroup_trace f st :
  freeze_cgroup f st =
  with_trace (rev (map EvFreezeTask (css_tasks st f))) st.
Proof. apply freeze_tasks_fold. Qed.

Lemma freezers_map_same f h st :
  freezers (map_freezer f h st) f = h (freezers st f).
Proof. unfold map_freezer; cbn. apply upd_same. Qed.

Lemma freezers_map_other f x h st :
  x <> f -> freezers (map_freezer f h st) x = freezers st x.
Proof. intros Hne. unfold map_freezer; cbn. now apply upd_other. Qed.

(** What freezer_apply_state computes, case by case. *)
Lemma freezer_apply_state_cases f b flag st :
  let s := state (freezers st f) in
  let cnt := system_freezing_cnt st in
  let st' := freezer_apply_state f b flag st in
  if Z.land s CGROUP_FREEZER_ONLINE =? 0 then st' = st
  else if b then
    word_set f (Z.lor s flag)
      (if Z.land s CGROUP_FREEZING =? 0 then wrap_int (cnt + 1) else cnt)
      (rev (map EvFreezeTask (css_tasks st f))) st st'
  else if Z.land (Z.land s (bitnot flag)) CGROUP_FREEZING =? 0 then
    word_set f (Z.land (Z.land s (bitnot flag)) (bitnot CGROUP_FROZEN))
      (if negb (Z.land s CGROUP_FREEZING =? 0) then wrap_int (cnt - 1)
       else cnt)
      (rev (map EvThawTask
              (filter (has_uid st (last_uid st (css_tasks st f) UID_NONE))
                      (tasklist st)))
       ++ rev (map EvThawTask (css_tasks st f))) st st'
  else word_set f (Z.land s (bitnot flag)) cnt [] st st'.
Proof.
  cbv zeta. unfold freezer_apply_state.
  destruct (Z.land (state (freezers st f)) CGROUP_FREEZER_ONLINE =? 0);
    [reflexivity|].
  assert (Hupd : forall (F : fid -> freezer) v x,
            upd F f v x = if Nat.eqb x f then v else F x)
    by reflexivity.
  destruct b.
  - rewrite freeze_cgroup_trace.
    destruct (Z.land (state (freezers st f)) CGROUP_FREEZING =? 0);
      repeat split.
  - rewrite freezers_map_same. cbn [set_state state].
    destruct (Z.land (Z.land (state (freezers st f)) (bitnot flag))
                     CGROUP_FREEZING =? 0); [|repeat split].
    rewrite unfreeze_cgroup_trace.
    destruct (Z.land (state (freezers st f)) CGROUP_FREEZING =? 0);
      cbn [negb]; (split; [|repeat split]);
      intros x; unfold with_trace, map_freezer, atomic_dec;
      cbn [freezers]; rewrite !Hupd, !Nat.eqb_refl;
      destruct (Nat.eqb x f); reflexivity.
Qed.

Lemma word_set_at f z c evs st st' :
  word_set f z c evs st st' ->
  freezers st' f = set_state z (freezers st f) /\
  (forall x, x <> f -> freezers st' x = freezers st x).
Proof.
  intros (Hf & _). split.
  - rewrite Hf, Nat.eqb_refl. reflexivity.
  - intros x Hne. rewrite Hf.
    destruct (Nat.eqb_spec x f); [contradiction | reflexivity].
Qed.

Lemma word_set_only_freezer f b z c evs st st' :
  word_set f z c evs st st' ->
  (forall t, In (EvFreezeTask t) evs ->
             b = true /\ freezer_css (task st t) = f) ->
  only_freezer f b st st'.
Proof.
  intros Hws Hev. destruct (word_set_at _ _ _ _ _ _ Hws) as (Hat & Hother).
  destruct Hws as (_ & Ht & Hl & _ & Htr).
  repeat split; try assumption; try (rewrite Hat; reflexivity).
  exists evs. split; [exact Htr | exact Hev].
Qed.

Lemma freezer_apply_state_only_freezer f b flag st :
  only_freezer f b st (freezer_apply_state f b flag st).
Proof.
  pose proof (freezer_apply_state_cases f b flag st) as Hc. cbv zeta in Hc.
  destruct (Z.land (state (freezers st f)) CGROUP_FREEZER_ONLINE =? 0).
  - rewrite Hc. repeat split.
    exists []. split; [reflexivity|]. intros t [].
  - destruct b.
    + eapply word_set_only_freezer; [exact Hc|].
      intros t Hin. rewrite <- in_rev in Hin. apply in_map_iff in Hin.
      destruct Hin as (u & Hu & Hin). injection Hu as ->.
      apply freezer_css_tasks_spec in Hin. tauto.
    + destruct (Z.land (Z.land (state (freezers st f)) (bitnot flag))
                       CGROUP_FREEZING =? 0);
        (eapply word_set_only_freezer; [exact Hc|]).
      * intros t Hin. exfalso. apply in_app_iff in Hin.
        destruct Hin as [Hin|Hin]; rewrite <- in_rev in Hin;
          apply in_map_iff in Hin; destruct Hin as (u & Hu & _);
          discriminate.
      * intros t [].
Qed.

(** The global counter moves exactly on the transitions of the FREEZING
    union of an online group. *)
Lemma freezer_apply_state_counter f b flag st :
  freezing_flag flag ->
  let st' := freezer_apply_state f b flag st in
  let before := is_freezing (freezers st f) in
  let after := is_freezing (freezers st' f) in
  (is_online (freezers st f) = false -> st' = st) /\
  (is_online (freezers st f) = true ->
     is_online (freezers st' f) = true /\
     (b = true -> after = true) /\
     system_freezing_cnt st' =
       if negb before && after then wrap_int (system_freezing_cnt st + 1)
       else if before && negb after
            then wrap_int (system_freezing_cnt st - 1)
            else system_freezing_cnt st).
Proof.
  intros Hflag. cbv zeta. unfold is_online, is_freezing.
  pose proof (freezer_apply_state_cases f b flag st) as Hc. cbv zeta in Hc.
  set (s := state (freezers st f)) in *.
  destruct (set_flag_bits s flag Hflag) as (Hset_fr & Hset_on).
  destruct (clear_flag_bits s flag Hflag) as (Hclr_on & Hclr_fr).
  destruct (clear_frozen_bits (Z.land s (bitnot flag)))
    as (Hfz_on & Hfz_fr & _).
  destruct (Z.land s CGROUP_FREEZER_ONLINE =? 0) eqn:Hon; cbn [negb].
  - split; [intros _; exact Hc | discriminate].
  - split; [discriminate|]. intros _.
    destruct b.
    + destruct (word_set_at _ _ _ _ _ _ Hc) as (-> & _).
      destruct Hc as (_ & _ & _ & -> & _). cbn [set_state state].
      rewrite Hset_fr, Hset_on, ?Hon. cbn [negb].
      split; [reflexivity|]. split; [reflexivity|].
      destruct (Z.land s CGROUP_FREEZING =? 0); reflexivity.
    + destruct (Z.land (Z.land s (bitnot flag)) CGROUP_FREEZING =? 0)
        eqn:Hcleared.
      * destruct (word_set_at _ _ _ _ _ _ Hc) as (-> & _).
        destruct Hc as (_ & _ & _ & -> & _). cbn [set_state state].
        rewrite Hfz_on, Hfz_fr, Hclr_on, ?Hon, ?Hcleared. cbn [negb].
        split; [reflexivity|]. split; [discriminate|].
        destruct (Z.land s CGROUP_FREEZING =? 0); reflexivity.
      * destruct (word_set_at _ _ _ _ _ _ Hc) as (-> & _).
        destruct Hc as (_ & _ & _ & -> & _). cbn [set_state state].
        rewrite Hclr_on, ?Hon, ?Hcleared, ?(Hclr_fr eq_refl). cbn [negb].
        split; [reflexivity|]. split; [discriminate | reflexivity].
Qed.

(** ** The global counter counts the freezing online groups *)

Section FreezingCount.

Variable groups : list fid.
Hypothesis groups_nodup : NoDup groups.
Hypothesis groups_bound : Z.of_nat (length groups) < INT_MAX.

Lemma freezer_apply_state_count f b flag st :
  In f groups -> freezing_flag flag ->
  system_freezing_cnt st = nr_freezing groups st ->
  system_freezing_cnt (freezer_apply_state f b flag st) =
  nr_freezing groups (freezer_apply_state f b flag st).
Proof.
  intros Hf Hflag Hinv.
  destruct (freezer_apply_state_counter f b flag st Hflag)
    as (Hoff & Hon).
  destruct (freezer_apply_state_only_freezer f b flag st) as (Hother & _).
  set (st' := freezer_apply_state f b flag st) in *.
  destruct (is_online (freezers st f)) eqn:Honline.
  - destruct (Hon eq_refl) as (Hon' & _ & Hcnt).
    assert (Hnr : nr_freezing groups st' =
                  nr_freezing groups st
                  + b2z (is_freezing (freezers st' f))
                  - b2z (is_freezing (freezers st f))).
    { unfold nr_freezing.
      rewrite (count_change_one
                 (fun x => is_online (freezers st x) &&
                           is_freezing (freezers st x))
                 (fun x => is_online (freezers st' x) &&
                           is_freezing (freezers st' x))
                 f groups groups_nodup Hf).
      - now rewrite Hon', Honline.
      - intros u Hu. now rewrite (Hother u Hu). }
    pose proof (count_le_length
      (fun x => is_online (freezers st' x) && is_freezing (freezers st' x))
      groups) as Hle'.
    pose proof (count_le_length
      (fun x => is_online (freezers st x) && is_freezing (freezers st x))
      groups) as Hle.
    fold (nr_freezing groups st') in Hle'.
    fold (nr_freezing groups st) in Hle.
    rewrite Hcnt, Hnr, Hinv. rewrite Hnr in Hle'.
    destruct (is_freezing (freezers st f)),
             (is_freezing (freezers st' f)); cbn [negb andb b2z] in *;
      try lia;
      rewrite wrap_int_id; unfold INT_MIN, INT_MAX in *; lia.
  - rewrite (Hoff eq_refl). exact Hinv.
Qed.

End FreezingCount.

(** ** freezer_change_state *)

Lemma change_state_visits_none root b l :
  fold_left (change_state_visit root b) l None = None.
Proof. induction l as [|pos l IH]; [reflexivity | exact IH]. Qed.

(** A visit either skips the group or applies one state change to it. *)
Lemma change_state_visit_inv root b st pos st' :
  change_state_visit root b (Some st) pos = Some st' ->
  st' = st \/
  exists b' flag, freezing_flag flag /\
    st' = freezer_apply_state pos b' flag st /\
    (pos = root -> b' = b /\ flag = CGROUP_FREEZING_SELF).
Proof.
  cbn [change_state_visit].
  destruct (negb (css_online (freezers st pos))).
  - intros [= <-]. now left.
  - destruct (Nat.eqb_spec pos root) as [->|Hne].
    + intros [= <-]. right. exists b, CGROUP_FREEZING_SELF.
      split; [now left|]. split; [reflexivity | tauto].
    + destruct (css_parent (freezers st pos)) as [parent|]; [|discriminate].
      intros [= <-]. right.
      eexists _, CGROUP_FREEZING_PARENT.
      split; [now right|]. split; [reflexivity | contradiction].
Qed.

Lemma change_state_visit_frame root b st pos st' :
  change_state_visit root b (Some st) pos = Some st' ->
  (forall x, css_parent (freezers st' x) = css_parent (freezers st x) /\
             css_online (freezers st' x) = css_online (freezers st x) /\
             oem_freeze_flag (freezers st' x) =
               oem_freeze_flag (freezers st x)) /\
  task st' = task st /\ tasklist st' = tasklist st.
Proof.
  intros Hv. apply change_state_visit_inv in Hv.
  destruct Hv as [->|(b' & flag & _ & -> & _)]; [repeat split|].
  destruct (freezer_apply_state_only_freezer pos b' flag st)
    as (Hother & Hp & Ho & Hoem & Ht & Hl & _).
  split; [|split; assumption].
  intros x. destruct (Nat.eq_dec x pos) as [->|Hne]; [tauto|].
  rewrite (Hother x Hne). tauto.
Qed.

(** The walk runs to completion when every group below the root of the
    walk has a parent. *)
Lemma change_state_visits_defined root b l : forall st,
  (forall pos, In pos l -> pos <> root ->
               css_parent (freezers st pos) <> None) ->
  exists st',
    fold_left (change_state_visit root b) l (Some st) = Some st' /\
    (forall x, css_parent (freezers st' x) = css_parent (freezers st x) /\
               css_online (freezers st' x) = css_online (freezers st x) /\
               oem_freeze_flag (freezers st' x) =
                 oem_freeze_flag (freezers st x)) /\
    task st' = task st /\ tasklist st' = tasklist st.
Proof.
  induction l as [|pos l IH]; intros st Hl; cbn [fold_left].
  - exists st. repeat split.
  - assert (Hsome : exists st1,
              change_state_visit root b (Some st) pos = Some st1).
    { cbn [change_state_visit].
      destruct (negb _); [eauto|].
      destruct (Nat.eqb_spec pos root) as [->|Hne]; [eauto|].
      destruct (css_parent (freezers st pos)) eqn:Hp; [eauto|].
      exfalso. apply (Hl pos); [now left | exact Hne | exact Hp]. }
    destruct Hsome as (st1 & Hst1). rewrite Hst1.
    destruct (change_state_visit_frame _ _ _ _ _ Hst1) as (Hf1 & Ht1 & Hl1).
    destruct (IH st1) as (st' & Hfold & Hf & Ht & Hl').
    { intros p Hp Hne. destruct (Hf1 p) as (-> & _). apply Hl;
        [now right | exact Hne]. }
    exists st'. split; [exact Hfold|]. split; [|split; congruence].
    intros x. destruct (Hf x) as (A & B & C).
    destruct (Hf1 x) as (A1 & B1 & C1). repeat split; congruence.
Qed.

Lemma root_kept_refl f st : root_kept f st st.
Proof.
  repeat split. exists []. split; [reflexivity|]. intros t _ [].
Qed.

Lemma root_kept_trans f st1 st2 st3 :
  root_kept f st1 st2 -> root_kept f st2 st3 -> root_kept f st1 st3.
Proof.
  intros (A1 & T1 & L1 & evs1 & E1 & N1) (A2 & T2 & L2 & evs2 & E2 & N2).
  repeat split; try congruence.
  exists (evs2 ++ evs1). split.
  - rewrite E2, E1. apply app_assoc.
  - intros t Ht Hin. apply in_app_iff in Hin. destruct Hin as [Hin|Hin].
    + apply (N2 t); [now rewrite T1 | exact Hin].
    + now apply (N1 t).
Qed.

Lemma change_state_visits_root_kept f root b l : forall st st',
  ~ In f l ->
  fold_left (change_state_visit root b) l (Some st) = Some st' ->
  root_kept f st st'.
Proof.
  induction l as [|pos l IH]; intros st st' Hnotin; cbn [fold_left].
  - intros [= <-]. apply root_kept_refl.
  - destruct (change_state_visit root b (Some st) pos) as [st1|] eqn:Hv;
      [|rewrite change_state_visits_none; discriminate].
    intros Hfold.
    assert (Hne : pos <> f) by (intros ->; apply Hnotin; now left).
    eapply root_kept_trans;
      [|apply (IH st1 st'); [intros X; apply Hnotin; now right | exact Hfold]].
    apply change_state_visit_inv in Hv.
    destruct Hv as [->|(b' & flag & _ & -> & _)]; [apply root_kept_refl|].
    destruct (freezer_apply_state_only_freezer pos b' flag st)
      as (Hother & _ & _ & _ & Ht & Hl & evs & Htr & Hev).
    split; [apply Hother; congruence|]. split; [exact Ht|].
    split; [exact Hl|]. exists evs. split; [exact Htr|].
    intros t Hcss Hin. destruct (Hev t Hin) as (_ & Hpos). congruence.
Qed.

Section CountedWalk.

Variable desc : fid -> list fid.
Variable groups : list fid.
Hypothesis groups_nodup : NoDup groups.
Hypothesis groups_bound : Z.of_nat (length groups) < INT_MAX.

Lemma change_state_visits_count root b l : forall st st',
  (forall pos, In pos l -> In pos groups) ->
  system_freezing_cnt st = nr_freezing groups st ->
  fold_left (change_state_visit root b) l (Some st) = Some st' ->
  system_freezing_cnt st' = nr_freezing groups st'.
Proof.
  induction l as [|pos l IH]; intros st st' Hl Hinv; cbn [fold_left].
  - now intros [= <-].
  - destruct (change_state_visit root b (Some st) pos) as [st1|] eqn:Hv;
      [|rewrite change_state_visits_none; discriminate].
    apply IH; [intros p Hp; apply Hl; now right|].
    apply change_state_visit_inv in Hv.
    destruct Hv as [->|(b' & flag & Hflag & -> & _)]; [exact Hinv|].
    apply freezer_apply_state_count; try assumption. apply Hl. now left.
Qed.

Lemma freezer_change_state_count f b st :
  In f groups -> well_linked desc groups st ->
  system_freezing_cnt st = nr_freezing groups st ->
  exists st',
    freezer_change_state desc f b st = Some st' /\
    system_freezing_cnt st' = nr_freezing groups st' /\
    well_linked desc groups st' /\
    task st' = task st.
Proof.
  intros Hf Hwl Hinv. unfold freezer_change_state.
  set (st1 := map_freezer f (set_oem_freeze_flag (if b then 1 else 0)) st).
  assert (Hsame : forall x,
            css_parent (freezers st1 x) = css_parent (freezers st x) /\
            state (freezers st1 x) = state (freezers st x)).
  { intros x. unfold st1. destruct (Nat.eq_dec x f) as [->|Hne].
    - rewrite freezers_map_same. cbn. tauto.
    - rewrite freezers_map_other by assumption. tauto. }
  assert (Hinv1 : system_freezing_cnt st1 = nr_freezing groups st1).
  { cbn [st1 map_freezer system_freezing_cnt]. rewrite Hinv.
    unfold nr_freezing. f_equal. f_equal. apply filter_agree.
    intros x _. unfold is_online, is_freezing.
    now destruct (Hsame x) as (_ & ->). }
  destruct (change_state_visits_defined f b (desc f) st1)
    as (st' & Hfold & Hfr & Ht & Hl).
  { intros pos Hpos Hne. destruct (Hsame pos) as (-> & _).
    now apply (Hwl f pos Hf Hpos). }
  exists st'. split; [exact Hfold|]. split; [|split].
  - apply (change_state_visits_count f b (desc f) st1 st');
      [|exact Hinv1 | exact Hfold].
    intros pos Hpos. now apply (Hwl f pos Hf Hpos).
  - intros g pos Hg Hpos. destruct (Hwl g pos Hg Hpos) as (A & B).
    split; [exact A|]. destruct (Hfr pos) as (-> & _).
    destruct (Hsame pos) as (-> & _). exact B.
  - exact Ht.
Qed.

Lemma step_count o st :
  matched groups st o -> well_linked desc groups st ->
  system_freezing_cnt st = nr_freezing groups st ->
  exists st',
    step desc o st = Some st' /\
    system_freezing_cnt st' = nr_freezing groups st' /\
    well_linked desc groups st' /\
    task st' = task st.
Proof.
  intros Hm Hwl Hinv. destruct o as [f b|t]; cbn [step matched] in *.
  - now apply freezer_change_state_count.
  - unfold unfreezer_fork.
    destruct (task_css_is_root st t); [exists st; tauto|].
    destruct (negb _); [exists st; tauto|].
    now apply freezer_change_state_count.
Qed.

Lemma run_count ops : forall st,
  Forall (matched groups st) ops -> well_linked desc groups st ->
  system_freezing_cnt st = nr_freezing groups st ->
  exists st',
    run desc ops st = Some st' /\
    system_freezing_cnt st' = nr_freezing groups st'.
Proof.
  induction ops as [|o ops IH]; intros st Hm Hwl Hinv; cbn [run].
  - exists st. tauto.
  - inversion Hm as [|o' ops' Ho Hrest]; subst.
    destruct (step_count o st Ho Hwl Hinv) as (st1 & -> & Hinv1 & Hwl1 & Ht).
    apply IH; try assumption.
    eapply Forall_impl; [|exact Hrest].
    intros [f b|t]; cbn [matched]; unfold task_freezer; rewrite ?Ht; tauto.
Qed.

End CountedWalk.

(** C9: the global counter of freezing groups moves only on a transition of
    the FREEZING union of an online group: freezer_apply_state increments it
    exactly when the union of an online group goes from empty to non-empty,
    decrements it exactly when the union goes back to empty, and does not
    touch an offline group.  Hence, starting from a state in which the
    counter equals the number of online groups with a FREEZING flag, every
    sequence of freeze and thaw requests and fork hooks runs to completion
    and ends in a state in which it still does. *)
Theorem C9_counter_counts_freezing_groups (desc : fid -> list fid)
    (groups : list fid) (st : kstate) (ops : list op) :
  NoDup groups ->
  Z.of_nat (length groups) < INT_MAX ->
  well_linked desc groups st ->
  Forall (matched groups st) ops ->
  system_freezing_cnt st = nr_freezing groups st ->
  (exists st',
     run desc ops st = Some st' /\
     system_freezing_cnt st' = nr_freezing groups st') /\
  (forall f b flag s,
     freezing_flag flag ->
     let s' := freezer_apply_state f b flag s in
     let before := is_freezing (freezers s f) in
     let after := is_freezing (freezers s' f) in
     (is_online (freezers s f) = false -> s' = s) /\
     (is_online (freezers s f) = true ->
        system_freezing_cnt s' =
          if negb before && after
          then wrap_int (system_freezing_cnt s + 1)
          else if before && negb after
               then wrap_int (system_freezing_cnt s - 1)
               else system_freezing_cnt s)).
Proof.
  intros Hnd Hlen Hwl Hm Hinv. split.
  - now apply (run_count desc groups Hnd Hlen).
  - intros f b flag s Hflag.
    destruct (freezer_apply_state_counter f b flag s Hflag) as (Hoff & Hon).
    split; [exact Hoff|]. intros Honline.
    now destruct (Hon Honline) as (_ & _ & Hcnt).
Qed.

(** ** The fork hook *)

Lemma clear_self_bits (s : Z) :
  Z.land s CGROUP_FREEZING_PARENT = 0 ->
  (Z.land (Z.land s (bitnot CGROUP_FREEZING_SELF)) CGROUP_FREEZING =? 0) =
  true.
Proof.
  rewrite (land_low s CGROUP_FREEZING_PARENT) by reflexivity.
  rewrite (land_land_low s _ CGROUP_FREEZING) by reflexivity.
  by_low_bits s.
Qed.

(** C3 (amended): for a task forked into a non-root group whose extension
    flag records a freeze, the fork hook does not freeze the child: it
    withdraws the request of the group (freezer_change_state with thaw).
    The walk runs to completion, resets the flag to 0 and issues no freeze
    to the child; when the group is online and not frozen on behalf of an
    ancestor, its FREEZING and FROZEN flags are cleared and the child is
    thawed with the rest of the group. *)
Theorem C3_fork_hook_withdraws_freeze (desc : fid -> list fid) (t : tid)
    (st : kstate) :
  task_css_is_root st t = false ->
  oem_freeze_flag (freezers st (task_freezer st t)) = 1 ->
  let f := task_freezer st t in
  unfreezer_fork desc t st = freezer_change_state desc f false st /\
  forall rest,
    desc f = f :: rest -> ~ In f rest ->
    (forall pos, In pos rest -> css_parent (freezers st pos) <> None) ->
    exists st',
      unfreezer_fork desc t st = Some st' /\
      oem_freeze_flag (freezers st' f) = 0 /\
      ~ In (EvFreezeTask t) (emitted st st') /\
      (In t (tasklist st) ->
       css_online (freezers st f) = true ->
       is_online (freezers st f) = true ->
       Z.land (state (freezers st f)) CGROUP_FREEZING_PARENT = 0 ->
       In (EvThawTask t) (emitted st st') /\
       is_freezing (freezers st' f) = false /\
       Z.land (state (freezers st' f)) CGROUP_FROZEN = 0).
Proof.
  intros Hroot Hflag f.
  assert (Hfork : unfreezer_fork desc t st =
                  freezer_change_state desc f false st).
  { unfold unfreezer_fork, f. rewrite Hroot, Hflag. reflexivity. }
  split; [exact Hfork|].
  intros rest Hdesc Hnotin Hparents. rewrite Hfork.
  unfold freezer_change_state. rewrite Hdesc. cbn [fold_left].
  set (st1 := map_freezer f (set_oem_freeze_flag 0) st).
  assert (Hst1 : freezers st1 f = set_oem_freeze_flag 0 (freezers st f))
    by (unfold st1; apply freezers_map_same).
  assert (Hst1_other : forall x, x <> f -> freezers st1 x = freezers st x)
    by (intros x Hx; unfold st1; now apply freezers_map_other).
  (* the visit of the group itself *)
  assert (Hvisit : exists st2,
    change_state_visit f false (Some st1) f = Some st2 /\
    (forall x, x <> f -> freezers st2 x = freezers st x) /\
    oem_freeze_flag (freezers st2 f) = 0 /\
    task st2 = task st /\ tasklist st2 = tasklist st /\
    (exists evs, trace st2 = evs ++ trace st /\
       (forall u, ~ In (EvFreezeTask u) evs) /\
       (In t (tasklist st) ->
        css_online (freezers st f) = true ->
        is_online (freezers st f) = true ->
        Z.land (state (freezers st f)) CGROUP_FREEZING_PARENT = 0 ->
        In (EvThawTask t) evs /\
        is_freezing (freezers st2 f) = false /\
        Z.land (state (freezers st2 f)) CGROUP_FROZEN = 0))).
  { cbn [change_state_visit]. rewrite Nat.eqb_refl, Hst1.
    cbn [set_oem_freeze_flag css_online].
    destruct (css_online (freezers st f)) eqn:Honl; cbn [negb].
    - eexists. split; [reflexivity|].
      destruct (freezer_apply_state_only_freezer f false
                  CGROUP_FREEZING_SELF st1)
        as (Hother & _ & _ & Hoem & Ht & Hl & evs & Htr & Hev).
      split; [intros x Hx; rewrite (Hother x Hx); now apply Hst1_other|].
      split; [rewrite Hoem, Hst1; reflexivity|].
      split; [exact Ht|]. split; [exact Hl|].
      exists evs. split; [exact Htr|]. split.
      + intros u Hin. destruct (Hev u Hin) as (Hb & _). discriminate.
      + intros Hlive _ Hon Hpar.
        pose proof (freezer_apply_state_cases f false
                      CGROUP_FREEZING_SELF st1) as Hc.
        cbv zeta in Hc. rewrite Hst1 in Hc.
        cbn [set_oem_freeze_flag state] in Hc.
        unfold is_online in Hon.
        destruct (Z.land (state (freezers st f)) CGROUP_FREEZER_ONLINE =? 0);
          [discriminate|].
        rewrite (clear_self_bits _ Hpar) in Hc.
        destruct (word_set_at _ _ _ _ _ _ Hc) as (Hat & _).
        destruct Hc as (_ & _ & _ & _ & Htr').
        rewrite Htr in Htr'. apply app_inv_tail in Htr'. subst evs.
        destruct (clear_frozen_bits
                    (Z.land (state (freezers st f))
                            (bitnot CGROUP_FREEZING_SELF)))
          as (_ & Hfr & Hfz).
        split; [|split].
        * apply in_app_iff. right. rewrite <- in_rev. apply in_map.
          apply freezer_css_tasks_spec. split; [exact Hlive | reflexivity].
        * unfold is_freezing. rewrite Hat. cbn [set_state state].
          rewrite Hfr, (clear_self_bits _ Hpar). reflexivity.
        * rewrite Hat. cbn [set_state state]. exact Hfz.
    - exists st1. split; [reflexivity|].
      split; [exact Hst1_other|]. split; [now rewrite Hst1|].
      split; [reflexivity|]. split; [reflexivity|].
      exists []. split; [reflexivity|]. split; [intros u []|].
      intros _ Habs. discriminate. }
  destruct Hvisit as (st2 & -> & Hother2 & Hoem2 & Ht2 & Hl2 &
                      evs2 & Htr2 & Hnofreeze & Hthaw).
  (* the visits of the groups below *)
  destruct (change_state_visits_defined f false rest st2)
    as (st' & Hfold & _).
  { intros pos Hpos Hne. rewrite (Hother2 pos Hne). now apply Hparents. }
  exists st'. split; [exact Hfold|].
  destruct (change_state_visits_root_kept f f false rest st2 st'
              Hnotin Hfold) as (Hroot' & _ & _ & evs3 & Htr3 & Hno3).
  assert (Hem : emitted st st' = evs3 ++ evs2).
  { apply freezer_emitted_app. rewrite Htr3, Htr2. apply app_assoc. }
  split; [now rewrite Hroot'|]. split.
  - rewrite Hem. intros Hin. apply in_app_iff in Hin.
    destruct Hin as [Hin|Hin]; [|exact (Hnofreeze t Hin)].
    apply (Hno3 t); [now rewrite Ht2 | exact Hin].
  - intros Hlive Honl Hon Hpar.
    destruct (Hthaw Hlive Honl Hon Hpar) as (A & B & C).
    rewrite Hem, Hroot'. split; [|tauto].
    apply in_app_iff. now right.
Qed.

Lemma C3_fork_hook_witness :
  oem_freeze_flag
    (freezers LegacyExamples.lst0
       (task_freezer LegacyExamples.lst0 0%nat)) = 1 /\
  unfreezer_fork LegacyExamples.ldesc 0%nat LegacyExamples.lst0 =
  freezer_change_state LegacyExamples.ldesc 1%nat false LegacyExamples.lst0.
Proof.
  split; [reflexivity|].
  exact (proj1 (C3_fork_hook_withdraws_freeze LegacyExamples.ldesc 0%nat
                  LegacyExamples.lst0 eq_refl eq_refl)).
Defined.

(** C3, as stated, fails: task 0 is forked into the frozen non-root group 1
    whose extension flag is set; the hook thaws it and issues no freeze. *)
Lemma C3_fork_hook_does_not_freeze :
  ~ fork_enforces_freeze LegacyExamples.ldesc 0%nat LegacyExamples.lst0.
Proof.
  intros Hclaim.
  destruct (Hclaim eq_refl eq_refl) as (st' & Hrun & Hfreeze & Hthaw).
  vm_compute in Hrun. injection Hrun as <-.
  apply Hthaw. vm_compute. tauto.
Qed.

Lemma C9_counter_witness :
  system_freezing_cnt LegacyExamples.lst0 =
    nr_freezing [0; 1]%nat LegacyExamples.lst0 /\
  exists st',
    run LegacyExamples.ldesc
        [OpFork 0%nat; OpChangeState 0%nat true; OpChangeState 1%nat true;
         OpChangeState 0%nat false]
        LegacyExamples.lst0 = Some st' /\
    system_freezing_cnt st' = nr_freezing [0; 1]%nat st'.
Proof.
  assert (Hnd : NoDup [0; 1]%nat)
    by (repeat constructor; cbn; intuition discriminate).
  assert (Hlen : Z.of_nat (length [0; 1]%nat) < INT_MAX) by reflexivity.
  assert (Hwl : well_linked LegacyExamples.ldesc [0; 1]%nat
                  LegacyExamples.lst0).
  { intros f pos [<-|[<-|[]]] Hpos; cbn in Hpos;
      repeat (destruct Hpos as [<-|Hpos]); try contradiction;
      (split; [cbn; tauto | cbn; congruence]). }
  assert (Hm : Forall (matched [0; 1]%nat LegacyExamples.lst0)
                 [OpFork 0%nat; OpChangeState 0%nat true;
                  OpChangeState 1%nat true; OpChangeState 0%nat false])
    by (repeat constructor; cbn; tauto).
  assert (Hinv : system_freezing_cnt LegacyExamples.lst0 =
                 nr_freezing [0; 1]%nat LegacyExamples.lst0) by reflexivity.
  split; [exact Hinv|].
  exact (proj1 (C9_counter_counts_freezing_groups LegacyExamples.ldesc
                  [0; 1]%nat LegacyExamples.lst0 _ Hnd Hlen Hwl Hm Hinv)).
Defined.

(** ** The walk of freezer_change_state, group by group *)

Lemma parent_flag_bits (s : Z) :
  (Z.land (Z.lor s CGROUP_FREEZING_PARENT) CGROUP_FREEZING_PARENT =? 0)
    = false /\
  (Z.land (Z.land s (bitnot CGROUP_FREEZING_PARENT))
          CGROUP_FREEZING_PARENT =? 0) = true /\
  (Z.land (Z.land (Z.land s (bitnot CGROUP_FREEZING_PARENT))
                  (bitnot CGROUP_FROZEN))
          CGROUP_FREEZING_PARENT =? 0) = true.
Proof.
  rewrite (land_lor_low s _ CGROUP_FREEZING_PARENT) by reflexivity.
  rewrite (land_land_low (Z.land s (bitnot CGROUP_FREEZING_PARENT)) _
             CGROUP_FREEZING_PARENT) by reflexivity.
  rewrite (land_land_low s _ 15) by reflexivity.
  rewrite (land_land_low s _ CGROUP_FREEZING_PARENT) by reflexivity.
  by_low_bits s.
Qed.

Lemma self_flag_bits (s : Z) :
  (Z.land (Z.lor s CGROUP_FREEZING_SELF) CGROUP_FREEZING_SELF =? 0)
    = false /\
  (Z.land (Z.land s (bitnot CGROUP_FREEZING_SELF))
          CGROUP_FREEZING_SELF =? 0) = true /\
  (Z.land (Z.land (Z.land s (bitnot CGROUP_FREEZING_SELF))
                  (bitnot CGROUP_FROZEN))
          CGROUP_FREEZING_SELF =? 0) = true.
Proof.
  rewrite (land_lor_low s _ CGROUP_FREEZING_SELF) by reflexivity.
  rewrite (land_land_low (Z.land s (bitnot CGROUP_FREEZING_SELF)) _
             CGROUP_FREEZING_SELF) by reflexivity.
  rewrite (land_land_low s _ 15) by reflexivity.
  rewrite (land_land_low s _ CGROUP_FREEZING_SELF) by reflexivity.
  by_low_bits s.
Qed.

(** A flag test that succeeds makes the FREEZING union non-empty. *)
Lemma flag_in_union (s flag : Z) :
  freezing_flag flag ->
  (Z.land s flag =? 0) = false -> (Z.land s CGROUP_FREEZING =? 0) = false.
Proof.
  intros [->| ->];
    rewrite (land_low s CGROUP_FREEZING) by reflexivity;
    [rewrite (land_low s CGROUP_FREEZING_SELF) by reflexivity
    |rewrite (land_low s CGROUP_FREEZING_PARENT) by reflexivity];
    by_low_bits s.
Qed.

(** What freezer_apply_state leaves in the flag it was called with, and
    the freeze events it issues, for an online group. *)
Lemma freezer_apply_state_flag f (b : bool) flag st :
  flag = CGROUP_FREEZING_SELF \/ flag = CGROUP_FREEZING_PARENT ->
  is_online (freezers st f) = true ->
  let st' := freezer_apply_state f b flag st in
  (Z.land (state (freezers st' f)) flag =? 0) = negb b /\
  exists evs, trace st' = evs ++ trace st /\
    (b = true -> forall t, In t (css_tasks st f) -> In (EvFreezeTask t) evs).
Proof.
  intros Hflag Hon. cbv zeta.
  pose proof (freezer_apply_state_cases f b flag st) as Hc. cbv zeta in Hc.
  unfold is_online in Hon.
  destruct (Z.land (state (freezers st f)) CGROUP_FREEZER_ONLINE =? 0);
    [discriminate|].
  set (s := state (freezers st f)) in *.
  assert (Hbits :
    (Z.land (Z.lor s flag) flag =? 0) = false /\
    (Z.land (Z.land s (bitnot flag)) flag =? 0) = true /\
    (Z.land (Z.land (Z.land s (bitnot flag)) (bitnot CGROUP_FROZEN)) flag
       =? 0) = true)
    by (destruct Hflag as [->| ->];
        [apply self_flag_bits | apply parent_flag_bits]).
  destruct Hbits as (Hset & Hclr & Hclr2).
  destruct b.
  - destruct (word_set_at _ _ _ _ _ _ Hc) as (-> & _).
    destruct Hc as (_ & _ & _ & _ & Htr). cbn [set_state state negb].
    split; [exact Hset|]. eexists. split; [exact Htr|].
    intros _ t Ht. rewrite <- in_rev. now apply in_map.
  - destruct (Z.land (Z.land s (bitnot flag)) CGROUP_FREEZING =? 0);
      destruct (word_set_at _ _ _ _ _ _ Hc) as (-> & _);
      destruct Hc as (_ & _ & _ & _ & Htr); cbn [set_state state negb];
      (split; [assumption|]); eexists; (split; [exact Htr|]);
      discriminate.
Qed.

Lemma clear_parent_bits (s : Z) :
  Z.land s CGROUP_FREEZING_SELF = 0 ->
  (Z.land (Z.land s (bitnot CGROUP_FREEZING_PARENT)) CGROUP_FREEZING =? 0) =
  true.
Proof.
  rewrite (land_low s CGROUP_FREEZING_SELF) by reflexivity.
  rewrite (land_land_low s _ CGROUP_FREEZING) by reflexivity.
  by_low_bits s.
Qed.

(** A thaw that empties the FREEZING union of an online group clears FROZEN
    and thaws the tasks of the group. *)
Lemma freezer_apply_state_thaw f flag st :
  is_online (freezers st f) = true ->
  (Z.land (Z.land (state (freezers st f)) (bitnot flag)) CGROUP_FREEZING
     =? 0) = true ->
  let st' := freezer_apply_state f false flag st in
  is_freezing (freezers st' f) = false /\
  Z.land (state (freezers st' f)) CGROUP_FROZEN = 0 /\
  exists evs, trace st' = evs ++ trace st /\
    forall t, In t (css_tasks st f) -> In (EvThawTask t) evs.
Proof.
  intros Hon Hclr. cbv zeta.
  pose proof (freezer_apply_state_cases f false flag st) as Hc.
  cbv zeta in Hc. unfold is_online in Hon.
  destruct (Z.land (state (freezers st f)) CGROUP_FREEZER_ONLINE =? 0);
    [discriminate|].
  rewrite Hclr in Hc.
  destruct (word_set_at _ _ _ _ _ _ Hc) as (Hat & _).
  destruct Hc as (_ & _ & _ & _ & Htr).
  destruct (clear_frozen_bits
              (Z.land (state (freezers st f)) (bitnot flag)))
    as (_ & Hfr & Hfz).
  unfold is_freezing. rewrite Hat. cbn [set_state state].
  rewrite Hfr, Hclr. split; [reflexivity|]. split; [exact Hfz|].
  eexists. split; [exact Htr|].
  intros t Ht. apply in_app_iff. right. rewrite <- in_rev. now apply in_map.
Qed.

Lemma change_state_visits_some root b l st st' :
  fold_left (change_state_visit root b) l st = Some st' ->
  exists s, st = Some s.
Proof.
  destruct st as [s|]; [eauto|].
  rewrite change_state_visits_none. discriminate.
Qed.

(** What a completed walk leaves alone. *)
Lemma change_state_visits_frame root b l : forall st st',
  fold_left (change_state_visit root b) l (Some st) = Some st' ->
  (forall x, css_parent (freezers st' x) = css_parent (freezers st x) /\
             css_online (freezers st' x) = css_online (freezers st x) /\
             oem_freeze_flag (freezers st' x) =
               oem_freeze_flag (freezers st x)) /\
  task st' = task st /\ tasklist st' = tasklist st /\
  exists evs, trace st' = evs ++ trace st.
Proof.
  induction l as [|pos l IH]; intros st st'; cbn [fold_left].
  - intros [= <-]. repeat split. now exists [].
  - intros Hfold.
    destruct (change_state_visits_some _ _ _ _ _ Hfold) as (st1 & Hv).
    rewrite Hv in Hfold.
    destruct (change_state_visit_frame _ _ _ _ _ Hv) as (Hf1 & Ht1 & Hl1).
    destruct (IH st1 st' Hfold) as (Hf & Ht & Hl & evs & Htr).
    assert (Htr1 : exists evs1, trace st1 = evs1 ++ trace st).
    { apply change_state_visit_inv in Hv.
      destruct Hv as [->|(b' & flag & _ & -> & _)]; [now exists []|].
      destruct (freezer_apply_state_only_freezer pos b' flag st)
        as (_ & _ & _ & _ & _ & _ & evs1 & Htr1 & _).
      now exists evs1. }
    destruct Htr1 as (evs1 & Htr1).
    split; [|split; [congruence | split; [congruence|]]].
    + intros x. destruct (Hf x) as (A & B & C).
      destruct (Hf1 x) as (A1 & B1 & C1). repeat split; congruence.
    + exists (evs ++ evs1). rewrite Htr, Htr1. apply app_assoc.
Qed.

Section WalkByGroup.

Variable desc : fid -> list fid.

(** The visit of [pos] within a completed walk: the states before and
    after it, what the rest of the walk keeps, and where its events end up
    in the trace. *)
Lemma freezer_change_state_at f b st st' l1 pos l2 :
  freezer_change_state desc f b st = Some st' ->
  desc f = l1 ++ pos :: l2 ->
  ~ In pos l1 -> ~ In pos l2 ->
  exists sa sb,
    change_state_visit f b (Some sa) pos = Some sb /\
    (forall x, css_parent (freezers sa x) = css_parent (freezers st x) /\
               css_online (freezers sa x) = css_online (freezers st x)) /\
    task sa = task st /\ tasklist sa = tasklist st /\
    state (freezers sa pos) = state (freezers st pos) /\
    freezers st' pos = freezers sb pos /\
    (forall x, x <> pos -> ~ In x l2 -> freezers st' x = freezers sa x) /\
    exists ea evs eb,
      trace sb = evs ++ trace sa /\
      trace st' = ea ++ evs ++ eb ++ trace st.
Proof.
  unfold freezer_change_state. intros Hrun Hdesc Hn1 Hn2.
  set (st1 := map_freezer f (set_oem_freeze_flag (if b then 1 else 0)) st)
    in *.
  assert (Hsame : forall x,
            css_parent (freezers st1 x) = css_parent (freezers st x) /\
            css_online (freezers st1 x) = css_online (freezers st x) /\
            state (freezers st1 x) = state (freezers st x)).
  { intros x. unfold st1. destruct (Nat.eq_dec x f) as [->|Hne].
    - rewrite freezers_map_same. cbn. tauto.
    - rewrite freezers_map_other by assumption. tauto. }
  rewrite Hdesc, fold_left_app in Hrun. cbn [fold_left] in Hrun.
  destruct (change_state_visits_some _ _ _ _ _ Hrun) as (sb & Hsb).
  rewrite Hsb in Hrun.
  assert (Hsa : exists sa,
            fold_left (change_state_visit f b) l1 (Some st1) = Some sa).
  { destruct (fold_left (change_state_visit f b) l1 (Some st1)) as [sa|];
      [eauto | discriminate]. }
  destruct Hsa as (sa & Hsa). rewrite Hsa in Hsb.
  destruct (change_state_visits_frame _ _ _ _ _ Hsa)
    as (Hfa & Hta & Hla & eb & Htra).
  destruct (change_state_visits_root_kept pos f b l1 st1 sa Hn1 Hsa)
    as (Hkeep_a & _).
  exists sa, sb. split; [exact Hsb|].
  split; [|split; [exact Hta | split; [exact Hla|]]].
  { intros x. destruct (Hfa x) as (-> & -> & _).
    destruct (Hsame x) as (-> & -> & _). tauto. }
  split; [rewrite Hkeep_a; now destruct (Hsame pos) as (_ & _ & ->)|].
  destruct (change_state_visits_root_kept pos f b l2 sb st' Hn2 Hrun)
    as (Hkeep_b & _).
  split; [exact Hkeep_b|].
  assert (Hvisit : (forall x, x <> pos -> freezers sb x = freezers sa x) /\
                   exists evs, trace sb = evs ++ trace sa).
  { apply change_state_visit_inv in Hsb.
    destruct Hsb as [->|(b' & flag & _ & -> & _)];
      [split; [reflexivity | now exists []]|].
    destruct (freezer_apply_state_only_freezer pos b' flag sa)
      as (Hother & _ & _ & _ & _ & _ & evs & Htr & _).
    split; [exact Hother | now exists evs]. }
  destruct Hvisit as (Hother & evs & Htrb).
  split.
  - intros x Hx Hnx.
    destruct (change_state_visits_root_kept x f b l2 sb st' Hnx Hrun)
      as (-> & _).
    now apply Hother.
  - destruct (change_state_visits_frame _ _ _ _ _ Hrun)
      as (_ & _ & _ & ea & Htr').
    exists ea, evs, eb. split; [exact Htrb|].
    rewrite Htr', Htrb, Htra. reflexivity.
Qed.

Lemma parents_first_defined f b st :
  parents_first desc f st ->
  exists st', freezer_change_state desc f b st = Some st'.
Proof.
  intros (_ & Hpar). unfold freezer_change_state.
  destruct (change_state_visits_defined f b (desc f)
              (map_freezer f (set_oem_freeze_flag (if b then 1 else 0)) st))
    as (st' & Hfold & _); [|eauto].
  intros pos Hpos Hne. apply in_split in Hpos.
  destruct Hpos as (l1 & l2 & Hd).
  destruct (Hpar l1 pos l2 Hd Hne) as (p & Hp & _).
  rewrite freezers_map_other by assumption. congruence.
Qed.

(** The visit of an online group inside a completed walk. *)
Lemma freezer_change_state_visit_online f b st st' l1 pos l2 :
  freezer_change_state desc f b st = Some st' ->
  parents_first desc f st ->
  desc f = l1 ++ pos :: l2 ->
  fully_online st pos ->
  exists (b' : bool) flag,
    (pos = f -> b' = b /\ flag = CGROUP_FREEZING_SELF) /\
    (pos <> f -> flag = CGROUP_FREEZING_PARENT /\
       exists p, css_parent (freezers st pos) = Some p /\ In p l1 /\
                 b' = is_freezing (freezers st' p)) /\
    (Z.land (state (freezers st' pos)) flag =? 0) = negb b' /\
    (b' = true -> is_freezing (freezers st' pos) = true) /\
    (b' = true -> forall t, In t (css_tasks st pos) ->
                            In (EvFreezeTask t) (emitted st st')) /\
    (b' = false ->
     (Z.land (Z.land (state (freezers st pos)) (bitnot flag))
             CGROUP_FREEZING =? 0) = true ->
     is_freezing (freezers st' pos) = false /\
     Z.land (state (freezers st' pos)) CGROUP_FROZEN = 0 /\
     forall t, In t (css_tasks st pos) ->
               In (EvThawTask t) (emitted st st')).
Proof.
  intros Hrun (Hnd & Hpar) Hdesc (Hcss & Hon).
  assert (Hn : ~ In pos l1 /\ ~ In pos l2).
  { rewrite Hdesc in Hnd. apply NoDup_remove_2 in Hnd.
    rewrite in_app_iff in Hnd. tauto. }
  destruct Hn as (Hn1 & Hn2).
  destruct (freezer_change_state_at f b st st' l1 pos l2 Hrun Hdesc Hn1 Hn2)
    as (sa & sb & Hvisit & Hfr & Hta & Hla & Hstate & Hpos & Hrest &
        ea & evs & eb & Htrb & Htr').
  assert (Hon_a : is_online (freezers sa pos) = true)
    by (unfold is_online in *; now rewrite Hstate).
  assert (Hem : emitted st st' = ea ++ evs ++ eb).
  { apply freezer_emitted_app. rewrite Htr', <- !app_assoc. reflexivity. }
  assert (Htasks : css_tasks sa pos = css_tasks st pos)
    by (unfold css_tasks; now rewrite Hta, Hla).
  assert (Happly : forall (b' : bool) flag,
    flag = CGROUP_FREEZING_SELF \/ flag = CGROUP_FREEZING_PARENT ->
    sb = freezer_apply_state pos b' flag sa ->
    (Z.land (state (freezers st' pos)) flag =? 0) = negb b' /\
    (b' = true -> is_freezing (freezers st' pos) = true) /\
    (b' = true -> forall t, In t (css_tasks st pos) ->
                            In (EvFreezeTask t) (emitted st st')) /\
    (b' = false ->
     (Z.land (Z.land (state (freezers st pos)) (bitnot flag))
             CGROUP_FREEZING =? 0) = true ->
     is_freezing (freezers st' pos) = false /\
     Z.land (state (freezers st' pos)) CGROUP_FROZEN = 0 /\
     forall t, In t (css_tasks st pos) ->
               In (EvThawTask t) (emitted st st'))).
  { intros b' flag Hflag Hsb.
    destruct (freezer_apply_state_flag pos b' flag sa Hflag Hon_a)
      as (Hbit & evs' & Htr_v & Hev).
    rewrite <- Hsb in Hbit, Htr_v. rewrite Htrb in Htr_v.
    apply app_inv_tail in Htr_v. subst evs'.
    rewrite Hpos. split; [exact Hbit|]. split; [|split].
    - intros ->. unfold is_freezing.
      now rewrite (flag_in_union _ flag Hflag Hbit).
    - intros Hb t Ht. rewrite Hem, !in_app_iff. right. left.
      apply (Hev Hb). now rewrite Htasks.
    - intros Hb Hclr. rewrite <- Hstate in Hclr.
      destruct (freezer_apply_state_thaw pos flag sa Hon_a Hclr)
        as (Hnf & Hfz & evs2 & Htr2 & Hthaw).
      rewrite Hb in Hsb. rewrite <- Hsb in Hnf, Hfz, Htr2.
      rewrite Htrb in Htr2. apply app_inv_tail in Htr2. subst evs2.
      split; [exact Hnf|]. split; [exact Hfz|].
      intros t Ht. rewrite Hem, !in_app_iff. right. left.
      apply Hthaw. now rewrite Htasks. }
  cbn [change_state_visit] in Hvisit.
  destruct (Hfr pos) as (Hpa & Hca). rewrite Hca, Hcss in Hvisit.
  cbn [negb] in Hvisit.
  destruct (Nat.eqb_spec pos f) as [Heq|Hne].
  - injection Hvisit as Hsb. symmetry in Hsb.
    exists b, CGROUP_FREEZING_SELF.
    split; [tauto|]. split; [contradiction|].
    apply Happly; [now left | exact Hsb].
  - destruct (Hpar l1 pos l2 Hdesc Hne) as (p & Hp & Hin).
    rewrite Hpa, Hp in Hvisit. injection Hvisit as Hsb. symmetry in Hsb.
    assert (Hp_kept : freezers st' p = freezers sa p).
    { apply Hrest; [intros ->; contradiction|].
      intros Hin2. rewrite Hdesc in Hnd.
      apply (NoDup_app_disjoint l1 (pos :: l2) p Hnd Hin). now right. }
    exists (is_freezing (freezers st' p)), CGROUP_FREEZING_PARENT.
    split; [contradiction|]. split; [split; [reflexivity|]; eauto|].
    apply Happly; [now right|]. rewrite Hsb, Hp_kept. reflexivity.
Qed.

(** X14: once freezer_change_state has walked the subtree of [f], every
    fully online group below [f] carries the FREEZING_PARENT flag exactly
    when its parent ends up with a FREEZING flag, and [f] itself, when
    online, carries FREEZING_SELF exactly when a freeze was asked for. *)
Theorem descendants_inherit_freezing (f : fid) (b : bool) (st : kstate) :
  parents_first desc f st ->
  exists st',
    freezer_change_state desc f b st = Some st' /\
    (In f (desc f) -> fully_online st f ->
     (Z.land (state (freezers st' f)) CGROUP_FREEZING_SELF =? 0) = negb b) /\
    (forall pos p, In pos (desc f) -> pos <> f -> fully_online st pos ->
       css_parent (freezers st pos) = Some p ->
       (Z.land (state (freezers st' pos)) CGROUP_FREEZING_PARENT =? 0) =
       negb (is_freezing (freezers st' p))).
Proof.
  intros Hpf. destruct (parents_first_defined f b st Hpf) as (st' & Hrun).
  exists st'. split; [exact Hrun|]. split.
  - intros Hin Hon. apply in_split in Hin. destruct Hin as (l1 & l2 & Hd).
    destruct (freezer_change_state_visit_online f b st st' l1 f l2
                Hrun Hpf Hd Hon) as (b' & flag & Hroot & _ & Hbit & _).
    destruct (Hroot eq_refl) as (-> & ->). exact Hbit.
  - intros pos p Hin Hne Hon Hp. apply in_split in Hin.
    destruct Hin as (l1 & l2 & Hd).
    destruct (freezer_change_state_visit_online f b st st' l1 pos l2
                Hrun Hpf Hd Hon) as (b' & flag & _ & Hsub & Hbit & _).
    destruct (Hsub Hne) as (-> & q & Hq & _ & ->).
    rewrite Hp in Hq. injection Hq as <-. exact Hbit.
Qed.

(** X15: a freeze request on [f] whose subtree is fully online reaches the
    whole subtree: the walk runs to completion, every group of the subtree
    ends up with a FREEZING flag, and every task of every group of the
    subtree is sent a freeze. *)
Theorem freeze_reaches_online_subtree (f : fid) (st : kstate) :
  parents_first desc f st ->
  (forall pos, In pos (desc f) -> fully_online st pos) ->
  exists st',
    freezer_change_state desc f true st = Some st' /\
    (forall pos, In pos (desc f) ->
       is_freezing (freezers st' pos) = true) /\
    (forall t, In t (tasklist st) ->
       In (freezer_css (task st t)) (desc f) ->
       In (EvFreezeTask t) (emitted st st')).
Proof.
  intros Hpf Hon. destruct (parents_first_defined f true st Hpf)
    as (st' & Hrun).
  exists st'. split; [exact Hrun|].
  assert (Hprefix : forall l1 l2, desc f = l1 ++ l2 ->
            forall pos, In pos l1 ->
              is_freezing (freezers st' pos) = true /\
              forall t, In t (css_tasks st pos) ->
                        In (EvFreezeTask t) (emitted st st')).
  { intros l1. induction l1 as [|x l IH] using rev_ind;
      intros l2 Hd pos Hpos; [destruct Hpos|].
    rewrite <- app_assoc in Hd. cbn [app] in Hd.
    apply in_app_iff in Hpos. destruct Hpos as [Hpos|[<-|[]]];
      [now apply (IH (x :: l2))|].
    assert (Hx : In x (desc f))
      by (rewrite Hd, in_app_iff; right; now left).
    destruct (freezer_change_state_visit_online f true st st' l x l2
                Hrun Hpf Hd (Hon x Hx))
      as (b' & flag & Hroot & Hsub & _ & Hfrz & Hev & _).
    assert (Hb' : b' = true).
    { destruct (Nat.eq_dec x f) as [Heq|Hne].
      - now destruct (Hroot Heq).
      - destruct (Hsub Hne) as (_ & p & _ & Hin & ->).
        now destruct (IH (x :: l2) Hd p Hin). }
    split; [now apply Hfrz | now apply Hev]. }
  split.
  - intros pos Hpos.
    now destruct (Hprefix (desc f) [] (eq_sym (app_nil_r _)) pos Hpos).
  - intros t Hlive Hin.
    destruct (Hprefix (desc f) [] (eq_sym (app_nil_r _)) _ Hin) as (_ & Hev).
    apply Hev. apply freezer_css_tasks_spec. tauto.
Qed.

(** X16: a thaw request on [f] whose subtree is fully online, where [f] is
    not frozen on behalf of a group above it and no group below [f] is
    frozen on its own request, reaches the whole subtree: the walk runs to
    completion, every group of the subtree ends with neither a FREEZING
    flag nor FROZEN, and every task of every group of the subtree is
    thawed. *)
Theorem thaw_reaches_online_subtree (f : fid) (st : kstate) :
  parents_first desc f st ->
  (forall pos, In pos (desc f) -> fully_online st pos) ->
  Z.land (state (freezers st f)) CGROUP_FREEZING_PARENT = 0 ->
  (forall pos, In pos (desc f) -> pos <> f ->
     Z.land (state (freezers st pos)) CGROUP_FREEZING_SELF = 0) ->
  exists st',
    freezer_change_state desc f false st = Some st' /\
    (forall pos, In pos (desc f) ->
       is_freezing (freezers st' pos) = false /\
       Z.land (state (freezers st' pos)) CGROUP_FROZEN = 0) /\
    (forall t, In t (tasklist st) ->
       In (freezer_css (task st t)) (desc f) ->
       In (EvThawTask t) (emitted st st')).
Proof.
  intros Hpf Hon Hroot_free Hsub_free.
  destruct (parents_first_defined f false st Hpf) as (st' & Hrun).
  exists st'. split; [exact Hrun|].
  assert (Hprefix : forall l1 l2, desc f = l1 ++ l2 ->
            forall pos, In pos l1 ->
              is_freezing (freezers st' pos) = false /\
              Z.land (state (freezers st' pos)) CGROUP_FROZEN = 0 /\
              forall t, In t (css_tasks st pos) ->
                        In (EvThawTask t) (emitted st st')).
  { intros l1. induction l1 as [|x l IH] using rev_ind;
      intros l2 Hd pos Hpos; [destruct Hpos|].
    rewrite <- app_assoc in Hd. cbn [app] in Hd.
    apply in_app_iff in Hpos. destruct Hpos as [Hpos|[<-|[]]];
      [now apply (IH (x :: l2))|].
    assert (Hx : In x (desc f))
      by (rewrite Hd, in_app_iff; right; now left).
    destruct (freezer_change_state_visit_online f false st st' l x l2
                Hrun Hpf Hd (Hon x Hx))
      as (b' & flag & Hroot & Hsub & _ & _ & _ & Hthaw).
    destruct (Nat.eq_dec x f) as [Heq|Hne].
    - destruct (Hroot Heq) as (-> & ->). apply Hthaw; [reflexivity|].
      apply clear_self_bits. now rewrite Heq.
    - destruct (Hsub Hne) as (-> & p & _ & Hin & ->).
      destruct (IH (x :: l2) Hd p Hin) as (Hp & _).
      apply Hthaw; [exact Hp|].
      apply clear_parent_bits. now apply Hsub_free. }
  split.
  - intros pos Hpos.
    destruct (Hprefix (desc f) [] (eq_sym (app_nil_r _)) pos Hpos)
      as (A & B & _). tauto.
  - intros t Hlive Hin.
    destruct (Hprefix (desc f) [] (eq_sym (app_nil_r _)) _ Hin)
      as (_ & _ & Hev).
    apply Hev. apply freezer_css_tasks_spec. tauto.
Qed.

(** X17: the fork hook disarms itself.  When a call of the hook returns,
    either the forked task lives in the root group or the extension flag
    of its group is not 1 any more, so that the hook does nothing for the
    next task forked into the same group until a new freeze is asked
    for. *)
Theorem fork_hook_fires_once (t u : tid) (st st' : kstate) :
  unfreezer_fork desc t st = Some st' ->
  task_freezer st u = task_freezer st t ->
  unfreezer_fork desc u st' = Some st'.
Proof.
  unfold unfreezer_fork, task_css_is_root. intros Hfork Hsame.
  rewrite <- Hsame in Hfork.
  set (f := task_freezer st u) in *.
  destruct (css_parent (freezers st f)) as [p|] eqn:Hp.
  2:{ injection Hfork as <-. fold f. now rewrite Hp. }
  destruct (negb (oem_freeze_flag (freezers st f) =? 1)) eqn:Hflag.
  { injection Hfork as <-. fold f. now rewrite Hp, Hflag. }
  unfold freezer_change_state in Hfork.
  destruct (change_state_visits_frame _ _ _ _ _ Hfork)
    as (Hfr & Ht & _).
  assert (Hf' : task_freezer st' u = f)
    by (unfold task_freezer, f; now rewrite Ht).
  rewrite Hf'. destruct (Hfr f) as (-> & _ & ->).
  rewrite freezers_map_same. cbn [set_oem_freeze_flag css_parent
    oem_freeze_flag]. now rewrite Hp.
Qed.

End WalkByGroup.

(** X18: when no task of the group carries credentials - in particular
    when the group has no task - unfreeze_cgroup still walks all threads of
    the system with the initial value (uid_t)-1 of its UID variable: it
    thaws the tasks of the group and exactly those threads whose real UID
    is (uid_t)-1. *)
Theorem unfreeze_without_credentials (f : fid) (st : kstate) :
  (forall t, In t (css_tasks st f) -> real_cred (task st t) = None) ->
  let st' := unfreeze_cgroup f st in
  forall p, In (EvThawTask p) (emitted st st') <->
            In p (css_tasks st f) \/
            (In p (tasklist st) /\ real_cred (task st p) = Some UID_NONE).
Proof.
  intros Hnone st' p. unfold st'.
  rewrite unfreeze_cgroup_trace, (last_uid_none st _ _ Hnone).
  set (evs := _ ++ _).
  rewrite (freezer_emitted_app st (with_trace evs st) evs) by reflexivity.
  unfold evs. rewrite in_app_iff, <- !in_rev, !in_map_iff.
  split.
  - intros [(q & [= ->] & Hq)|(q & [= ->] & Hq)]; [right | now left].
    apply filter_In in Hq. destruct Hq as (Hq & Hu). split; [exact Hq|].
    unfold has_uid in Hu. destruct (real_cred (task st p)) as [v|];
      [|discriminate].
    apply Z.eqb_eq in Hu. now subst.
  - intros [Hown|(Hlive & Hcred)]; [right; now exists p|].
    left. exists p. split; [reflexivity|]. apply filter_In.
    split; [exact Hlive|]. unfold has_uid. rewrite Hcred. apply Z.eqb_refl.
Qed.

(** ** The properties above, evaluated on the example system *)

Lemma lst0_parents_first :
  parents_first LegacyExamples.ldesc 0%nat LegacyExamples.lst0.
Proof.
  split.
  - cbn. repeat constructor; cbn; intuition discriminate.
  - intros l1 pos l2 Hd Hne. cbn in Hd.
    destruct l1 as [|a [|a' l1]]; cbn in Hd.
    + injection Hd as <- _. contradiction.
    + injection Hd as <- <- _. exists 0%nat. split; [reflexivity | now left].
    + injection Hd as _ _ Hd. destruct l1; discriminate.
Qed.

Lemma lst0_fully_online pos :
  In pos (LegacyExamples.ldesc 0%nat) ->
  fully_online LegacyExamples.lst0 pos.
Proof. intros [<-|[<-|[]]]; split; reflexivity. Qed.

Lemma descendants_inherit_freezing_witness :
  exists st',
    freezer_change_state LegacyExamples.ldesc 0%nat true LegacyExamples.lst0
      = Some st' /\
    (Z.land (state (freezers st' 1%nat)) CGROUP_FREEZING_PARENT =? 0) =
    negb (is_freezing (freezers st' 0%nat)).
Proof.
  destruct (descendants_inherit_freezing LegacyExamples.ldesc 0%nat true
              LegacyExamples.lst0 lst0_parents_first)
    as (st' & Hrun & _ & Hsub).
  exists st'. split; [exact Hrun|].
  apply Hsub.
  - right. now left.
  - discriminate.
  - apply lst0_fully_online. right. now left.
  - reflexivity.
Defined.

Lemma freeze_reaches_online_subtree_witness :
  exists st',
    freezer_change_state LegacyExamples.ldesc 0%nat true LegacyExamples.lst0
      = Some st' /\
    is_freezing (freezers st' 1%nat) = true /\
    In (EvFreezeTask 0%nat) (emitted LegacyExamples.lst0 st').
Proof.
  destruct (freeze_reaches_online_subtree LegacyExamples.ldesc 0%nat
              LegacyExamples.lst0 lst0_parents_first lst0_fully_online)
    as (st' & Hrun & Hfrz & Hev).
  exists st'. split; [exact Hrun|]. split.
  - apply Hfrz. right. now left.
  - apply Hev; [now left | right; now left].
Defined.

Lemma thaw_reaches_online_subtree_witness :
  exists st',
    freezer_change_state LegacyExamples.ldesc 1%nat false LegacyExamples.lst0
      = Some st' /\
    is_freezing (freezers st' 1%nat) = false /\
    In (EvThawTask 0%nat) (emitted LegacyExamples.lst0 st').
Proof.
  assert (Hpf : parents_first LegacyExamples.ldesc 1%nat LegacyExamples.lst0).
  { split.
    - cbn. repeat constructor; cbn; intuition discriminate.
    - intros l1 pos l2 Hd Hne. cbn in Hd. destruct l1 as [|a l1]; cbn in Hd.
      + injection Hd as <- _. contradiction.
      + injection Hd as _ Hd. destruct l1; discriminate. }
  assert (Hon : forall pos, In pos (LegacyExamples.ldesc 1%nat) ->
                            fully_online LegacyExamples.lst0 pos)
    by (intros pos [<-|[]]; split; reflexivity).
  assert (Hsub : forall pos, In pos (LegacyExamples.ldesc 1%nat) ->
            pos <> 1%nat ->
            Z.land (state (freezers LegacyExamples.lst0 pos))
                   CGROUP_FREEZING_SELF = 0)
    by (intros pos [<-|[]] Hne; contradiction).
  destruct (thaw_reaches_online_subtree LegacyExamples.ldesc 1%nat
              LegacyExamples.lst0 Hpf Hon eq_refl Hsub)
    as (st' & Hrun & Hfrz & Hev).
  exists st'. split; [exact Hrun|]. split.
  - apply Hfrz. now left.
  - apply Hev; now left.
Defined.

Lemma fork_hook_fires_once_witness :
  exists st',
    unfreezer_fork LegacyExamples.ldesc 0%nat LegacyExamples.lst0 = Some st'
    /\ unfreezer_fork LegacyExamples.ldesc 0%nat st' = Some st'.
Proof.
  destruct (unfreezer_fork LegacyExamples.ldesc 0%nat LegacyExamples.lst0)
    as [st'|] eqn:Hfork; [|discriminate Hfork].
  exists st'. split; [reflexivity|].
  exact (fork_hook_fires_once LegacyExamples.ldesc 0%nat 0%nat
           LegacyExamples.lst0 st' Hfork eq_refl).
Defined.

Lemma unfreeze_without_credentials_witness :
  In (EvThawTask 2%nat)
     (emitted LegacyExamples.lst0
        (unfreeze_cgroup 5%nat LegacyExamples.lst0)) <->
  In 2%nat (css_tasks LegacyExamples.lst0 5%nat) \/
  (In 2%nat (tasklist LegacyExamples.lst0) /\
   real_cred (task LegacyExamples.lst0 2%nat) = Some UID_NONE).
Proof.
  assert (Hnone : forall t, In t (css_tasks LegacyExamples.lst0 5%nat) ->
            real_cred (task LegacyExamples.lst0 t) = None)
    by (intros t []).
  exact (unfreeze_without_credentials 5%nat LegacyExamples.lst0 Hnone
           2%nat).
Defined.

End LegacyFacts.
